(** * Kernel Chunker: the segmenter and the sequential-copy controller

    A shallow embedding of [kernel_chunker.pyw].  Part I gives the data
    model and the operations of the program: the values [json.loads]
    produces, [chunk_single_kernel] as a function on mappings and again on
    an object store, and the slots of the [KernelChunker] widget as
    computations over its attributes.  Part II states and proves the
    properties of the specification. *)

From Stdlib Require Import ZArith String Ascii List Bool Lia Permutation.
From Stdlib Require Import Floats.PrimFloat DecimalString.
From stdpp Require Import base list.
Import ListNotations.
Set Warnings "-register-all".
Open Scope string_scope.
Open Scope nat_scope.
Open Scope list_scope.

(** * Part I: the program *)

(** ** Python values *)

(** What [json.loads] builds: [None], [bool], [int], [float], [str], [list]
    and [dict] with [str] keys.  A [dict] keeps its entries in insertion
    order, so it is a list of entries; the operations below never add a key
    twice. *)
Inductive value : Type :=
| VNone
| VBool (b : bool)
| VInt (z : Z)
| VFloat (f : float)
| VStr (s : string)
| VList (items : list value)
| VDict (entries : list (string * value)).

Definition dict : Type := list (string * value).

(** The operations on a dict do not look at the values it holds; they are
    stated for any type of value and used again in the object store. *)

(** [d[key]]; [None] stands for [KeyError]. *)
Fixpoint dict_lookup {V : Type} (d : list (string * V)) (key : string) : option V :=
  match d with
  | [] => None
  | (k, v) :: rest => if String.eqb k key then Some v else dict_lookup rest key
  end.

(** [key in d] *)
Definition dict_contains {V : Type} (d : list (string * V)) (key : string) : bool :=
  match dict_lookup d key with Some _ => true | None => false end.

(** [d.get(key, default)] *)
Definition dict_get {V : Type} (d : list (string * V)) (key : string) (default : V) : V :=
  match dict_lookup d key with Some v => v | None => default end.

(** [d[key] = v]: an existing key keeps its position, a new one goes last. *)
Fixpoint dict_setitem {V : Type} (d : list (string * V)) (key : string) (v : V)
  : list (string * V) :=
  match d with
  | [] => [(key, v)]
  | (k, w) :: rest =>
      if String.eqb k key then (k, v) :: rest else (k, w) :: dict_setitem rest key v
  end.

(** [d.update(other)], which is also what [**other] does inside a display. *)
Definition dict_update {V : Type} (d other : list (string * V)) : list (string * V) :=
  fold_left (fun acc kv => dict_setitem acc (fst kv) (snd kv)) other d.

(** A dict display [{k1: v1, ..., kn: vn}], evaluated left to right. *)
Definition dict_display {V : Type} (entries : list (string * V)) : list (string * V) :=
  dict_update [] entries.

(** Truth value of an object, as [if x:] and [not x] test it. *)
Definition truthy (v : value) : bool :=
  match v with
  | VNone => false
  | VBool b => b
  | VInt z => negb (z =? 0)%Z
  | VFloat f => negb (PrimFloat.eqb f 0%float)
  | VStr s => negb (String.eqb s "")
  | VList items => match items with [] => false | _ => true end
  | VDict entries => match entries with [] => false | _ => true end
  end.

(** ** The segmenter *)

(** [for key in keys: if key in kernel: target[key] = kernel[key]] *)
Definition copy_present {V : Type} (kernel : list (string * V)) (keys : list string)
           (target : list (string * V)) : list (string * V) :=
  fold_left
    (fun acc key =>
       match dict_lookup kernel key with
       | Some v => dict_setitem acc key v
       | None => acc
       end)
    keys target.

(** The body of [chunk_single_kernel] up to its [return]: the ten blocks in
    source order, each appending at most one section to [sections]. *)
Definition extract_sections (kernel : dict) : list dict :=
  let sections : list dict := [] in
  (* 1. Header - identity info *)
  let header :=
    copy_present kernel
      ["id"; "title"; "version"; "extraction_date"; "source"; "deck_id";
       "kernel_count"; "compression_ratio"] [] in
  let sections :=
    if truthy (VDict header) then
      sections ++ [dict_display
        [("section", VStr "header");
         ("title", dict_get kernel "title" (VStr "Header"));
         ("id", dict_get kernel "id" (VStr "unknown"));
         ("data", VDict header)]]
    else sections in
  (* 2. Emotional Arc *)
  let sections :=
    match dict_lookup kernel "emotional_arc" with
    | Some v =>
        sections ++ [dict_display
          [("section", VStr "emotional_arc");
           ("title", VStr "Emotional Arc");
           ("id", dict_get kernel "id" (VStr "unknown"));
           ("emotional_arc", v)]]
    | None => sections
    end in
  (* 3. Heat Signature *)
  let sections :=
    match dict_lookup kernel "heat_signature" with
    | Some v =>
        sections ++ [dict_display
          [("section", VStr "heat_signature");
           ("title", VStr "Heat Signature");
           ("id", dict_get kernel "id" (VStr "unknown"));
           ("heat_signature", v)]]
    | None => sections
    end in
  (* 4. Language & Motifs *)
  let lang_motifs : dict := [] in
  let lang_motifs :=
    match dict_lookup kernel "language_patterns" with
    | Some v => dict_setitem lang_motifs "language_patterns" v
    | None => lang_motifs
    end in
  let lang_motifs :=
    match dict_lookup kernel "motifs" with
    | Some v => dict_setitem lang_motifs "motifs" v
    | None => lang_motifs
    end in
  let sections :=
    if truthy (VDict lang_motifs) then
      sections ++ [dict_update
        (dict_display
           [("section", VStr "language_motifs");
            ("title", VStr "Language & Motifs");
            ("id", dict_get kernel "id" (VStr "unknown"))])
        lang_motifs]
    else sections in
  (* 5. Physical Anchors *)
  let sections :=
    match dict_lookup kernel "physical_anchors" with
    | Some v =>
        sections ++ [dict_display
          [("section", VStr "physical_anchors");
           ("title", VStr "Physical Anchors");
           ("id", dict_get kernel "id" (VStr "unknown"));
           ("physical_anchors", v)]]
    | None => sections
    end in
  (* 6. Visual Description (for visual ETA kernels) *)
  let sections :=
    match dict_lookup kernel "visual_description" with
    | Some v =>
        sections ++ [dict_display
          [("section", VStr "visual_description");
           ("title", VStr "Visual Description");
           ("id", dict_get kernel "id" (VStr "unknown"));
           ("visual_description", v)]]
    | None => sections
    end in
  (* 7. Dynamics - consent, power, aftercare *)
  let dynamics :=
    copy_present kernel ["consent_pattern"; "power_dynamic"; "aftercare"] [] in
  let sections :=
    if truthy (VDict dynamics) then
      sections ++ [dict_update
        (dict_display
           [("section", VStr "dynamics");
            ("title", VStr "Relationship Dynamics");
            ("id", dict_get kernel "id" (VStr "unknown"))])
        dynamics]
    else sections in
  (* 8. Boundaries & Core Truth *)
  let core :=
    copy_present kernel
      ["pattern_boundaries"; "what_makes_it_work"; "core_truth"; "why_it_matters"] [] in
  let sections :=
    if truthy (VDict core) then
      sections ++ [dict_update
        (dict_display
           [("section", VStr "core_truth");
            ("title", VStr "Core Truth & Boundaries");
            ("id", dict_get kernel "id" (VStr "unknown"))])
        core]
    else sections in
  (* 9. Cubic Attractor (identity system) *)
  let sections :=
    match dict_lookup kernel "cubic_attractor" with
    | Some v =>
        sections ++ [dict_display
          [("section", VStr "cubic_attractor");
           ("title", VStr "Cubic Attractor (Identity)");
           ("id", dict_get kernel "id" (VStr "unknown"));
           ("cubic_attractor", v)]]
    | None => sections
    end in
  (* 10. Export & Closing *)
  let export :=
    copy_present kernel
      ["replication_notes"; "export_notes"; "closing_image"; "heat_at_close"; "sigil"] [] in
  let sections :=
    if truthy (VDict export) then
      sections ++ [dict_update
        (dict_display
           [("section", VStr "export");
            ("title", VStr "Export Notes");
            ("id", dict_get kernel "id" (VStr "unknown"))])
        export]
    else sections in
  sections.

(** [chunk_single_kernel]:
    [return sections if len(sections) > 1 else [kernel]]. *)
Definition chunk_single_kernel (kernel : dict) : list dict :=
  let sections := extract_sections kernel in
  if 1 <? length sections then sections else [kernel].

(** The ten blocks as a table: the header block, the blocks that nest one
    field under its own name, and the blocks that spread a group of fields.
    [extract_sections_table] below shows that running the table is what
    [extract_sections] does. *)
Inductive rule : Type :=
| HeaderRule
| FieldRule (tag title : string)
| GroupRule (tag title : string) (keys : list string).

Definition header_keys : list string :=
  ["id"; "title"; "version"; "extraction_date"; "source"; "deck_id";
   "kernel_count"; "compression_ratio"].

Definition rule_table : list rule :=
  [HeaderRule;
   FieldRule "emotional_arc" "Emotional Arc";
   FieldRule "heat_signature" "Heat Signature";
   GroupRule "language_motifs" "Language & Motifs" ["language_patterns"; "motifs"];
   FieldRule "physical_anchors" "Physical Anchors";
   FieldRule "visual_description" "Visual Description";
   GroupRule "dynamics" "Relationship Dynamics"
     ["consent_pattern"; "power_dynamic"; "aftercare"];
   GroupRule "core_truth" "Core Truth & Boundaries"
     ["pattern_boundaries"; "what_makes_it_work"; "core_truth"; "why_it_matters"];
   FieldRule "cubic_attractor" "Cubic Attractor (Identity)";
   GroupRule "export" "Export Notes"
     ["replication_notes"; "export_notes"; "closing_image"; "heat_at_close"; "sigil"]].

Definition rule_tag (r : rule) : string :=
  match r with
  | HeaderRule => "header"
  | FieldRule tag _ => tag
  | GroupRule tag _ _ => tag
  end.

(** The fields whose presence makes the block append its section. *)
Definition rule_triggers (r : rule) : list string :=
  match r with
  | HeaderRule => header_keys
  | FieldRule tag _ => [tag]
  | GroupRule _ _ keys => keys
  end.

(** The title the block gives its section. *)
Definition rule_title (kernel : dict) (r : rule) : value :=
  match r with
  | HeaderRule => dict_get kernel "title" (VStr "Header")
  | FieldRule _ title => VStr title
  | GroupRule _ title _ => VStr title
  end.

Definition triggered (kernel : dict) (r : rule) : bool :=
  existsb (dict_contains kernel) (rule_triggers r).

Definition run_rule (kernel : dict) (r : rule) : list dict :=
  match r with
  | HeaderRule =>
      let header := copy_present kernel header_keys [] in
      if truthy (VDict header) then
        [dict_display
           [("section", VStr "header");
            ("title", dict_get kernel "title" (VStr "Header"));
            ("id", dict_get kernel "id" (VStr "unknown"));
            ("data", VDict header)]]
      else []
  | FieldRule tag title =>
      match dict_lookup kernel tag with
      | Some v =>
          [dict_display
             [("section", VStr tag);
              ("title", VStr title);
              ("id", dict_get kernel "id" (VStr "unknown"));
              (tag, v)]]
      | None => []
      end
  | GroupRule tag title keys =>
      let group := copy_present kernel keys [] in
      if truthy (VDict group) then
        [dict_update
           (dict_display
              [("section", VStr tag);
               ("title", VStr title);
               ("id", dict_get kernel "id" (VStr "unknown"))])
           group]
      else []
  end.

(** The tags in rule order. *)
Definition section_order : list string := map rule_tag rule_table.

Definition section_tag (s : dict) : option value := dict_lookup s "section".

(** Sample records: the two scenarios of the specification, and the first
    of them with a title. *)
Definition record_k1 : dict :=
  [("id", VStr "k1"); ("heat_signature", VDict [("trust", VFloat 0.5%float)])].

Definition record_solo : dict :=
  [("id", VStr "k1"); ("title", VStr "Solo")].

Definition record_titled : dict :=
  [("id", VStr "k1"); ("title", VStr "Solo");
   ("heat_signature", VDict [("trust", VFloat 0.5%float)])].

(** ** The segmenter on an object store *)

(** [chunk_single_kernel] once more, now with the objects it touches: a
    list or dict is an object of the store, named by its location, and a
    value is a scalar or such a location.  The record arrives as a
    location; the sections are new objects, which hold the very values the
    record holds. *)
Abbreviation loc := nat.

Inductive ref : Type :=
| RNone
| RBool (b : bool)
| RInt (z : Z)
| RFloat (f : float)
| RStr (s : string)
| RObj (l : loc).

Inductive object : Type :=
| OList (items : list ref)
| ODict (entries : list (string * ref)).

Abbreviation store := (list object).

(** A computation over the store; [None] is a run-time error (a subscript
    of a missing key, a method of the wrong type of object). *)
Definition St (A : Type) : Type := store -> option (A * store).

Definition sret {A : Type} (a : A) : St A := fun h => Some (a, h).

Definition sbind {A B : Type} (c : St A) (k : A -> St B) : St B :=
  fun h => match c h with Some (a, h') => k a h' | None => None end.

Definition sfail {A : Type} : St A := fun _ => None.

Section StoreModel.

Notation "x <- c ;; k" := (sbind c (fun x => k))
  (at level 100, c at next level, right associativity).
Notation "c ;; k" := (sbind c (fun _ => k))
  (at level 100, right associativity).

(** A new object, placed after the ones the store holds. *)
Definition new (o : object) : St loc := fun h => Some (length h, h ++ [o]).

Definition read_dict (l : loc) : St (list (string * ref)) :=
  fun h => match h !! l with Some (ODict entries) => Some (entries, h) | _ => None end.

Definition read_list (l : loc) : St (list ref) :=
  fun h => match h !! l with Some (OList items) => Some (items, h) | _ => None end.

(** The object at [l] is replaced; [write] follows a read of [l]. *)
Definition write (l : loc) (o : object) : St unit :=
  fun h => Some (tt, <[l := o]> h).

(** [key in d] *)
Definition contains (d : loc) (key : string) : St bool :=
  entries <- read_dict d ;; sret (dict_contains entries key).

(** [d[key]] *)
Definition getitem (d : loc) (key : string) : St ref :=
  entries <- read_dict d ;;
  match dict_lookup entries key with Some v => sret v | None => sfail end.

(** [d.get(key, default)] *)
Definition get (d : loc) (key : string) (default : ref) : St ref :=
  entries <- read_dict d ;; sret (dict_get entries key default).

(** [d[key] = v] *)
Definition setitem (d : loc) (key : string) (v : ref) : St unit :=
  entries <- read_dict d ;; write d (ODict (dict_setitem entries key v)).

(** [if d:] for a dict [d] *)
Definition nonempty (d : loc) : St bool :=
  entries <- read_dict d ;;
  sret (match entries with [] => false | _ => true end).

(** [lst.append(v)] *)
Definition append (lst : loc) (v : ref) : St unit :=
  items <- read_list lst ;; write lst (OList (items ++ [v])).

(** [len(lst)] *)
Definition len (lst : loc) : St nat :=
  items <- read_list lst ;; sret (length items).

(** [for key in keys: if key in kernel: target[key] = kernel[key]] *)
Fixpoint copy_present_s (kernel : loc) (keys : list string) (target : loc) : St unit :=
  match keys with
  | [] => sret tt
  | key :: rest =>
      present <- contains kernel key ;;
      (if present then
         v <- getitem kernel key ;; setitem target key v
       else sret tt) ;;
      copy_present_s kernel rest target
  end.

(** Blocks 2, 3, 5, 6 and 9: one field, nested under its own name. *)
Definition field_block (kernel sections : loc) (tag title : string) : St unit :=
  present <- contains kernel tag ;;
  if present then
    id <- get kernel "id" (RStr "unknown") ;;
    v <- getitem kernel tag ;;
    section <- new (ODict (dict_display
                             [("section", RStr tag); ("title", RStr title);
                              ("id", id); (tag, v)])) ;;
    append sections (RObj section)
  else sret tt.

(** Blocks 7, 8 and 10: a group of fields, spread into the section. *)
Definition group_block (kernel sections : loc) (tag title : string)
           (keys : list string) : St unit :=
  group <- new (ODict []) ;;
  copy_present_s kernel keys group ;;
  filled <- nonempty group ;;
  if filled then
    id <- get kernel "id" (RStr "unknown") ;;
    entries <- read_dict group ;;
    section <- new (ODict (dict_update
                             (dict_display
                                [("section", RStr tag); ("title", RStr title);
                                 ("id", id)])
                             entries)) ;;
    append sections (RObj section)
  else sret tt.

(** Block 1: the header fields, nested under ['data']. *)
Definition header_block (kernel sections : loc) : St unit :=
  header <- new (ODict []) ;;
  copy_present_s kernel header_keys header ;;
  filled <- nonempty header ;;
  if filled then
    title <- get kernel "title" (RStr "Header") ;;
    id <- get kernel "id" (RStr "unknown") ;;
    section <- new (ODict (dict_display
                             [("section", RStr "header"); ("title", title);
                              ("id", id); ("data", RObj header)])) ;;
    append sections (RObj section)
  else sret tt.

(** Block 4: two fields, tested one after the other and spread. *)
Definition lang_motifs_block (kernel sections : loc) : St unit :=
  lang_motifs <- new (ODict []) ;;
  present <- contains kernel "language_patterns" ;;
  (if present then
     v <- getitem kernel "language_patterns" ;;
     setitem lang_motifs "language_patterns" v
   else sret tt) ;;
  present <- contains kernel "motifs" ;;
  (if present then
     v <- getitem kernel "motifs" ;; setitem lang_motifs "motifs" v
   else sret tt) ;;
  filled <- nonempty lang_motifs ;;
  if filled then
    id <- get kernel "id" (RStr "unknown") ;;
    entries <- read_dict lang_motifs ;;
    section <- new (ODict (dict_update
                             (dict_display
                                [("section", RStr "language_motifs");
                                 ("title", RStr "Language & Motifs");
                                 ("id", id)])
                             entries)) ;;
    append sections (RObj section)
  else sret tt.

Definition chunk_single_kernel_s (kernel : loc) : St loc :=
  sections <- new (OList []) ;;
  (* 1. Header - identity info *)
  header_block kernel sections ;;
  (* 2. Emotional Arc *)
  field_block kernel sections "emotional_arc" "Emotional Arc" ;;
  (* 3. Heat Signature *)
  field_block kernel sections "heat_signature" "Heat Signature" ;;
  (* 4. Language & Motifs *)
  lang_motifs_block kernel sections ;;
  (* 5. Physical Anchors *)
  field_block kernel sections "physical_anchors" "Physical Anchors" ;;
  (* 6. Visual Description (for visual ETA kernels) *)
  field_block kernel sections "visual_description" "Visual Description" ;;
  (* 7. Dynamics - consent, power, aftercare *)
  group_block kernel sections "dynamics" "Relationship Dynamics"
    ["consent_pattern"; "power_dynamic"; "aftercare"] ;;
  (* 8. Boundaries & Core Truth *)
  group_block kernel sections "core_truth" "Core Truth & Boundaries"
    ["pattern_boundaries"; "what_makes_it_work"; "core_truth"; "why_it_matters"] ;;
  (* 9. Cubic Attractor (identity system) *)
  field_block kernel sections "cubic_attractor" "Cubic Attractor (Identity)" ;;
  (* 10. Export & Closing *)
  group_block kernel sections "export" "Export Notes"
    ["replication_notes"; "export_notes"; "closing_image"; "heat_at_close"; "sigil"] ;;
  (* return sections if len(sections) > 1 else [kernel] *)
  n <- len sections ;;
  if 1 <? n then sret sections else new (OList [RObj kernel]).

End StoreModel.

(** The value a reference stands for in a store, reading only objects at
    locations that satisfy [ok]. *)
Inductive represents (ok : loc -> Prop) (h : store) : ref -> value -> Prop :=
| rep_none : represents ok h RNone VNone
| rep_bool b : represents ok h (RBool b) (VBool b)
| rep_int z : represents ok h (RInt z) (VInt z)
| rep_float f : represents ok h (RFloat f) (VFloat f)
| rep_str s : represents ok h (RStr s) (VStr s)
| rep_list l items values :
    ok l ->
    h !! l = Some (OList items) ->
    Forall2 (represents ok h) items values ->
    represents ok h (RObj l) (VList values)
| rep_dict l entries d :
    ok l ->
    h !! l = Some (ODict entries) ->
    Forall2 (fun e kv => fst e = fst kv /\ represents ok h (snd e) (snd kv)) entries d ->
    represents ok h (RObj l) (VDict d).

(** Two dicts with the same keys in the same order and related values. *)
Definition entries_rel {A B : Type} (R : A -> B -> Prop)
  : list (string * A) -> list (string * B) -> Prop :=
  Forall2 (fun e kv => fst e = fst kv /\ R (snd e) (snd kv)).

(** Every object of [h], but the one at [s], is found unchanged in [h']. *)
Definition preserves (s : loc) (h h' : store) : Prop :=
  forall l o, l <> s -> h !! l = Some o -> h' !! l = Some o.

(** What a block does to the store [h] in which [sections] holds [items]
    and the record has [entries]: it appends to [sections] references to
    new dicts and changes no other object of [h]; and when the entries
    represent the record [d], the new dicts represent the sections rule
    [r] extracts from [d]. *)
Definition block_post (sections : loc) (entries : list (string * ref)) (r : rule)
           (h : store) (items : list ref) (h' : store) : Prop :=
  exists new,
    h' !! sections = Some (OList (items ++ new))
    /\ preserves sections h h'
    /\ length h <= length h'
    /\ Forall (fun v => exists l es,
                          v = RObj l /\ length h <= l /\ h' !! l = Some (ODict es))
              new
    /\ forall d : dict,
         entries_rel (represents (fun l => l <> sections) h) entries d ->
         Forall2 (represents (fun l => l <> sections) h') new (map VDict (run_rule d r)).

Definition block_spec (kernel sections : loc) (entries : list (string * ref))
           (c : St unit) (r : rule) : Prop :=
  forall h items,
    h !! kernel = Some (ODict entries) ->
    h !! sections = Some (OList items) ->
    kernel <> sections ->
    exists h', c h = Some (tt, h') /\ block_post sections entries r h items h'.

(** What holds between two blocks, in a run that started by placing the
    empty list [sections] at the end of the store, giving [h1]: the record
    is where it was, no object of [h1] but [sections] has changed, and
    [sections] holds references to new dicts, which represent the sections
    the rules [done] so far extract. *)
Definition segment_inv (kernel sections : loc) (entries : list (string * ref))
           (h1 : store) (done : list rule) (h : store) : Prop :=
  h !! kernel = Some (ODict entries)
  /\ preserves sections h1 h
  /\ sections < length h1 <= length h
  /\ exists items,
      h !! sections = Some (OList items)
      /\ Forall (fun v => exists l es,
                            v = RObj l /\ length h1 <= l /\ h !! l = Some (ODict es))
                items
      /\ forall d : dict,
           entries_rel (represents (fun l => l <> sections) h1) entries d ->
           Forall2 (represents (fun l => l <> sections) h) items
                   (map VDict (flat_map (run_rule d) done)).

(** A sample store: the scenario record [record_k1] at location 1, its
    heat signature at location 0. *)
Definition store_k1 : store :=
  [ODict [("trust", RFloat 0.5%float)];
   ODict [("id", RStr "k1"); ("heat_signature", RObj 0)]].

(** The same for [record_solo], at location 0. *)
Definition store_solo : store :=
  [ODict [("id", RStr "k1"); ("title", RStr "Solo")]].

(** ** Exceptions and the remaining built-ins *)

Inductive exn : Type :=
| AttributeError
| TypeError
| ValueError
| OverflowError
| KeyError
| IndexError
| RecursionError.

(** [len(x)]; [None] stands for [TypeError] (the object has no length).
    A character of a [string] stands for one code point. *)
Definition py_len (x : value) : option nat :=
  match x with
  | VStr s => Some (String.length s)
  | VList items => Some (length items)
  | VDict entries => Some (length entries)
  | _ => None
  end.

(** The items a [for] loop draws from [x]: the elements of a list, the
    characters of a string, the keys of a dict. *)
Definition py_iter (x : value) : option (list value) :=
  match x with
  | VList items => Some items
  | VStr s => Some (map (fun c => VStr (String c EmptyString)) (list_ascii_of_string s))
  | VDict entries => Some (map (fun kv => VStr (fst kv)) entries)
  | _ => None
  end.

(** The position an [int] subscript [i] denotes in a sequence of length
    [n]: a negative subscript counts from the end. *)
Definition py_index (n : nat) (i : Z) : option nat :=
  if (i <? 0)%Z then
    if (i <? - Z.of_nat n)%Z then None else Some (Z.to_nat (Z.of_nat n + i))
  else
    if (i <? Z.of_nat n)%Z then Some (Z.to_nat i) else None.

(** [x[i]] for an [int] [i]: a dict decoded from JSON has only [str] keys,
    so an [int] subscript is a [KeyError]. *)
Definition py_getitem (x : value) (i : Z) : exn + value :=
  match x with
  | VList items =>
      match py_index (length items) i with
      | Some j =>
          match nth_error items j with Some v => inr v | None => inl IndexError end
      | None => inl IndexError
      end
  | VStr s =>
      match py_index (String.length s) i with
      | Some j =>
          match String.get j s with
          | Some c => inr (VStr (String c EmptyString))
          | None => inl IndexError
          end
      | None => inl IndexError
      end
  | VDict _ => inl KeyError
  | _ => inl TypeError
  end.

(** [str(n)] for an [int]. *)
Definition str_of_int (z : Z) : string := NilEmpty.string_of_int (Z.to_int z).
Definition str_of_nat (n : nat) : string := str_of_int (Z.of_nat n).

(** The text [json.dumps(obj, indent=indent)] returns, kept symbolic. *)
Inductive dumped : Type :=
| json_dumps (obj : value) (indent : nat).

(** What [json.loads] does with a text: a decoded value, a
    [json.JSONDecodeError] with its message, or another exception (an
    integer literal beyond the interpreter's digit limit, nesting beyond
    the recursion limit), which [except json.JSONDecodeError] lets through. *)
Inductive loads_result : Type :=
| Decoded (data : value)
| JSONDecodeError (msg : string)
| LoadsRaises (e : exn).

(** ** ChunkCard *)

Record ChunkCard : Type := {
  chunk_num : nat;
  kernel_data : value;
  is_copied : bool
}.

(** The steps of [ChunkCard.init_ui] are read for the exception they may
    raise ([None]: the step completes); the label texts and style sheets
    they compute are presentation and are not kept. *)
Definition and_then (a b : option exn) : option exn :=
  match a with Some e => Some e | None => b end.

Infix ">>" := and_then (at level 61, left associativity).

(** [if len(x) > limit: x = x[:47] + "..."] (and ["..." + x[-37:]]): [len]
    wants a sized object; the slice and concatenation work on [str] only
    (a list cannot be concatenated with a [str], a dict cannot be sliced:
    [TypeError], and from Python 3.12 on [KeyError] for the dict). *)
Definition shorten (x : value) (limit : nat) : option exn :=
  match py_len x with
  | None => Some TypeError
  | Some n =>
      if limit <? n then
        match x with VStr _ => None | _ => Some TypeError end
      else None
  end.

(** [section_names.get(section_type, section_type)] hashes its key. *)
Definition hash_key (x : value) : option exn :=
  match x with
  | VList _ | VDict _ => Some TypeError
  | _ => None
  end.

(** [f"{x:.1f}"]: [int], [bool] and [float] format; an [int] is converted
    to [float] first, which overflows when it rounds to [2^1024]. *)
Definition format_1f (x : value) : option exn :=
  match x with
  | VInt z =>
      if (2 ^ 1024 - 2 ^ 970 <=? Z.abs z)%Z then Some OverflowError else None
  | VFloat _ | VBool _ => None
  | VStr _ => Some ValueError
  | VNone | VList _ | VDict _ => Some TypeError
  end.

Definition init_ui (chunk_num : nat) (kernel_data : value) : option exn :=
  match kernel_data with
  | VDict d =>
      (* Title *)
      (let title := dict_get d "title" (VStr ("Kernel " ++ str_of_nat chunk_num)%string) in
       shorten title 50)
      >>
      (* Metadata - show section type or kernel ID *)
      (let section_type := dict_get d "section" VNone in
       if truthy section_type then hash_key section_type
       else
         let kernel_id := dict_get d "id" (VStr "unknown") in
         shorten kernel_id 40)
      >>
      (* Heat signature preview *)
      (let heat := dict_get d "heat_signature" (VDict []) in
       if truthy heat then
         match heat with
         | VDict h =>
             let tenderness := dict_get h "tenderness" (VInt 0) in
             let trust := dict_get h "trust" (VInt 0) in
             let erotic := dict_get h "erotic_charge" (VInt 0) in
             format_1f tenderness >> format_1f trust >> format_1f erotic
         | _ => Some AttributeError
         end
       else None)
  | _ => Some AttributeError  (* kernel_data.get *)
  end.

(** [ChunkCard(chunk_num, kernel_data)] *)
Definition new_ChunkCard (chunk_num : nat) (kernel_data : value) : exn + ChunkCard :=
  match init_ui chunk_num kernel_data with
  | Some e => inl e
  | None =>
      inr {| chunk_num := chunk_num; kernel_data := kernel_data; is_copied := false |}
  end.

(** ** The KernelChunker widget *)

(** The attributes the slots read and write: [chunks] and
    [current_chunk_index], the text of the input area and of the status
    label, the cards held by [chunks_layout] (in front of its stretch
    item), the sequential-copy button, and the system clipboard ([None]
    until the program writes to it). *)
Record KernelChunker : Type := {
  chunks : value;
  current_chunk_index : Z;
  drop_zone : string;
  status_label : string;
  chunks_layout : list ChunkCard;
  copy_all_btn_enabled : bool;
  copy_all_btn_text : string;
  clipboard : option dumped
}.

(** [KernelChunker.__init__] *)
Definition initial : KernelChunker := {|
  chunks := VList [];
  current_chunk_index := 0;
  drop_zone := "";
  status_label := "Ready - Drop or paste a kernel deck";
  chunks_layout := [];
  copy_all_btn_enabled := false;
  copy_all_btn_text := "COPY ALL (Sequentially)";
  clipboard := None
|}.

Definition set_chunks (v : value) (self : KernelChunker) : KernelChunker :=
  {| chunks := v;
     current_chunk_index := current_chunk_index self;
     drop_zone := drop_zone self;
     status_label := status_label self;
     chunks_layout := chunks_layout self;
     copy_all_btn_enabled := copy_all_btn_enabled self;
     copy_all_btn_text := copy_all_btn_text self;
     clipboard := clipboard self |}.

Definition set_current_chunk_index (i : Z) (self : KernelChunker) : KernelChunker :=
  {| chunks := chunks self;
     current_chunk_index := i;
     drop_zone := drop_zone self;
     status_label := status_label self;
     chunks_layout := chunks_layout self;
     copy_all_btn_enabled := copy_all_btn_enabled self;
     copy_all_btn_text := copy_all_btn_text self;
     clipboard := clipboard self |}.

Definition set_drop_zone (s : string) (self : KernelChunker) : KernelChunker :=
  {| chunks := chunks self;
     current_chunk_index := current_chunk_index self;
     drop_zone := s;
     status_label := status_label self;
     chunks_layout := chunks_layout self;
     copy_all_btn_enabled := copy_all_btn_enabled self;
     copy_all_btn_text := copy_all_btn_text self;
     clipboard := clipboard self |}.

Definition set_status_label (s : string) (self : KernelChunker) : KernelChunker :=
  {| chunks := chunks self;
     current_chunk_index := current_chunk_index self;
     drop_zone := drop_zone self;
     status_label := s;
     chunks_layout := chunks_layout self;
     copy_all_btn_enabled := copy_all_btn_enabled self;
     copy_all_btn_text := copy_all_btn_text self;
     clipboard := clipboard self |}.

Definition set_chunks_layout (cards : list ChunkCard) (self : KernelChunker) : KernelChunker :=
  {| chunks := chunks self;
     current_chunk_index := current_chunk_index self;
     drop_zone := drop_zone self;
     status_label := status_label self;
     chunks_layout := cards;
     copy_all_btn_enabled := copy_all_btn_enabled self;
     copy_all_btn_text := copy_all_btn_text self;
     clipboard := clipboard self |}.

Definition set_copy_all_btn_enabled (b : bool) (self : KernelChunker) : KernelChunker :=
  {| chunks := chunks self;
     current_chunk_index := current_chunk_index self;
     drop_zone := drop_zone self;
     status_label := status_label self;
     chunks_layout := chunks_layout self;
     copy_all_btn_enabled := b;
     copy_all_btn_text := copy_all_btn_text self;
     clipboard := clipboard self |}.

Definition set_copy_all_btn_text (s : string) (self : KernelChunker) : KernelChunker :=
  {| chunks := chunks self;
     current_chunk_index := current_chunk_index self;
     drop_zone := drop_zone self;
     status_label := status_label self;
     chunks_layout := chunks_layout self;
     copy_all_btn_enabled := copy_all_btn_enabled self;
     copy_all_btn_text := s;
     clipboard := clipboard self |}.

Definition set_clipboard (t : dumped) (self : KernelChunker) : KernelChunker :=
  {| chunks := chunks self;
     current_chunk_index := current_chunk_index self;
     drop_zone := drop_zone self;
     status_label := status_label self;
     chunks_layout := chunks_layout self;
     copy_all_btn_enabled := copy_all_btn_enabled self;
     copy_all_btn_text := copy_all_btn_text self;
     clipboard := Some t |}.

(** A slot either returns, or lets an exception escape; both leave the
    widget in the state reached so far.  [process_chunks] catches
    [json.JSONDecodeError] and nothing else, the other slots below catch
    nothing. *)
Inductive result (A : Type) : Type :=
| Returns (a : A) (self : KernelChunker)
| Raises (e : exn) (self : KernelChunker).

Arguments Returns {A} a self.
Arguments Raises {A} e self.

Definition M (A : Type) : Type := KernelChunker -> result A.

Definition ret {A : Type} (a : A) : M A := fun self => Returns a self.

Definition bind {A B : Type} (c : M A) (k : A -> M B) : M B :=
  fun self =>
    match c self with
    | Returns a self' => k a self'
    | Raises e self' => Raises e self'
    end.

Definition raise {A : Type} (e : exn) : M A := fun self => Raises e self.

Definition this : M KernelChunker := fun self => Returns self self.

Definition assign (f : KernelChunker -> KernelChunker) : M unit :=
  fun self => Returns tt (f self).

Definition or_raise {A : Type} (x : exn + A) : M A :=
  match x with inl e => raise e | inr a => ret a end.

Definition or_type_error {A : Type} (x : option A) : M A :=
  match x with None => raise TypeError | Some a => ret a end.

Section Slots.

(** [str.strip] and [json.loads] belong to the interpreter and its
    library; the slots are defined for any behaviour of theirs. *)
Variable strip : string -> string.
Variable loads : string -> loads_result.

Notation "x <- c ;; k" := (bind c (fun x => k))
  (at level 100, c at next level, right associativity).
Notation "c ;; k" := (bind c (fun _ => k))
  (at level 100, right associativity).

Definition clear_chunks : M unit :=
  assign (set_chunks_layout []).

(** [ChunkCard.copy_kernel] of the card at position [i] of the layout;
    nothing happens when the layout has no such card. *)
Definition copy_kernel (i : nat) : M unit :=
  self <- this ;;
  match chunks_layout self !! i with
  | Some card =>
      assign (set_clipboard (json_dumps (kernel_data card) 2)) ;;
      assign (set_chunks_layout
                (<[i := {| chunk_num := chunk_num card;
                           kernel_data := kernel_data card;
                           is_copied := true |}]> (chunks_layout self)))
  | None => ret tt
  end.

(** [grey_out_card] counts the cards of the layout from 0 up and calls
    [copy_kernel] on the one whose count is [index]. *)
Definition grey_out_card (index : Z) : M unit :=
  if (index <? 0)%Z then ret tt else copy_kernel (Z.to_nat index).

(** [ChunkCard.reset_style] *)
Definition reset_style (card : ChunkCard) : ChunkCard :=
  {| chunk_num := chunk_num card; kernel_data := kernel_data card; is_copied := false |}.

Definition reset_all_cards : M unit :=
  self <- this ;;
  assign (set_chunks_layout (map reset_style (chunks_layout self))).

Definition update_copy_all_button : M unit :=
  self <- this ;;
  if truthy (chunks self) then
    n <- or_type_error (py_len (chunks self)) ;;
    let remaining := (Z.of_nat n - current_chunk_index self)%Z in
    if (remaining <=? 0)%Z then
      assign (set_copy_all_btn_text "START OVER")
    else
      assign (set_copy_all_btn_text
                ("COPY NEXT (" ++ str_of_int (current_chunk_index self + 1)
                   ++ "/" ++ str_of_nat n ++ ")")%string)
  else ret tt.

(** The block under [# Extract kernels]: the status message of an early
    [return], or [kernels] and [is_sectioned]. *)
Definition extract_kernels (data : value) : string + (value * bool) :=
  match data with
  | VDict d =>
      match dict_lookup d "kernels" with
      | Some kernels => inr (kernels, false)
      | None =>
          if dict_contains d "id"
             && (dict_contains d "emotional_arc"
                 || dict_contains d "heat_signature"
                 || dict_contains d "cubic_attractor")
          then
            (* Single ETA/PRISM kernel - split into sections *)
            let kernels := chunk_single_kernel d in
            inr (VList (map VDict kernels), 1 <? length kernels)
          else inl "No kernels found in JSON"
      end
  | VList _ => inr (data, false)
  | _ => inl "Unexpected JSON format"
  end.

(** [for i, kernel in enumerate(kernels, i): ...] *)
Fixpoint add_cards (i : nat) (kernels : list value) : M unit :=
  match kernels with
  | [] => ret tt
  | kernel :: rest =>
      card <- or_raise (new_ChunkCard i kernel) ;;
      self <- this ;;
      assign (set_chunks_layout (chunks_layout self ++ [card])) ;;
      add_cards (S i) rest
  end.

Definition process_chunks : M unit :=
  self <- this ;;
  let text := strip (drop_zone self) in
  if String.eqb text "" then
    assign (set_status_label "No input - paste or drop a kernel deck")
  else
    match loads text with
    | JSONDecodeError e =>
        assign (set_status_label ("Invalid JSON: " ++ e)%string)
    | LoadsRaises e => raise e
    | Decoded data =>
        match extract_kernels data with
        | inl message => assign (set_status_label message)
        | inr (kernels, is_sectioned) =>
            if negb (truthy kernels) then
              assign (set_status_label "No kernels found")
            else
              (* Clear existing chunks *)
              clear_chunks ;;
              (* Create chunk cards *)
              assign (set_chunks kernels) ;;
              assign (set_current_chunk_index 0) ;;
              items <- or_type_error (py_iter kernels) ;;
              add_cards 1 items ;;
              n <- or_type_error (py_len kernels) ;;
              (if is_sectioned then
                 assign (set_status_label
                   ("Split into " ++ str_of_nat n
                      ++ " sections - copy sequentially for best results")%string)
               else
                 assign (set_status_label
                   ("Found " ++ str_of_nat n
                      ++ " kernels - click COPY on each or use sequential copy")%string)) ;;
              assign (set_copy_all_btn_enabled true) ;;
              update_copy_all_button
        end
    end.

Definition clear_all : M unit :=
  assign (set_drop_zone "") ;;
  clear_chunks ;;
  assign (set_chunks (VList [])) ;;
  assign (set_current_chunk_index 0) ;;
  assign (set_status_label "Cleared - ready for new input") ;;
  assign (set_copy_all_btn_enabled false).

Definition copy_next_chunk : M unit :=
  self <- this ;;
  n <- or_type_error (py_len (chunks self)) ;;
  if (Z.of_nat n <=? current_chunk_index self)%Z then
    (* Reset all cards when starting over *)
    assign (set_current_chunk_index 0) ;;
    reset_all_cards ;;
    update_copy_all_button ;;
    assign (set_status_label "Reset - ready to copy again")
    (* Don't copy yet, just reset *)
  else if truthy (chunks self) then
    kernel <- or_raise (py_getitem (chunks self) (current_chunk_index self)) ;;
    assign (set_clipboard (json_dumps kernel 2)) ;;
    (* Grey out the corresponding card *)
    grey_out_card (current_chunk_index self) ;;
    assign (set_current_chunk_index (current_chunk_index self + 1)) ;;
    update_copy_all_button
  else ret tt.

(** What the user can do to the window.  Text reaches the input area by
    typing, pasting or dropping ([Edit]) or from a file ([FileLoaded],
    with the file's name; [FileFailed] when reading it fails).  A click on the
    sequential-copy button needs the button enabled, a click on a card's
    COPY button needs the card. *)
Inductive action : Type :=
| Edit (content : string)
| FileLoaded (name content : string)
| FileFailed (reason : string)
| ClickChunk
| ClickClear
| ClickCopyAll
| ClickCardCopy (i : nat).

Definition perform (a : action) (self : KernelChunker) : option (result unit) :=
  match a with
  | Edit content => Some (assign (set_drop_zone content) self)
  | FileLoaded name content =>
      Some ((assign (set_drop_zone content) ;;
             assign (set_status_label ("Loaded: " ++ name)%string)) self)
  | FileFailed reason =>
      Some (assign (set_status_label ("Error: " ++ reason)%string) self)
  | ClickChunk => Some (process_chunks self)
  | ClickClear => Some (clear_all self)
  | ClickCopyAll =>
      if copy_all_btn_enabled self then Some (copy_next_chunk self) else None
  | ClickCardCopy i =>
      if i <? length (chunks_layout self) then Some (copy_kernel i self) else None
  end.

(** The ways a parse of the input area's [content] fails, each with the
    status message it shows: blank input, malformed text, a decoded
    value of no recognized shape, and a recognized shape with no record
    in it. *)
Inductive parse_failure (content : string) : string -> Prop :=
| blank_input :
    strip content = "" ->
    parse_failure content "No input - paste or drop a kernel deck"
| malformed_text (e : string) :
    strip content <> "" ->
    loads (strip content) = JSONDecodeError e ->
    parse_failure content ("Invalid JSON: " ++ e)%string
| unrecognized_shape (data : value) (message : string) :
    strip content <> "" ->
    loads (strip content) = Decoded data ->
    extract_kernels data = inl message ->
    parse_failure content message
| zero_records (data kernels : value) (is_sectioned : bool) :
    strip content <> "" ->
    loads (strip content) = Decoded data ->
    extract_kernels data = inr (kernels, is_sectioned) ->
    truthy kernels = false ->
    parse_failure content "No kernels found".

(** The states of a session: the initial state, and the states in which
    the user's actions return.  An exception that escapes a slot ends the
    session. *)
Inductive reachable : KernelChunker -> Prop :=
| reachable_initial : reachable initial
| reachable_step (self self' : KernelChunker) (a : action) :
    reachable self ->
    perform a self = Some (Returns tt self') ->
    reachable self'.

(** A run of actions, as far as every slot returns. *)
Fixpoint perform_all (actions : list action) (self : KernelChunker)
  : option KernelChunker :=
  match actions with
  | [] => Some self
  | a :: rest =>
      match perform a self with
      | Some (Returns _ self') => perform_all rest self'
      | _ => None
      end
  end.

End Slots.

(** The cursor lies within the chunk sequence. *)
Definition in_bounds (self : KernelChunker) : Prop :=
  exists n, py_len (chunks self) = Some n
            /\ (0 <= current_chunk_index self <= Z.of_nat n)%Z.

(** What holds of the widget between two slots: [chunks] is a list, the
    cursor lies within it, the layout holds one card per chunk, in order,
    and the sequential-copy button is enabled only over a non-empty list. *)
Definition consistent (self : KernelChunker) : Prop :=
  exists items,
    chunks self = VList items
    /\ (0 <= current_chunk_index self <= Z.of_nat (length items))%Z
    /\ map kernel_data (chunks_layout self) = items
    /\ (copy_all_btn_enabled self = true -> items <> []).

(** Stand-ins for the two library functions, enough to run the slots on the
    scenarios: [sample_strip] trims ASCII white space, [sample_loads]
    decodes the scenario texts and rejects the rest the way [json.loads]
    rejects ["{bad json"]. *)
Definition is_space (c : ascii) : bool :=
  let n := nat_of_ascii c in
  (9 <=? n) && (n <=? 13) || (28 <=? n) && (n <=? 32).

Fixpoint lstrip (s : list ascii) : list ascii :=
  match s with
  | c :: rest => if is_space c then lstrip rest else s
  | [] => []
  end.

Definition sample_strip (s : string) : string :=
  string_of_list_ascii (rev (lstrip (rev (lstrip (list_ascii_of_string s))))).

Definition quoted (s : string) : string :=
  (String "034"%char s ++ String "034"%char EmptyString)%string.

(** [{"id":"k1","title":"Solo"}] *)
Definition solo_text : string :=
  ("{" ++ quoted "id" ++ ":" ++ quoted "k1" ++ "," ++ quoted "title" ++ ":"
       ++ quoted "Solo" ++ "}")%string.

(** [{"id":"k1","heat_signature":{"trust":0.5}}] *)
Definition k1_text : string :=
  ("{" ++ quoted "id" ++ ":" ++ quoted "k1" ++ "," ++ quoted "heat_signature" ++ ":{"
       ++ quoted "trust" ++ ":0.5}}")%string.

(** [{"kernels":[{"id":"a"},{"id":"b"}]}] *)
Definition deck_text : string :=
  ("{" ++ quoted "kernels" ++ ":[{" ++ quoted "id" ++ ":" ++ quoted "a" ++ "},{"
       ++ quoted "id" ++ ":" ++ quoted "b" ++ "}]}")%string.

Definition deck : value :=
  VDict [("kernels", VList [VDict [("id", VStr "a")]; VDict [("id", VStr "b")]])].

Definition sample_loads (s : string) : loads_result :=
  if String.eqb s solo_text then Decoded (VDict record_solo)
  else if String.eqb s k1_text then Decoded (VDict record_k1)
  else if String.eqb s deck_text then Decoded deck
  else if String.eqb s "[]" then Decoded (VList [])
  else if String.eqb s "{bad json" then
    JSONDecodeError
      "Expecting property name enclosed in double quotes: line 1 column 2 (char 1)"
  else JSONDecodeError "Expecting value: line 1 column 1 (char 0)".

(** A sample session: the deck scenario is parsed and its first chunk
    copied; then the input area receives the malformed text. *)
Definition deck_session : list action :=
  [Edit deck_text; ClickChunk; ClickCopyAll].

Definition deck_copied_once : KernelChunker :=
  Eval vm_compute in
    match perform_all sample_strip sample_loads deck_session initial with
    | Some self => self
    | None => initial
    end.

Definition deck_then_bad_text : KernelChunker :=
  set_drop_zone "{bad json" deck_copied_once.
(** ** The labels of a card *)

(** [ChunkCard.init_ui] once more, now for what it shows.  A label is kept
    as the f-string that makes its text, with the values it formats. *)
Inductive QLabel : Type :=
| TitleLabel (chunk_num : nat) (title : value)
    (* f"<b style='color: #FF9500;'>#{self.chunk_num}</b> {title}" *)
| SectionLabel (display_section : value)
    (* f"Section: {display_section}" *)
| IdLabel (kernel_id : value)
    (* f"ID: {kernel_id}" *)
| HeatLabel (tenderness trust erotic : value).
    (* f"Heat: T:{tenderness:.1f} Tr:{trust:.1f} E:{erotic:.1f}" *)

Definition section_names : list (string * string) :=
  [("header", "Identity & Metadata");
   ("emotional_arc", "Emotional Arc");
   ("heat_signature", "Heat Signature");
   ("language_motifs", "Language & Motifs");
   ("physical_anchors", "Physical Anchors");
   ("visual_description", "Visual Description");
   ("dynamics", "Relationship Dynamics");
   ("core_truth", "Core Truth & Boundaries");
   ("cubic_attractor", "Cubic Attractor");
   ("export", "Export Notes")].

(** The title: [title[:47] + "..."] when [len(title) > 50].  The slice and
    the concatenation work on a [str] only, as in [shorten]. *)
Definition title_label (chunk_num : nat) (kernel_data : dict) : exn + QLabel :=
  let title :=
    dict_get kernel_data "title" (VStr ("Kernel " ++ str_of_nat chunk_num)%string) in
  match py_len title with
  | None => inl TypeError
  | Some n =>
      if 50 <? n then
        match title with
        | VStr s => inr (TitleLabel chunk_num (VStr (substring 0 47 s ++ "...")%string))
        | _ => inl TypeError
        end
      else inr (TitleLabel chunk_num title)
  end.

(** The metadata line: the section's display name, or the kernel ID, which
    is ["..." + kernel_id[-37:]] when [len(kernel_id) > 40].  The keys of
    [section_names] are [str]s, so [section_names.get] finds no other
    hashable value and returns it as the default. *)
Definition meta_label (kernel_data : dict) : exn + QLabel :=
  let section_type := dict_get kernel_data "section" VNone in
  if truthy section_type then
    match section_type with
    | VStr s => inr (SectionLabel (VStr (dict_get section_names s s)))
    | VList _ | VDict _ => inl TypeError
    | _ => inr (SectionLabel section_type)
    end
  else
    let kernel_id := dict_get kernel_data "id" (VStr "unknown") in
    match py_len kernel_id with
    | None => inl TypeError
    | Some n =>
        if 40 <? n then
          match kernel_id with
          | VStr s => inr (IdLabel (VStr ("..." ++ substring (n - 37) 37 s)%string))
          | _ => inl TypeError
          end
        else inr (IdLabel kernel_id)
    end.

(** The heat preview, made when ['heat_signature'] is there and truthy. *)
Definition heat_label (kernel_data : dict) : exn + option QLabel :=
  let heat := dict_get kernel_data "heat_signature" (VDict []) in
  if truthy heat then
    match heat with
    | VDict h =>
        let tenderness := dict_get h "tenderness" (VInt 0) in
        let trust := dict_get h "trust" (VInt 0) in
        let erotic := dict_get h "erotic_charge" (VInt 0) in
        match format_1f tenderness >> format_1f trust >> format_1f erotic with
        | Some e => inl e
        | None => inr (Some (HeatLabel tenderness trust erotic))
        end
    | _ => inl AttributeError
    end
  else inr None.

(** The labels [init_ui] adds to [info_layout], in order. *)
Definition info_layout (chunk_num : nat) (kernel_data : value) : exn + list QLabel :=
  match kernel_data with
  | VDict d =>
      match title_label chunk_num d with
      | inl e => inl e
      | inr title =>
          match meta_label d with
          | inl e => inl e
          | inr meta =>
              match heat_label d with
              | inl e => inl e
              | inr heat =>
                  inr (title :: meta :: match heat with Some l => [l] | None => [] end)
              end
          end
      end
  | _ => inl AttributeError  (* kernel_data.get *)
  end.

(** The cards the loop of [process_chunks] builds from items that all
    render: numbered from [i] on, not yet copied. *)
Fixpoint fresh_cards (i : nat) (kernels : list value) : list ChunkCard :=
  match kernels with
  | [] => []
  | kernel :: rest =>
      {| chunk_num := i; kernel_data := kernel; is_copied := false |}
        :: fresh_cards (S i) rest
  end.

(** ** Files and drops *)

(** The data of a drag: [hasUrls], [urls], [hasText] and [text] of
    [QMimeData], and for a URL its [toLocalFile], which is empty when the
    URL names no local file. *)
Record QUrl : Type := {
  toLocalFile : string
}.

Record QMimeData : Type := {
  hasUrls : bool;
  urls : list QUrl;
  hasText : bool;
  text : string
}.

(** [dragEnterEvent] and [dragMoveEvent]: [true] for [event.accept()],
    [false] for [event.ignore()]. *)
Definition dragEnterEvent (mime : QMimeData) : bool :=
  hasUrls mime || hasText mime.

Definition dragMoveEvent (mime : QMimeData) : bool :=
  hasUrls mime || hasText mime.

Section Files.

(** The file system and two library functions, any behaviour of theirs:
    [read_text file_path] is the outcome of opening the file as UTF-8 text
    and reading it, the content or the text of the exception;
    [path_name] is [Path(file_path).name]; [plain_text content] is what
    the input area's [toPlainText] returns after [setText(content)], which
    takes a content that looks like rich text as such. *)
Variable read_text : string -> string + string.
Variable path_name : string -> string.
Variable plain_text : string -> string.

Notation "x <- c ;; k" := (bind c (fun x => k))
  (at level 100, c at next level, right associativity).
Notation "c ;; k" := (bind c (fun _ => k))
  (at level 100, right associativity).

(** The [try] block both handlers share; [true] when the file was read. *)
Definition read_into_drop_zone (file_path : string) : M bool :=
  match read_text file_path with
  | inr content =>
      assign (set_drop_zone (plain_text content)) ;;
      assign (set_status_label ("Loaded: " ++ path_name file_path)%string) ;;
      ret true
  | inl e =>
      assign (set_status_label ("Error: " ++ e)%string) ;;
      ret false
  end.

(** The loop of [dropEvent] over [mime.urls()]: it returns at the first
    file it reads; [false] when it runs to its end. *)
Fixpoint drop_urls (urls : list QUrl) : M bool :=
  match urls with
  | [] => ret false
  | url :: rest =>
      let file_path := toLocalFile url in
      if String.eqb file_path "" then drop_urls rest
      else
        loaded <- read_into_drop_zone file_path ;;
        if loaded then ret true else drop_urls rest
  end.

(** [dropEvent]; the result tells [event.accept()] from [event.ignore()]. *)
Definition dropEvent (mime : QMimeData) : M bool :=
  if hasUrls mime then drop_urls (urls mime)
  else if hasText mime then
    assign (set_drop_zone (plain_text (text mime))) ;;
    ret true
  else ret false.

(** [load_file], for the path the file dialog returns: empty when the
    dialog is cancelled. *)
Definition load_file (file_path : string) : M unit :=
  if String.eqb file_path "" then ret tt
  else
    read_into_drop_zone file_path ;;
    ret tt.

End Files.

(** ** The window and the mouse *)

(** [QPoint]: a pair of C [int]s; a difference is taken modulo [2^32]. *)
Module QPoint.

Record t : Type := {
  x : Z;
  y : Z
}.

Definition wrap (z : Z) : Z := ((z + 2 ^ 31) mod 2 ^ 32 - 2 ^ 31)%Z.

Definition sub (p q : t) : t :=
  {| x := wrap (x p - x q); y := wrap (y p - y q) |}.

End QPoint.

Inductive MouseButton : Type :=
| LeftButton
| RightButton
| MiddleButton
| OtherButton.

(** A mouse event: [button()], [buttons()], [pos()] and
    [globalPosition().toPoint()]. *)
Record QMouseEvent : Type := {
  button : MouseButton;
  buttons : list MouseButton;
  pos : QPoint.t;
  globalPosition : QPoint.t
}.

(** What the mouse handlers read and write: the top-left corner of the
    window's frame, which [move] sets, [is_dragging], [drag_position], and
    whether [close] was called. *)
Record Window : Type := {
  topLeft : QPoint.t;
  is_dragging : bool;
  drag_position : QPoint.t;
  closed : bool
}.

(** [setFixedSize(400, 550)] *)
Definition width : Z := 400.
Definition height : Z := 550.

Definition is_left (b : MouseButton) : bool :=
  match b with LeftButton => true | _ => false end.

(** The test of [mousePressEvent] for the close button. *)
Definition on_close_button (p : QPoint.t) : bool :=
  let x := (width - 25)%Z in
  let y := 10%Z in
  ((x <=? QPoint.x p)%Z && (QPoint.x p <=? x + 15)%Z)
  && ((y <=? QPoint.y p)%Z && (QPoint.y p <=? y + 15)%Z).

Definition mousePressEvent (event : QMouseEvent) (self : Window) : Window :=
  if is_left (button event) then
    (* Check if clicking close button *)
    if on_close_button (pos event) then
      {| topLeft := topLeft self; is_dragging := is_dragging self;
         drag_position := drag_position self; closed := true |}
    (* Start dragging *)
    else if (QPoint.y (pos event) <? 40)%Z then
      {| topLeft := topLeft self; is_dragging := true;
         drag_position := QPoint.sub (globalPosition event) (topLeft self);
         closed := closed self |}
    else self
  else self.

Definition mouseMoveEvent (event : QMouseEvent) (self : Window) : Window :=
  if is_dragging self && existsb is_left (buttons event) then
    {| topLeft := QPoint.sub (globalPosition event) (drag_position self);
       is_dragging := is_dragging self;
       drag_position := drag_position self; closed := closed self |}
  else self.

Definition mouseReleaseEvent (event : QMouseEvent) (self : Window) : Window :=
  {| topLeft := topLeft self; is_dragging := false;
     drag_position := drag_position self; closed := closed self |}.

(** The mouse events a window receives, and a run of them. *)
Inductive mouse : Type :=
| Press (event : QMouseEvent)
| Move (event : QMouseEvent)
| Release (event : QMouseEvent).

Definition handle (m : mouse) : Window -> Window :=
  match m with
  | Press event => mousePressEvent event
  | Move event => mouseMoveEvent event
  | Release event => mouseReleaseEvent event
  end.

Definition handle_all (ms : list mouse) (self : Window) : Window :=
  fold_left (fun w m => handle m w) ms self.

(** ** The look of a card *)

(** [ChunkCard] a third time, now for its style sheets: the sheet of the
    frame, the sheets of its labels, in the order in which [init_ui] adds
    them to [info_layout] (the order in which [reset_style] expects
    [findChildren(QLabel)] to return them: title, metadata, heat), the
    sheet of its COPY button, [is_copied], and the number of
    [QTimer.singleShot] calls that have not fired yet.  The sheets are the
    literals of the source, character by character. *)
Module Look.

Record t : Type := {
  styleSheet : string;
  labels : list string;
  buttons : list string;
  is_copied : bool;
  timers : nat
}.

(** The frame, in [init_ui] and again in [reset_style]. *)
Definition frame_default : string :=
  "
            QFrame {
                background-color: #2a2a2a;
                border: 2px solid #444;
                border-radius: 5px;
            }
            QFrame:hover {
                border: 2px solid #FF9500;
            }
        ".

(** The frame, in [copy_kernel]. *)
Definition frame_flash : string :=
  "
            QFrame {
                background-color: #3a4a3a;
                border: 2px solid #00FF64;
                border-radius: 5px;
            }
        ".

(** The frame, in [set_copied_style]. *)
Definition frame_copied : string :=
  "
            QFrame {
                background-color: #1a1a1a;
                border: 2px solid #333;
                border-radius: 5px;
            }
        ".

(** The COPY button, in [init_ui]. *)
Definition button_default : string :=
  "
            QPushButton {
                background-color: #3a3a3a;
                color: #FF9500;
                border: 2px solid #555;
                border-radius: 4px;
                font-weight: bold;
                font-size: 10px;
            }
            QPushButton:hover {
                background-color: #4a4a4a;
                border-color: #FF9500;
            }
            QPushButton:pressed {
                background-color: #FF9500;
                color: #000;
            }
        ".

(** The buttons, in [set_copied_style]. *)
Definition button_copied : string :=
  "
                QPushButton {
                    background-color: #2a2a2a;
                    color: #555;
                    border: 2px solid #333;
                    border-radius: 4px;
                    font-weight: bold;
                    font-size: 10px;
                }
            ".

(** The buttons, in [reset_style]. *)
Definition button_reset : string :=
  "
                QPushButton {
                    background-color: #3a3a3a;
                    color: #FF9500;
                    border: 2px solid #555;
                    border-radius: 4px;
                    font-weight: bold;
                    font-size: 10px;
                }
                QPushButton:hover {
                    background-color: #4a4a4a;
                    border-color: #FF9500;
                }
                QPushButton:pressed {
                    background-color: #FF9500;
                    color: #000;
                }
            ".

(** The title label; [labels[0]] in [reset_style]. *)
Definition title_style : string :=
  "color: #ddd; font-size: 11px;".

(** The metadata label of a card with a section name. *)
Definition section_style : string :=
  "color: #9B59B6; font-size: 9px; font-weight: bold;".

(** The metadata label of a card with an ID; [labels[1]] in [reset_style]. *)
Definition id_style : string :=
  "color: #888; font-size: 9px;".

(** The heat label; [labels[2]] in [reset_style]. *)
Definition heat_style : string :=
  "color: #FF6B6B; font-size: 9px;".

(** [s.replace(old, new)] for a non-empty [old]: the occurrences of [old]
    are replaced from left to right, without overlap.  [skip] counts the
    characters of an occurrence still to pass over. *)
Fixpoint replace_from (old new : string) (skip : nat) (s : string) : string :=
  match s with
  | EmptyString => EmptyString
  | String c rest =>
      match skip with
      | S k => replace_from old new k rest
      | O =>
          if String.prefix old s then
            (new ++ replace_from old new (String.length old - 1) rest)%string
          else String c (replace_from old new 0 rest)
      end
  end.

Definition replace (old new s : string) : string := replace_from old new 0 s.

Definition label_style (l : QLabel) : string :=
  match l with
  | TitleLabel _ _ => title_style
  | SectionLabel _ => section_style
  | IdLabel _ => id_style
  | HeatLabel _ _ _ => heat_style
  end.

(** The look [init_ui] gives a card with the labels [info_layout]. *)
Definition init_ui (info_layout : list QLabel) : t :=
  {| styleSheet := frame_default;
     labels := map label_style info_layout;
     buttons := [button_default];
     is_copied := false;
     timers := 0 |}.

(** [copy_kernel], but for the clipboard: the mark, the flash, and the
    timer that will call [set_copied_style]. *)
Definition copy_kernel (self : t) : t :=
  {| styleSheet := frame_flash;
     labels := labels self;
     buttons := buttons self;
     is_copied := true;
     timers := S (timers self) |}.

Definition set_copied_style (self : t) : t :=
  {| styleSheet := frame_copied;
     labels :=
       map (fun sheet =>
              replace "#FF6B6B" "#663333" (replace "#888" "#444" (replace "#ddd" "#555" sheet)))
           (labels self);
     buttons := map (fun _ => button_copied) (buttons self);
     is_copied := is_copied self;
     timers := timers self |}.

Definition reset_style (self : t) : t :=
  let labels := labels self in
  let labels := if 1 <=? length labels then <[0 := title_style]> labels else labels in
  let labels := if 2 <=? length labels then <[1 := id_style]> labels else labels in
  let labels := if 3 <=? length labels then <[2 := heat_style]> labels else labels in
  {| styleSheet := frame_default;
     labels := labels;
     buttons := map (fun _ => button_reset) (buttons self);
     is_copied := false;
     timers := timers self |}.

(** A timer fires, if one is pending. *)
Definition timeout (self : t) : t :=
  match timers self with
  | O => self
  | S n =>
      set_copied_style
        {| styleSheet := styleSheet self; labels := labels self; buttons := buttons self;
           is_copied := is_copied self; timers := n |}
  end.

End Look.

(** ** Auxiliary notions for the properties *)

(** The fields the ten blocks read. *)
Definition known_keys : list string := flat_map rule_triggers rule_table.

(** The keys a section holds after ['section'], ['title'] and ['id']. *)
Definition payload_keys (kernel : dict) (r : rule) : list string :=
  match r with
  | HeaderRule => ["data"]
  | FieldRule tag _ => [tag]
  | GroupRule _ _ keys => List.filter (dict_contains kernel) keys
  end.

(** An item of which [ChunkCard] makes a card, whatever its number. *)
Definition renders (kernel : value) : Prop :=
  forall chunk_num, init_ui chunk_num kernel = None.

(** The widget after [process_chunks] has accepted [kernels]. *)
Definition loaded (is_sectioned : bool) (kernels : list value) (self : KernelChunker)
  : KernelChunker :=
  {| chunks := VList kernels;
     current_chunk_index := 0;
     drop_zone := drop_zone self;
     status_label :=
       if is_sectioned then
         ("Split into " ++ str_of_nat (length kernels)
            ++ " sections - copy sequentially for best results")%string
       else
         ("Found " ++ str_of_nat (length kernels)
            ++ " kernels - click COPY on each or use sequential copy")%string;
     chunks_layout := fresh_cards 1 kernels;
     copy_all_btn_enabled := true;
     copy_all_btn_text := ("COPY NEXT (1/" ++ str_of_nat (length kernels) ++ ")")%string;
     clipboard := clipboard self |}.

(** The button and its text follow [chunks] and the cursor: the button is
    enabled over a non-empty chunk list, and [update_copy_all_button] has
    nothing to change. *)
Definition synced (self : KernelChunker) : Prop :=
  (chunks self <> VList [] -> copy_all_btn_enabled self = true)
  /\ update_copy_all_button self = Returns tt self.

(** A card marked as copied. *)
Definition copied (card : ChunkCard) : ChunkCard :=
  {| chunk_num := chunk_num card; kernel_data := kernel_data card; is_copied := true |}.

(** The layout with its first [k] cards marked as copied. *)
Definition mark_copied (k : nat) (cards : list ChunkCard) : list ChunkCard :=
  map copied (take k cards) ++ drop k cards.

(** A point whose coordinates are far from the limits of [int], as the
    points of a screen are. *)
Definition on_screen (p : QPoint.t) : Prop :=
  (- 2 ^ 29 <= QPoint.x p < 2 ^ 29)%Z /\ (- 2 ^ 29 <= QPoint.y p < 2 ^ 29)%Z.

(** The events that start a drag: a press of the left button in the top
    40 pixels of the window, off the close button. *)
Definition starts_drag (m : mouse) : bool :=
  match m with
  | Press event =>
      is_left (button event)
      && negb (on_close_button (pos event))
      && (QPoint.y (pos event) <? 40)%Z
  | _ => false
  end.

(** A URL from which [dropEvent] gets no text: it names no local file, or
    the file cannot be read. *)
Definition unreadable (read_text : string -> string + string) (url : QUrl) : Prop :=
  toLocalFile url = "" \/ exists e, read_text (toLocalFile url) = inl e.

(** The widget as a slot leaves it, returning or raising. *)
Definition state_of {A : Type} (r : result A) : KernelChunker :=
  match r with
  | Returns _ self => self
  | Raises _ self => self
  end.

(** ** Samples *)

(** Further sample records: [record_k1] with a field no block reads, and
    a record with a title that is a number. *)
Definition record_noted : dict :=
  [("id", VStr "k1"); ("notes", VStr "keep me");
   ("heat_signature", VDict [("trust", VFloat 0.5%float)])].

Definition record_numbered : dict :=
  [("id", VStr "k1"); ("title", VInt 7);
   ("heat_signature", VDict [("trust", VFloat 0.5%float)])].

(** The deck scenario right after its parse. *)
Definition deck_parsed : KernelChunker :=
  Eval vm_compute in
    match perform_all sample_strip sample_loads [Edit deck_text; ClickChunk] initial with
    | Some self => self
    | None => initial
    end.

(** A file of the sample file system, and a window at rest. *)
Definition sample_read_text (file_path : string) : string + string :=
  if String.eqb file_path "/decks/deck.json" then inr deck_text
  else inl "[Errno 2] No such file or directory".

Definition sample_path_name (file_path : string) : string :=
  if String.eqb file_path "/decks/deck.json" then "deck.json" else file_path.

Definition window_at_rest : Window :=
  {| topLeft := {| QPoint.x := 100; QPoint.y := 100 |};
     is_dragging := false;
     drag_position := {| QPoint.x := 0; QPoint.y := 0 |};
     closed := false |}.

Definition press_title_bar : QMouseEvent :=
  {| button := LeftButton; buttons := [LeftButton];
     pos := {| QPoint.x := 60; QPoint.y := 20 |};
     globalPosition := {| QPoint.x := 160; QPoint.y := 120 |} |}.

Definition move_to (gx gy : Z) : QMouseEvent :=
  {| button := LeftButton; buttons := [LeftButton];
     pos := {| QPoint.x := 60; QPoint.y := 20 |};
     globalPosition := {| QPoint.x := gx; QPoint.y := gy |} |}.

(** * Part II: properties *)

(** ** Dicts *)

Section DictFacts.

Context {V : Type}.
Implicit Types (d : list (string * V)) (k key : string) (v : V).

Lemma dict_lookup_setitem d key v k :
  dict_lookup (dict_setitem d key v) k
  = if String.eqb key k then Some v else dict_lookup d k.
Proof.
  induction d as [|[k0 w] rest IH]; simpl.
  - reflexivity.
  - destruct (String.eqb k0 key) eqn:E0; simpl.
    + apply String.eqb_eq in E0; subst k0.
      destruct (String.eqb key k); reflexivity.
    + destruct (String.eqb k0 k) eqn:E1.
      * apply String.eqb_eq in E1; subst k0.
        rewrite String.eqb_sym, E0. reflexivity.
      * apply IH.
Qed.

Lemma dict_lookup_update_other d other k :
  dict_lookup other k = None ->
  dict_lookup (dict_update d other) k = dict_lookup d k.
Proof.
  unfold dict_update. revert d.
  induction other as [|[k0 w] rest IH]; intros d Hk; simpl in *.
  - reflexivity.
  - destruct (String.eqb k0 k) eqn:E; [discriminate|].
    rewrite IH by assumption.
    rewrite dict_lookup_setitem, E. reflexivity.
Qed.

Lemma dict_setitem_nonempty d key v : dict_setitem d key v <> [].
Proof. destruct d as [|[k0 w] rest]; simpl; [|destruct (String.eqb k0 key)]; discriminate. Qed.

End DictFacts.

(** ** The copy loop *)

Lemma copy_present_lookup (kernel : dict) keys (target : dict) k :
  dict_lookup (copy_present kernel keys target) k
  = match (if existsb (String.eqb k) keys then dict_lookup kernel k else None) with
    | Some v => Some v
    | None => dict_lookup target k
    end.
Proof.
  unfold copy_present. revert target.
  induction keys as [|key rest IH]; intros target; simpl.
  - reflexivity.
  - rewrite IH.
    destruct (String.eqb k key) eqn:E; simpl.
    + apply String.eqb_eq in E; subst key.
      destruct (dict_lookup kernel k) as [v|] eqn:Hk.
      * destruct (existsb (String.eqb k) rest); [reflexivity|].
        rewrite dict_lookup_setitem, String.eqb_refl. reflexivity.
      * destruct (existsb (String.eqb k) rest); reflexivity.
    + destruct (existsb (String.eqb k) rest);
        destruct (dict_lookup kernel k) as [v|] eqn:Hk; try reflexivity;
        destruct (dict_lookup kernel key) as [w|]; try reflexivity;
        rewrite dict_lookup_setitem, String.eqb_sym, E; reflexivity.
Qed.

Lemma copy_present_truthy (kernel : dict) keys (target : dict) :
  truthy (VDict (copy_present kernel keys target))
  = truthy (VDict target) || existsb (dict_contains kernel) keys.
Proof.
  unfold copy_present. revert target.
  induction keys as [|key rest IH]; intros target; cbn [fold_left existsb].
  - rewrite orb_false_r. reflexivity.
  - rewrite IH. unfold dict_contains at 2.
    destruct (dict_lookup kernel key) as [v|]; cbn [orb]; [|reflexivity].
    destruct (dict_setitem target key v) eqn:E.
    + exfalso. eapply dict_setitem_nonempty; eassumption.
    + cbn [truthy]. rewrite orb_true_r. reflexivity.
Qed.

(** When none of the group's keys is [k], spreading the group leaves the
    entry under [k] as the display made it. *)
Lemma group_section_lookup (kernel base : dict) keys k :
  existsb (String.eqb k) keys = false ->
  dict_lookup (dict_update base (copy_present kernel keys [])) k = dict_lookup base k.
Proof.
  intros Hk. apply dict_lookup_update_other.
  rewrite copy_present_lookup, Hk. reflexivity.
Qed.

(** ** The ten blocks are the rule table *)

Lemma extract_sections_table (kernel : dict) :
  extract_sections kernel = flat_map (run_rule kernel) rule_table.
Proof.
  assert (Hif : forall (c : bool) (acc : list dict) (s : dict),
             (if c then acc ++ [s] else acc) = acc ++ (if c then [s] else [])).
  { intros [] acc s; [reflexivity | symmetry; apply app_nil_r]. }
  assert (Hfield : forall tag title (acc : list dict),
             match dict_lookup kernel tag with
             | Some v =>
                 acc ++ [dict_display
                   [("section", VStr tag); ("title", VStr title);
                    ("id", dict_get kernel "id" (VStr "unknown")); (tag, v)]]
             | None => acc
             end = acc ++ run_rule kernel (FieldRule tag title)).
  { intros tag title acc. unfold run_rule.
    destruct (dict_lookup kernel tag); [reflexivity | symmetry; apply app_nil_r]. }
  assert (Hlang :
            match dict_lookup kernel "motifs" with
            | Some v =>
                dict_setitem
                  match dict_lookup kernel "language_patterns" with
                  | Some v0 => dict_setitem [] "language_patterns" v0
                  | None => []
                  end "motifs" v
            | None =>
                match dict_lookup kernel "language_patterns" with
                | Some v0 => dict_setitem [] "language_patterns" v0
                | None => []
                end
            end = copy_present kernel ["language_patterns"; "motifs"] []).
  { reflexivity. }
  unfold extract_sections. cbv zeta.
  rewrite !Hfield, !Hif.
  cbn [flat_map rule_table].
  rewrite <- !app_assoc, !Hlang, app_nil_r.
  reflexivity.
Qed.

Lemma in_extract_sections (kernel s : dict) :
  In s (extract_sections kernel)
  <-> exists r, In r rule_table /\ In s (run_rule kernel r).
Proof. rewrite extract_sections_table. apply in_flat_map. Qed.

(** A block appends one section when one of its trigger fields is present,
    and nothing otherwise. *)
Lemma run_rule_triggered (kernel : dict) (r : rule) :
  exists s, run_rule kernel r = if triggered kernel r then [s] else [].
Proof.
  destruct r as [|tag title|tag title keys]; unfold triggered, run_rule; cbn [rule_triggers].
  - rewrite copy_present_truthy. cbn [truthy orb].
    destruct (existsb (dict_contains kernel) header_keys);
      [eexists; reflexivity | exists []; reflexivity].
  - cbn [existsb]. unfold dict_contains.
    destruct (dict_lookup kernel tag); [eexists; reflexivity | exists []; reflexivity].
  - rewrite copy_present_truthy. cbn [truthy orb].
    destruct (existsb (dict_contains kernel) keys);
      [eexists; reflexivity | exists []; reflexivity].
Qed.

(** The three entries every section of the table carries. *)
Ltac open_rule Hs :=
  unfold run_rule in Hs;
  lazymatch type of Hs with
  | In _ (if ?c then _ else _) => destruct c; [|contradiction]
  | In _ (match ?o with Some _ => _ | None => _ end) => destruct o; [|contradiction]
  end;
  destruct Hs as [<- | []].

Lemma run_rule_section (kernel : dict) (r : rule) (s : dict) :
  In r rule_table ->
  In s (run_rule kernel r) ->
  section_tag s = Some (VStr (rule_tag r))
  /\ dict_lookup s "title" = Some (rule_title kernel r)
  /\ dict_lookup s "id" = Some (dict_get kernel "id" (VStr "unknown")).
Proof.
  intros Hr Hs. unfold section_tag.
  cbn [rule_table In] in Hr.
  repeat (destruct Hr as [<- | Hr]); try contradiction;
    lazymatch type of Hs with
    | In _ (run_rule _ (GroupRule _ _ _)) =>
        open_rule Hs; rewrite !group_section_lookup by reflexivity
    | _ => open_rule Hs
    end;
    repeat split; reflexivity.
Qed.

Lemma map_flat_map_filter {A B C : Type} (f : A -> list B) (g : B -> C)
      (p : A -> bool) (h : A -> C) (l : list A) :
  (forall x, In x l -> map g (f x) = if p x then [h x] else []) ->
  map g (flat_map f l) = map h (List.filter p l).
Proof.
  induction l as [|x l IH]; intros H; cbn [flat_map List.filter map].
  - reflexivity.
  - rewrite map_app, H by (left; reflexivity).
    rewrite IH by (intros y Hy; apply H; right; exact Hy).
    destruct (p x); reflexivity.
Qed.

(** The tags of the produced sections: the tags of the triggered rules, in
    table order. *)
Lemma extract_sections_tags (kernel : dict) :
  map section_tag (extract_sections kernel)
  = map (fun r => Some (VStr (rule_tag r))) (List.filter (triggered kernel) rule_table).
Proof.
  rewrite extract_sections_table.
  apply map_flat_map_filter. intros r Hr.
  destruct (run_rule_triggered kernel r) as [s Hs].
  pose proof (run_rule_section kernel r) as Hsec.
  rewrite Hs in *. destruct (triggered kernel r); [|reflexivity].
  cbn [map]. destruct (Hsec s Hr) as [-> _]; [left|]; reflexivity.
Qed.

Lemma NoDup_map_filter {A B : Type} (g : A -> B) (p : A -> bool) (l : list A) :
  List.NoDup (map g l) -> List.NoDup (map g (List.filter p l)).
Proof.
  induction l as [|x l IH]; cbn [map List.filter]; intros H.
  - constructor.
  - apply NoDup_cons_iff in H as [Hx Hl].
    destruct (p x); [|auto].
    cbn [map]. apply NoDup_cons_iff. split; [|auto].
    intros Hin. apply Hx. apply in_map_iff in Hin as [y [Hy Hin]].
    apply filter_In in Hin as [Hin _].
    apply in_map_iff. eauto.
Qed.

Lemma rule_tags_NoDup : List.NoDup (map rule_tag rule_table).
Proof.
  cbn. repeat (apply NoDup_cons_iff; split;
               [cbn [In]; intros H; repeat (destruct H as [H|H]; [discriminate H|]); exact H|]).
  constructor.
Qed.

Lemma triggered_false_iff (kernel : dict) (r : rule) :
  triggered kernel r = false
  <-> forall field, In field (rule_triggers r) -> dict_lookup kernel field = None.
Proof.
  unfold triggered. split.
  - intros H field Hin.
    destruct (dict_lookup kernel field) as [v|] eqn:E; [|reflexivity].
    assert (existsb (dict_contains kernel) (rule_triggers r) = true) as Ht.
    { apply existsb_exists. exists field. split; [exact Hin|].
      unfold dict_contains. rewrite E. reflexivity. }
    congruence.
  - intros H. destruct (existsb _ _) eqn:E; [|reflexivity].
    apply existsb_exists in E as [field [Hin Hc]].
    unfold dict_contains in Hc. rewrite (H field Hin) in Hc. discriminate.
Qed.

(** A dict with distinct keys answers lookups the same way in any order of
    its entries. *)
Lemma dict_lookup_Permutation {V : Type} (d d' : list (string * V)) k :
  List.NoDup (map fst d) -> Permutation d d' -> dict_lookup d k = dict_lookup d' k.
Proof.
  intros Hnd Hp. induction Hp as [|[k0 v] l l' Hp IH|[k1 v1] [k2 v2] l|l l' l'' Hp1 IH1 Hp2 IH2].
  - reflexivity.
  - cbn [dict_lookup]. cbn [map fst] in Hnd. apply NoDup_cons_iff in Hnd as [_ Hnd].
    rewrite IH by exact Hnd. reflexivity.
  - cbn [dict_lookup]. cbn [map fst] in Hnd.
    apply NoDup_cons_iff in Hnd as [Hnotin _]. cbn [In] in Hnotin.
    destruct (String.eqb k1 k) eqn:E1, (String.eqb k2 k) eqn:E2; try reflexivity.
    apply String.eqb_eq in E1, E2. subst. exfalso. apply Hnotin. left. reflexivity.
  - rewrite IH1 by exact Hnd. apply IH2.
    eapply Permutation_NoDup; [apply Permutation_map; exact Hp1 | exact Hnd].
Qed.

(** [extract_sections] reads the record through lookups only. *)
Lemma copy_present_ext (kernel kernel' : dict) keys (target : dict) :
  (forall k, dict_lookup kernel k = dict_lookup kernel' k) ->
  copy_present kernel keys target = copy_present kernel' keys target.
Proof.
  intros H. unfold copy_present. revert target.
  induction keys as [|key rest IH]; intros target; cbn [fold_left].
  - reflexivity.
  - rewrite H. apply IH.
Qed.

Lemma run_rule_ext (kernel kernel' : dict) (r : rule) :
  (forall k, dict_lookup kernel k = dict_lookup kernel' k) ->
  run_rule kernel r = run_rule kernel' r.
Proof.
  intros H. destruct r as [|tag title|tag title keys]; unfold run_rule, dict_get.
  - rewrite (copy_present_ext kernel kernel') by exact H. rewrite !H. reflexivity.
  - rewrite !H. reflexivity.
  - rewrite (copy_present_ext kernel kernel') by exact H. rewrite !H. reflexivity.
Qed.

Lemma extract_sections_ext (kernel kernel' : dict) :
  (forall k, dict_lookup kernel k = dict_lookup kernel' k) ->
  extract_sections kernel = extract_sections kernel'.
Proof.
  intros H. rewrite !extract_sections_table.
  apply flat_map_ext. intros r. apply run_rule_ext. exact H.
Qed.

(** ** The segmenter: claims *)

Lemma rule_tag_inj (r r' : rule) :
  In r rule_table -> In r' rule_table -> rule_tag r = rule_tag r' -> r = r'.
Proof.
  intros Hr Hr' Ht. cbn [rule_table In] in Hr, Hr'.
  repeat (destruct Hr as [<- | Hr]); try contradiction;
    repeat (destruct Hr' as [<- | Hr']); try contradiction;
    first [reflexivity | discriminate Ht].
Qed.

Lemma NoDup_map_injective {A B : Type} (f : A -> B) (l : list A) :
  (forall x y, f x = f y -> x = y) -> List.NoDup l -> List.NoDup (map f l).
Proof.
  intros Hinj. induction l as [|x l IH]; cbn [map]; intros H.
  - constructor.
  - apply NoDup_cons_iff in H as [Hx Hl]. apply NoDup_cons_iff. split; [|auto].
    intros Hin. apply in_map_iff in Hin as [y [Hy Hin]].
    apply Hinj in Hy. subst y. contradiction.
Qed.

Lemma chunk_single_kernel_applies (kernel : dict) :
  1 < length (extract_sections kernel) ->
  chunk_single_kernel kernel = extract_sections kernel.
Proof.
  intros H. unfold chunk_single_kernel.
  apply Nat.ltb_lt in H. rewrite H. reflexivity.
Qed.

Lemma extract_sections_length (kernel : dict) : length (extract_sections kernel) <= 10.
Proof.
  rewrite <- (length_map section_tag), extract_sections_tags, length_map.
  apply (filter_length_le (triggered kernel) rule_table).
Qed.

(** C1, as the code has it: when segmentation applies, every section holds
    under ['section'] the tag of the rule that made it, under ['id'] the
    record's ['id'] or ["unknown"], and under ['title'] the rule's title,
    which is a fixed label for every rule but the header rule; the header
    section takes the record's ['title'] and falls back to ["Header"]. *)
Theorem section_carries_tag_title_id (kernel s : dict) :
  1 < length (extract_sections kernel) ->
  In s (chunk_single_kernel kernel) ->
  exists r,
    In r rule_table
    /\ dict_lookup s "section" = Some (VStr (rule_tag r))
    /\ dict_lookup s "id" = Some (dict_get kernel "id" (VStr "unknown"))
    /\ dict_lookup s "title" = Some (rule_title kernel r)
    /\ (r = HeaderRule -> rule_title kernel r = dict_get kernel "title" (VStr "Header"))
    /\ (r <> HeaderRule -> forall kernel', rule_title kernel' r = rule_title kernel r).
Proof.
  intros Happ Hs. rewrite chunk_single_kernel_applies in Hs by exact Happ.
  apply in_extract_sections in Hs as [r [Hr Hs]].
  destruct (run_rule_section kernel r s Hr Hs) as [Htag [Htitle Hid]].
  exists r. repeat split; try assumption.
  - intros ->. reflexivity.
  - intros Hne kernel'. destruct r; [contradiction | reflexivity | reflexivity].
Qed.

Lemma section_carries_tag_title_id_witness :
  exists r,
    In r rule_table
    /\ dict_lookup (dict_display
                      [("section", VStr "heat_signature");
                       ("title", VStr "Heat Signature");
                       ("id", VStr "k1");
                       ("heat_signature", VDict [("trust", VFloat 0.5%float)])])
                   "section" = Some (VStr (rule_tag r)).
Proof.
  destruct (section_carries_tag_title_id record_k1
              (dict_display
                 [("section", VStr "heat_signature");
                  ("title", VStr "Heat Signature");
                  ("id", VStr "k1");
                  ("heat_signature", VDict [("trust", VFloat 0.5%float)])]))
    as [r [Hr [Htag _]]].
  - vm_compute. lia.
  - vm_compute. right. left. reflexivity.
  - exists r. split; assumption.
Defined.

(** C1 as stated fails on the title: two records that differ in ['title']
    only get header sections with different titles, so the header's title
    is no fixed label. *)
Lemma header_title_follows_record :
  1 < length (extract_sections record_k1)
  /\ 1 < length (extract_sections record_titled)
  /\ exists s1 s2,
       In s1 (chunk_single_kernel record_k1)
       /\ In s2 (chunk_single_kernel record_titled)
       /\ dict_lookup s1 "section" = Some (VStr "header")
       /\ dict_lookup s2 "section" = Some (VStr "header")
       /\ dict_lookup s1 "title" = Some (VStr "Header")
       /\ dict_lookup s2 "title" = Some (VStr "Solo")
       /\ dict_lookup s1 "title" <> dict_lookup s2 "title".
Proof.
  split; [vm_compute; lia|]. split; [vm_compute; lia|].
  eexists. eexists.
  split; [left; reflexivity|]. split; [left; reflexivity|].
  repeat split; try reflexivity. discriminate.
Qed.

(** C2: with at most one extracted section the result is the record
    itself, alone in a list; otherwise it is the extracted list, of length
    two or more. *)
Theorem chunk_single_kernel_fallback (kernel : dict) :
  (length (extract_sections kernel) <= 1 -> chunk_single_kernel kernel = [kernel])
  /\ (1 < length (extract_sections kernel) ->
      chunk_single_kernel kernel = extract_sections kernel
      /\ 2 <= length (chunk_single_kernel kernel)).
Proof.
  split.
  - intros H. unfold chunk_single_kernel.
    destruct (1 <? length (extract_sections kernel)) eqn:E; [|reflexivity].
    apply Nat.ltb_lt in E. lia.
  - intros H. rewrite chunk_single_kernel_applies by exact H. split; [reflexivity | lia].
Qed.

Lemma chunk_single_kernel_fallback_witness :
  chunk_single_kernel record_solo = [record_solo]
  /\ 2 <= length (chunk_single_kernel record_k1).
Proof.
  split.
  - apply (proj1 (chunk_single_kernel_fallback record_solo)). vm_compute. lia.
  - apply (proj2 (chunk_single_kernel_fallback record_k1)). vm_compute. lia.
Defined.

(** C3: ['id'] is a header field.  The scenario record yields the header
    section and the heat-signature section, in this order; and whenever
    ['id'] is the only header field of a record, the first extracted
    section is a header section whose ['data'] holds the ['id'] entry
    alone. *)
Theorem id_triggers_header :
  In "id" (rule_triggers HeaderRule)
  /\ chunk_single_kernel record_k1
     = [ [("section", VStr "header"); ("title", VStr "Header"); ("id", VStr "k1");
          ("data", VDict [("id", VStr "k1")])];
         [("section", VStr "heat_signature"); ("title", VStr "Heat Signature");
          ("id", VStr "k1"); ("heat_signature", VDict [("trust", VFloat 0.5%float)])] ]
  /\ forall (kernel : dict) (v : value),
       dict_lookup kernel "id" = Some v ->
       (forall field, In field header_keys -> field <> "id" ->
                      dict_lookup kernel field = None) ->
       exists rest,
         extract_sections kernel
         = [("section", VStr "header"); ("title", VStr "Header"); ("id", v);
            ("data", VDict [("id", v)])] :: rest
         /\ (rest <> [] ->
             chunk_single_kernel kernel
             = [("section", VStr "header"); ("title", VStr "Header"); ("id", v);
                ("data", VDict [("id", v)])] :: rest).
Proof.
  split; [left; reflexivity|]. split; [reflexivity|].
  intros kernel v Hid Hothers.
  assert (Hnone : forall field,
             In field ["title"; "version"; "extraction_date"; "source"; "deck_id";
                       "kernel_count"; "compression_ratio"] ->
             dict_lookup kernel field = None).
  { intros field Hin. apply Hothers.
    - right. exact Hin.
    - cbn [In] in Hin. intros ->.
      repeat (destruct Hin as [Hin | Hin]; [discriminate Hin|]). exact Hin. }
  exists (flat_map (run_rule kernel) (tl rule_table)).
  assert (Hhead : run_rule kernel HeaderRule
                  = [[("section", VStr "header"); ("title", VStr "Header"); ("id", v);
                      ("data", VDict [("id", v)])]]).
  { unfold run_rule, copy_present, header_keys, dict_get. cbn [fold_left].
    rewrite Hid.
    rewrite !Hnone by (cbn [In]; tauto).
    reflexivity. }
  assert (Hall : extract_sections kernel
                 = [("section", VStr "header"); ("title", VStr "Header"); ("id", v);
                    ("data", VDict [("id", v)])]
                   :: flat_map (run_rule kernel) (tl rule_table)).
  { rewrite extract_sections_table.
    change rule_table with (HeaderRule :: tl rule_table).
    cbn [flat_map]. rewrite Hhead. reflexivity. }
  split; [exact Hall|].
  intros Hrest. rewrite chunk_single_kernel_applies; [exact Hall|].
  rewrite Hall. destruct (flat_map (run_rule kernel) (tl rule_table)); [contradiction|].
  cbn [length]. lia.
Qed.

Lemma id_triggers_header_witness :
  exists rest,
    extract_sections record_k1
    = [("section", VStr "header"); ("title", VStr "Header"); ("id", VStr "k1");
       ("data", VDict [("id", VStr "k1")])] :: rest.
Proof.
  destruct (proj2 (proj2 id_triggers_header) record_k1 (VStr "k1")) as [rest [H _]].
  - reflexivity.
  - intros field Hin Hne. cbn [header_keys In] in Hin.
    repeat (destruct Hin as [<- | Hin]; [first [contradiction Hne; reflexivity | reflexivity]|]).
    contradiction.
  - exists rest. exact H.
Defined.

(** C4: the tags of the extracted sections are the tags of the triggered
    rules in table order, whatever the order of the record's entries; a
    rule none of whose trigger fields is present leaves no section, and a
    record with the same entries in another order yields the same
    sections. *)
Theorem sections_in_rule_order (kernel : dict) :
  section_order
  = ["header"; "emotional_arc"; "heat_signature"; "language_motifs"; "physical_anchors";
     "visual_description"; "dynamics"; "core_truth"; "cubic_attractor"; "export"]
  /\ map section_tag (extract_sections kernel)
     = map (fun r => Some (VStr (rule_tag r))) (List.filter (triggered kernel) rule_table)
  /\ (1 < length (extract_sections kernel) ->
      map section_tag (chunk_single_kernel kernel)
      = map (fun r => Some (VStr (rule_tag r))) (List.filter (triggered kernel) rule_table))
  /\ (forall r,
        In r rule_table ->
        (forall field, In field (rule_triggers r) -> dict_lookup kernel field = None) ->
        run_rule kernel r = []
        /\ forall s, In s (extract_sections kernel) ->
                     section_tag s <> Some (VStr (rule_tag r)))
  /\ (forall kernel',
        List.NoDup (map fst kernel) ->
        Permutation kernel kernel' ->
        extract_sections kernel' = extract_sections kernel).
Proof.
  split; [reflexivity|].
  split; [apply extract_sections_tags|].
  split.
  { intros H. rewrite chunk_single_kernel_applies by exact H. apply extract_sections_tags. }
  split.
  - intros r Hr Habsent.
    apply triggered_false_iff in Habsent.
    destruct (run_rule_triggered kernel r) as [s0 Hrun]. rewrite Habsent in Hrun.
    split; [exact Hrun|].
    intros s Hs Htag.
    apply in_extract_sections in Hs as [r' [Hr' Hs]].
    destruct (run_rule_section kernel r' s Hr' Hs) as [Htag' _].
    rewrite Htag in Htag'. injection Htag' as Heq.
    apply (rule_tag_inj r r' Hr Hr') in Heq. subst r'.
    rewrite Hrun in Hs. contradiction.
  - intros kernel' Hnd Hperm. symmetry. apply extract_sections_ext.
    intros k. apply dict_lookup_Permutation; assumption.
Qed.

Lemma sections_in_rule_order_witness :
  run_rule record_k1 (FieldRule "emotional_arc" "Emotional Arc") = []
  /\ extract_sections (rev record_k1) = extract_sections record_k1.
Proof.
  split.
  - apply (proj1 (proj2 (proj2 (proj2 (sections_in_rule_order record_k1))))
             (FieldRule "emotional_arc" "Emotional Arc")).
    + right. left. reflexivity.
    + intros field [<- | []]. reflexivity.
  - apply (proj2 (proj2 (proj2 (proj2 (sections_in_rule_order record_k1))))).
    + cbn. repeat constructor; cbn; intuition discriminate.
    + apply Permutation_rev.
Defined.

(** C10: the extracted sections have pairwise distinct tags, so there are
    at most ten of them; when segmentation applies the same holds of the
    result, and all its sections carry the same ['id'] value. *)
Theorem one_section_per_tag (kernel : dict) :
  List.NoDup (map section_tag (extract_sections kernel))
  /\ length (extract_sections kernel) <= 10
  /\ length (chunk_single_kernel kernel) <= 10
  /\ (1 < length (extract_sections kernel) ->
      List.NoDup (map section_tag (chunk_single_kernel kernel))
      /\ forall s, In s (chunk_single_kernel kernel) ->
                   (exists tag, section_tag s = Some (VStr tag) /\ In tag section_order)
                   /\ dict_lookup s "id" = Some (dict_get kernel "id" (VStr "unknown"))).
Proof.
  assert (Hnd : List.NoDup (map section_tag (extract_sections kernel))).
  { rewrite extract_sections_tags.
    apply (NoDup_map_filter (fun r => Some (VStr (rule_tag r)))).
    rewrite <- (map_map rule_tag (fun t => Some (VStr t))).
    apply NoDup_map_injective; [|exact rule_tags_NoDup].
    intros a b H. injection H as ->. reflexivity. }
  split; [exact Hnd|].
  split; [apply extract_sections_length|].
  split.
  { unfold chunk_single_kernel. destruct (1 <? _); [apply extract_sections_length|cbn; lia]. }
  intros Happ. rewrite chunk_single_kernel_applies by exact Happ.
  split; [exact Hnd|].
  intros s Hs. apply in_extract_sections in Hs as [r [Hr Hs]].
  destruct (run_rule_section kernel r s Hr Hs) as [Htag [_ Hid]].
  split; [|exact Hid].
  exists (rule_tag r). split; [exact Htag|]. apply in_map. exact Hr.
Qed.

Lemma one_section_per_tag_witness :
  List.NoDup (map section_tag (chunk_single_kernel record_k1)).
Proof.
  apply (proj2 (proj2 (proj2 (one_section_per_tag record_k1)))).
  vm_compute. lia.
Defined.

(** ** The segmenter on the store *)

Section EntriesRel.

Context {A B : Type} (R : A -> B -> Prop).

Lemma entries_rel_lookup (d : list (string * A)) (d' : list (string * B)) k :
  entries_rel R d d' ->
  match dict_lookup d k, dict_lookup d' k with
  | Some v, Some v' => R v v'
  | None, None => True
  | _, _ => False
  end.
Proof.
  induction 1 as [|[k1 v] [k2 v'] d d' [Hk Hv] _ IH]; cbn [dict_lookup].
  - exact I.
  - cbn in Hk, Hv. subst k2. destruct (String.eqb k1 k); [exact Hv | exact IH].
Qed.

Lemma entries_rel_get (d : list (string * A)) (d' : list (string * B)) k default default' :
  entries_rel R d d' -> R default default' ->
  R (dict_get d k default) (dict_get d' k default').
Proof.
  intros Hd Hdef. unfold dict_get.
  pose proof (entries_rel_lookup d d' k Hd) as H.
  destruct (dict_lookup d k), (dict_lookup d' k); try contradiction; assumption.
Qed.

Lemma entries_rel_setitem (d : list (string * A)) (d' : list (string * B)) k v v' :
  entries_rel R d d' -> R v v' ->
  entries_rel R (dict_setitem d k v) (dict_setitem d' k v').
Proof.
  intros Hd Hv. induction Hd as [|[k1 w] [k2 w'] d d' [Hk Hw] Hd IH]; cbn [dict_setitem].
  - constructor; [split; [reflexivity | exact Hv] | constructor].
  - cbn in Hk, Hw. subst k2. destruct (String.eqb k1 k).
    + constructor; [split; [reflexivity | exact Hv] | exact Hd].
    + constructor; [split; [reflexivity | exact Hw] | exact IH].
Qed.

Lemma entries_rel_update (d : list (string * A)) (d' : list (string * B)) other other' :
  entries_rel R d d' -> entries_rel R other other' ->
  entries_rel R (dict_update d other) (dict_update d' other').
Proof.
  intros Hd Ho. unfold dict_update. revert d d' Hd.
  induction Ho as [|[k1 w] [k2 w'] o o' [Hk Hw] _ IH]; intros d d' Hd; cbn [fold_left].
  - exact Hd.
  - cbn in Hk, Hw. subst k2. apply IH. cbn [fst snd].
    apply entries_rel_setitem; assumption.
Qed.

Lemma entries_rel_display (other : list (string * A)) (other' : list (string * B)) :
  entries_rel R other other' -> entries_rel R (dict_display other) (dict_display other').
Proof. intros H. apply entries_rel_update; [constructor | exact H]. Qed.

Lemma entries_rel_copy_present (d : list (string * A)) (d' : list (string * B)) keys t t' :
  entries_rel R d d' -> entries_rel R t t' ->
  entries_rel R (copy_present d keys t) (copy_present d' keys t').
Proof.
  intros Hd. unfold copy_present. revert t t'.
  induction keys as [|key rest IH]; intros t t' Ht; cbn [fold_left].
  - exact Ht.
  - apply IH.
    pose proof (entries_rel_lookup d d' key Hd) as H.
    destruct (dict_lookup d key), (dict_lookup d' key); try contradiction.
    + apply entries_rel_setitem; assumption.
    + exact Ht.
Qed.

Lemma entries_rel_nil (d : list (string * A)) (d' : list (string * B)) :
  entries_rel R d d' -> (d = [] <-> d' = []).
Proof. intros H. destruct H; split; intros E; first [reflexivity | discriminate E]. Qed.

End EntriesRel.

(** Induction over a representation, through the items of a list and the
    entries of a dict. *)
Lemma represents_induction (ok : loc -> Prop) (h : store) (P : ref -> value -> Prop) :
  P RNone VNone ->
  (forall b, P (RBool b) (VBool b)) ->
  (forall z, P (RInt z) (VInt z)) ->
  (forall f, P (RFloat f) (VFloat f)) ->
  (forall s, P (RStr s) (VStr s)) ->
  (forall l items values,
      ok l -> h !! l = Some (OList items) ->
      Forall2 P items values ->
      P (RObj l) (VList values)) ->
  (forall l entries d,
      ok l -> h !! l = Some (ODict entries) ->
      entries_rel P entries d ->
      P (RObj l) (VDict d)) ->
  forall v x, represents ok h v x -> P v x.
Proof.
  intros Hnone Hbool Hint Hfloat Hstr Hlist Hdict.
  fix IH 3. intros v x H.
  destruct H as [ | b | z | f | s | l items values Hok Hl F | l entries d Hok Hl F].
  - exact Hnone.
  - apply Hbool.
  - apply Hint.
  - apply Hfloat.
  - apply Hstr.
  - apply (Hlist l items values Hok Hl).
    clear Hl. revert items values F. fix go 3. intros items values F.
    destruct F as [|a b items' values' Hab F'].
    + constructor.
    + constructor; [apply IH; exact Hab | apply go; exact F'].
  - apply (Hdict l entries d Hok Hl).
    clear Hl. revert entries d F. fix go 3. intros entries d F.
    destruct F as [|a b entries' d' [Hk Hab] F'].
    + constructor.
    + constructor; [split; [exact Hk | apply IH; exact Hab] | apply go; exact F'].
Qed.

(** A representation survives any change of the store that keeps the
    objects it may read, and any widening of what it may read. *)
Lemma represents_transport (ok ok' : loc -> Prop) (h h' : store) :
  (forall l, ok l -> ok' l) ->
  (forall l o, ok l -> h !! l = Some o -> h' !! l = Some o) ->
  forall v x, represents ok h v x -> represents ok' h' v x.
Proof.
  intros Hok Hkeep. apply represents_induction; try (intros; constructor).
  - intros l items values Hl Hget F. eapply rep_list; eauto.
  - intros l entries d Hl Hget F. eapply rep_dict; eauto.
Qed.

Lemma entries_rel_transport (ok ok' : loc -> Prop) (h h' : store) entries (d : dict) :
  (forall l, ok l -> ok' l) ->
  (forall l o, ok l -> h !! l = Some o -> h' !! l = Some o) ->
  entries_rel (represents ok h) entries d ->
  entries_rel (represents ok' h') entries d.
Proof.
  intros Hok Hkeep H. induction H as [|e kv es d [Hk Hv] _ IH]; constructor.
  - split; [exact Hk|]. eapply represents_transport; eassumption.
  - exact IH.
Qed.

(** Whatever a representation reads lies within the store. *)
Lemma represents_bounded (ok : loc -> Prop) (h : store) :
  forall v x, represents ok h v x -> represents (fun l => l < length h) h v x.
Proof.
  apply represents_induction; try (intros; constructor).
  - intros l items values Hl Hget F. eapply rep_list; eauto.
    apply lookup_lt_Some in Hget. exact Hget.
  - intros l entries d Hl Hget F. eapply rep_dict; eauto.
    apply lookup_lt_Some in Hget. exact Hget.
Qed.

(** *** Running the store operations *)

Lemma sbind_run {A B : Type} (c : St A) (k : A -> St B) (h h' : store) (a : A) :
  c h = Some (a, h') -> sbind c k h = k a h'.
Proof. intros H. unfold sbind. rewrite H. reflexivity. Qed.

Lemma read_dict_run (l : loc) (h : store) entries :
  h !! l = Some (ODict entries) -> read_dict l h = Some (entries, h).
Proof. intros H. unfold read_dict. rewrite H. reflexivity. Qed.

Lemma read_list_run (l : loc) (h : store) items :
  h !! l = Some (OList items) -> read_list l h = Some (items, h).
Proof. intros H. unfold read_list. rewrite H. reflexivity. Qed.

Lemma contains_run (l : loc) (h : store) entries key :
  h !! l = Some (ODict entries) -> contains l key h = Some (dict_contains entries key, h).
Proof. intros H. unfold contains. rewrite (sbind_run _ _ _ _ _ (read_dict_run _ _ _ H)). reflexivity. Qed.

Lemma getitem_run (l : loc) (h : store) entries key v :
  h !! l = Some (ODict entries) -> dict_lookup entries key = Some v ->
  getitem l key h = Some (v, h).
Proof.
  intros H Hv. unfold getitem. rewrite (sbind_run _ _ _ _ _ (read_dict_run _ _ _ H)).
  rewrite Hv. reflexivity.
Qed.

Lemma get_run (l : loc) (h : store) entries key default :
  h !! l = Some (ODict entries) -> get l key default h = Some (dict_get entries key default, h).
Proof. intros H. unfold get. rewrite (sbind_run _ _ _ _ _ (read_dict_run _ _ _ H)). reflexivity. Qed.

Lemma setitem_run (l : loc) (h : store) entries key v :
  h !! l = Some (ODict entries) ->
  setitem l key v h = Some (tt, <[l := ODict (dict_setitem entries key v)]> h).
Proof. intros H. unfold setitem. rewrite (sbind_run _ _ _ _ _ (read_dict_run _ _ _ H)). reflexivity. Qed.

Lemma nonempty_run (l : loc) (h : store) entries :
  h !! l = Some (ODict entries) ->
  nonempty l h = Some (match entries with [] => false | _ => true end, h).
Proof. intros H. unfold nonempty. rewrite (sbind_run _ _ _ _ _ (read_dict_run _ _ _ H)). reflexivity. Qed.

Lemma append_run (l : loc) (h : store) items v :
  h !! l = Some (OList items) ->
  append l v h = Some (tt, <[l := OList (items ++ [v])]> h).
Proof. intros H. unfold append. rewrite (sbind_run _ _ _ _ _ (read_list_run _ _ _ H)). reflexivity. Qed.

Lemma len_run (l : loc) (h : store) items :
  h !! l = Some (OList items) -> len l h = Some (length items, h).
Proof. intros H. unfold len. rewrite (sbind_run _ _ _ _ _ (read_list_run _ _ _ H)). reflexivity. Qed.

(** The copy loop leaves in [target] what [copy_present] computes. *)
Lemma copy_present_s_run (kernel target : loc) (keys : list string) (h : store)
      (entries t : list (string * ref)) :
  h !! kernel = Some (ODict entries) ->
  h !! target = Some (ODict t) ->
  kernel <> target ->
  copy_present_s kernel keys target h
  = Some (tt, <[target := ODict (copy_present entries keys t)]> h).
Proof.
  revert t h. induction keys as [|key rest IH]; intros t h Hk Ht Hne.
  - change (Some (tt, h) = Some (tt, <[target := ODict t]> h)).
    rewrite list_insert_id by exact Ht. reflexivity.
  - cbn [copy_present_s]. rewrite (sbind_run _ _ _ _ _ (contains_run _ _ _ key Hk)).
    unfold copy_present. cbn [fold_left]. fold (copy_present (V := ref)).
    unfold dict_contains.
    destruct (dict_lookup entries key) as [v|] eqn:Hv.
    + rewrite (sbind_run _ _ h (<[target := ODict (dict_setitem t key v)]> h) tt).
      2: { rewrite (sbind_run _ _ _ _ _ (getitem_run _ _ _ key v Hk Hv)).
           apply setitem_run. exact Ht. }
      rewrite (IH (dict_setitem t key v)).
      * rewrite list_insert_insert_eq. reflexivity.
      * rewrite list_lookup_insert_ne by (intros E; apply Hne; symmetry; exact E). exact Hk.
      * apply list_lookup_insert_eq. apply lookup_lt_Some in Ht. exact Ht.
      * exact Hne.
    + rewrite (sbind_run _ _ h h tt) by reflexivity.
      apply IH; assumption.
Qed.

(** *** The blocks *)

(** Building a section dict and appending it to [sections]. *)
Lemma emit_section (sections : loc) (h : store) (items : list ref)
      (section : list (string * ref)) :
  h !! sections = Some (OList items) ->
  exists h',
    sbind (new (ODict section)) (fun s => append sections (RObj s)) h = Some (tt, h')
    /\ h' !! sections = Some (OList (items ++ [RObj (length h)]))
    /\ preserves sections h h'
    /\ length h <= length h'
    /\ h' !! length h = Some (ODict section)
    /\ forall d : dict,
         entries_rel (represents (fun l => l <> sections) h) section d ->
         represents (fun l => l <> sections) h' (RObj (length h)) (VDict d).
Proof.
  intros Hs.
  pose proof (lookup_lt_Some _ _ _ Hs) as Hlt.
  exists (<[sections := OList (items ++ [RObj (length h)])]> (h ++ [ODict section])).
  assert (Hkeep : preserves sections h
                    (<[sections := OList (items ++ [RObj (length h)])]>
                       (h ++ [ODict section]))).
  { intros l o Hl Hget. rewrite list_lookup_insert_ne by (intros E; apply Hl; symmetry; exact E).
    apply lookup_app_l_Some. exact Hget. }
  assert (Hnew : <[sections := OList (items ++ [RObj (length h)])]> (h ++ [ODict section])
                 !! length h = Some (ODict section)).
  { rewrite list_lookup_insert_ne by lia. apply list_lookup_middle. reflexivity. }
  split; [|split; [|split; [|split; [|split]]]].
  - rewrite (sbind_run _ _ h (h ++ [ODict section]) (length h)) by reflexivity.
    apply append_run. apply lookup_app_l_Some. exact Hs.
  - apply list_lookup_insert_eq. rewrite length_app. lia.
  - exact Hkeep.
  - rewrite length_insert, length_app. lia.
  - exact Hnew.
  - intros d Hrel. eapply rep_dict; [lia | exact Hnew |].
    eapply entries_rel_transport; [| |exact Hrel].
    + intros l Hl. exact Hl.
    + intros l o Hl. apply Hkeep. exact Hl.
Qed.

Lemma field_block_spec (kernel sections : loc) entries (tag title : string) :
  block_spec kernel sections entries
             (field_block kernel sections tag title) (FieldRule tag title).
Proof.
  intros h items Hk Hs Hne. unfold field_block.
  rewrite (sbind_run _ _ _ _ _ (contains_run _ _ _ tag Hk)).
  unfold dict_contains. destruct (dict_lookup entries tag) as [v|] eqn:Hv.
  - rewrite (sbind_run _ _ _ _ _ (get_run _ _ _ "id" (RStr "unknown") Hk)).
    rewrite (sbind_run _ _ _ _ _ (getitem_run _ _ _ tag v Hk Hv)).
    destruct (emit_section sections h items
                (dict_display [("section", RStr tag); ("title", RStr title);
                               ("id", dict_get entries "id" (RStr "unknown")); (tag, v)]) Hs)
      as [h' [Hrun [Hs' [Hkeep [Hlen [Hnew Hrep]]]]]].
    exists h'. split; [exact Hrun|].
    exists [RObj (length h)]. split; [exact Hs'|]. split; [exact Hkeep|]. split; [exact Hlen|].
    split.
    + constructor; [|constructor]. eexists _, _. split; [reflexivity|]. split; [lia | exact Hnew].
    + intros d Hrel. unfold run_rule.
      pose proof (entries_rel_lookup _ entries d tag Hrel) as Hlook. rewrite Hv in Hlook.
      destruct (dict_lookup d tag) as [v'|]; [|contradiction].
      cbn [map]. constructor; [|constructor]. apply Hrep.
      apply entries_rel_display.
      repeat (constructor; [split; [reflexivity|] |]); cbn [snd]; try constructor.
      * apply entries_rel_get; [exact Hrel | constructor].
      * exact Hlook.
  - exists h. split; [reflexivity|].
    exists []. rewrite app_nil_r. split; [exact Hs|].
    split; [intros l o _ Hget; exact Hget|]. split; [lia|]. split; [constructor|].
    intros d Hrel. unfold run_rule.
    pose proof (entries_rel_lookup _ entries d tag Hrel) as Hlook. rewrite Hv in Hlook.
    destruct (dict_lookup d tag); [contradiction | constructor].
Qed.

(** A new dict filled by the copy loop. *)
Lemma collect_run {A : Type} (kernel : loc) (keys : list string) (h : store) entries
      (k : loc -> St A) :
  h !! kernel = Some (ODict entries) ->
  sbind (new (ODict [])) (fun g => sbind (copy_present_s kernel keys g) (fun _ => k g)) h
  = k (length h) (h ++ [ODict (copy_present entries keys [])]).
Proof.
  intros Hk. pose proof (lookup_lt_Some _ _ _ Hk) as Hlt.
  rewrite (sbind_run _ _ h (h ++ [ODict []]) (length h)) by reflexivity.
  rewrite (sbind_run _ _ (h ++ [ODict []])
             (h ++ [ODict (copy_present entries keys [])]) tt); [reflexivity|].
  rewrite (copy_present_s_run kernel (length h) keys (h ++ [ODict []]) entries []).
  - rewrite insert_app_r_alt by lia. rewrite Nat.sub_diag. reflexivity.
  - apply lookup_app_l_Some. exact Hk.
  - apply list_lookup_middle. reflexivity.
  - lia.
Qed.

Lemma preserves_app (s : loc) (h ext : store) : preserves s h (h ++ ext).
Proof. intros l o _ Hget. apply lookup_app_l_Some. exact Hget. Qed.

Lemma preserves_trans (s : loc) (h1 h2 h3 : store) :
  preserves s h1 h2 -> preserves s h2 h3 -> preserves s h1 h3.
Proof. intros H12 H23 l o Hl Hget. apply H23; [exact Hl|]. apply H12; assumption. Qed.

Lemma entries_rel_preserved (s : loc) (h h' : store) entries (d : dict) :
  preserves s h h' ->
  entries_rel (represents (fun l => l <> s) h) entries d ->
  entries_rel (represents (fun l => l <> s) h') entries d.
Proof.
  intros Hkeep. apply entries_rel_transport.
  - intros l Hl. exact Hl.
  - intros l o Hl. apply Hkeep. exact Hl.
Qed.

Lemma group_block_spec (kernel sections : loc) entries (tag title : string)
      (keys : list string) :
  block_spec kernel sections entries
             (group_block kernel sections tag title keys) (GroupRule tag title keys).
Proof.
  intros h items Hk Hs Hne. unfold group_block.
  pose proof (lookup_lt_Some _ _ _ Hs) as Hlt.
  rewrite (collect_run kernel keys h entries _ Hk).
  set (group := copy_present entries keys []).
  set (h2 := h ++ [ODict group]).
  assert (Hg : h2 !! length h = Some (ODict group)) by (apply list_lookup_middle; reflexivity).
  assert (Hk2 : h2 !! kernel = Some (ODict entries)) by (apply lookup_app_l_Some; exact Hk).
  assert (Hs2 : h2 !! sections = Some (OList items)) by (apply lookup_app_l_Some; exact Hs).
  assert (Hlen2 : length h2 = S (length h)) by (unfold h2; rewrite length_app; cbn; lia).
  rewrite (sbind_run _ _ _ _ _ (nonempty_run _ _ _ Hg)).
  destruct group as [|e group'] eqn:Hgroup.
  - exists h2. split; [reflexivity|].
    exists []. rewrite app_nil_r. split; [exact Hs2|].
    split; [apply preserves_app|]. split; [lia|]. split; [constructor|].
    intros d Hrel. unfold run_rule.
    assert (Hgd : entries_rel (represents (fun l => l <> sections) h)
                    (copy_present entries keys []) (copy_present d keys []))
      by (apply entries_rel_copy_present; [exact Hrel | constructor]).
    fold group in Hgd. rewrite Hgroup in Hgd. inversion Hgd. constructor.
  - rewrite (sbind_run _ _ _ _ _ (get_run _ _ _ "id" (RStr "unknown") Hk2)).
    rewrite (sbind_run _ _ _ _ _ (read_dict_run _ _ _ Hg)).
    destruct (emit_section sections h2 items
                (dict_update
                   (dict_display [("section", RStr tag); ("title", RStr title);
                                  ("id", dict_get entries "id" (RStr "unknown"))])
                   (e :: group')) Hs2)
      as [h' [Hrun [Hs' [Hkeep [Hlen [Hnew Hrep]]]]]].
    exists h'. split; [exact Hrun|].
    exists [RObj (length h2)]. split; [exact Hs'|].
    split; [eapply preserves_trans; [apply preserves_app | exact Hkeep]|].
    split; [lia|].
    split.
    + constructor; [|constructor]. eexists _, _. split; [reflexivity|]. split; [lia | exact Hnew].
    + intros d Hrel. unfold run_rule.
      apply (entries_rel_preserved sections h h2) in Hrel; [|apply preserves_app].
      assert (Hgd : entries_rel (represents (fun l => l <> sections) h2)
                      (copy_present entries keys []) (copy_present d keys []))
        by (apply entries_rel_copy_present; [exact Hrel | constructor]).
      fold group in Hgd. rewrite Hgroup in Hgd.
      destruct (copy_present d keys []) as [|e' gd] eqn:Hd; [inversion Hgd|].
      cbn [truthy map]. constructor; [|constructor]. apply Hrep.
      apply entries_rel_update; [|exact Hgd].
      apply entries_rel_display.
      repeat (constructor; [split; [reflexivity|] |]); cbn [snd]; try constructor.
      apply entries_rel_get; [exact Hrel | constructor].
Qed.

Lemma header_block_spec (kernel sections : loc) entries :
  block_spec kernel sections entries (header_block kernel sections) HeaderRule.
Proof.
  intros h items Hk Hs Hne. unfold header_block.
  pose proof (lookup_lt_Some _ _ _ Hs) as Hlt.
  rewrite (collect_run kernel header_keys h entries _ Hk).
  set (header := copy_present entries header_keys []).
  set (h2 := h ++ [ODict header]).
  assert (Hg : h2 !! length h = Some (ODict header)) by (apply list_lookup_middle; reflexivity).
  assert (Hk2 : h2 !! kernel = Some (ODict entries)) by (apply lookup_app_l_Some; exact Hk).
  assert (Hs2 : h2 !! sections = Some (OList items)) by (apply lookup_app_l_Some; exact Hs).
  assert (Hlen2 : length h2 = S (length h)) by (unfold h2; rewrite length_app; cbn; lia).
  rewrite (sbind_run _ _ _ _ _ (nonempty_run _ _ _ Hg)).
  destruct header as [|e header'] eqn:Hheader.
  - exists h2. split; [reflexivity|].
    exists []. rewrite app_nil_r. split; [exact Hs2|].
    split; [apply preserves_app|]. split; [lia|]. split; [constructor|].
    intros d Hrel. unfold run_rule.
    assert (Hgd : entries_rel (represents (fun l => l <> sections) h)
                    (copy_present entries header_keys []) (copy_present d header_keys []))
      by (apply entries_rel_copy_present; [exact Hrel | constructor]).
    fold header in Hgd. rewrite Hheader in Hgd.
    apply entries_rel_nil in Hgd as [Hnil _]. rewrite (Hnil eq_refl). constructor.
  - rewrite (sbind_run _ _ _ _ _ (get_run _ _ _ "title" (RStr "Header") Hk2)).
    rewrite (sbind_run _ _ _ _ _ (get_run _ _ _ "id" (RStr "unknown") Hk2)).
    destruct (emit_section sections h2 items
                (dict_display [("section", RStr "header");
                               ("title", dict_get entries "title" (RStr "Header"));
                               ("id", dict_get entries "id" (RStr "unknown"));
                               ("data", RObj (length h))]) Hs2)
      as [h' [Hrun [Hs' [Hkeep [Hlen [Hnew Hrep]]]]]].
    exists h'. split; [exact Hrun|].
    exists [RObj (length h2)]. split; [exact Hs'|].
    split; [eapply preserves_trans; [apply preserves_app | exact Hkeep]|].
    split; [lia|].
    split.
    + constructor; [|constructor]. eexists _, _. split; [reflexivity|]. split; [lia | exact Hnew].
    + intros d Hrel. unfold run_rule.
      apply (entries_rel_preserved sections h h2) in Hrel; [|apply preserves_app].
      assert (Hgd : entries_rel (represents (fun l => l <> sections) h2)
                      (copy_present entries header_keys []) (copy_present d header_keys []))
        by (apply entries_rel_copy_present; [exact Hrel | constructor]).
      fold header in Hgd. rewrite Hheader in Hgd.
      remember (copy_present d header_keys []) as headerd eqn:Hd.
      destruct headerd as [|e' gd]; [inversion Hgd|].
      cbn [truthy map]. constructor; [|constructor]. apply Hrep.
      apply entries_rel_display.
      repeat (constructor; [split; [reflexivity|] |]); cbn [snd]; try constructor.
      * apply entries_rel_get; [exact Hrel | constructor].
      * apply entries_rel_get; [exact Hrel | constructor].
      * eapply rep_dict; [lia | exact Hg | exact Hgd].
Qed.

Lemma sbind_assoc {A B C : Type} (c : St A) (k : A -> St B) (k' : B -> St C) (h : store) :
  sbind (sbind c k) k' h = sbind c (fun a => sbind (k a) k') h.
Proof. unfold sbind. destruct (c h) as [[a h']|]; reflexivity. Qed.

Lemma sbind_ext {A B : Type} (c : St A) (k k' : A -> St B) (h : store) :
  (forall a h', k a h' = k' a h') -> sbind c k h = sbind c k' h.
Proof. intros H. unfold sbind. destruct (c h) as [[a h']|]; [apply H | reflexivity]. Qed.

(** Block 4 runs as the group block over its two keys. *)
Lemma lang_motifs_block_group (kernel sections : loc) (h : store) :
  lang_motifs_block kernel sections h
  = group_block kernel sections "language_motifs" "Language & Motifs"
                ["language_patterns"; "motifs"] h.
Proof.
  unfold lang_motifs_block, group_block. cbn [copy_present_s].
  apply sbind_ext. intros group h1.
  rewrite sbind_assoc. apply sbind_ext. intros present h2.
  rewrite sbind_assoc. apply sbind_ext. intros [] h3.
  rewrite sbind_assoc. apply sbind_ext. intros present2 h4.
  rewrite sbind_assoc. apply sbind_ext. intros [] h5.
  reflexivity.
Qed.

Lemma lang_motifs_block_spec (kernel sections : loc) entries :
  block_spec kernel sections entries (lang_motifs_block kernel sections)
             (GroupRule "language_motifs" "Language & Motifs" ["language_patterns"; "motifs"]).
Proof.
  intros h items Hk Hs Hne. rewrite lang_motifs_block_group.
  apply group_block_spec; assumption.
Qed.

(** *** The run of the ten blocks *)

Lemma Forall2_represents_preserved (s : loc) (h h' : store) items (values : list value) :
  preserves s h h' ->
  Forall2 (represents (fun l => l <> s) h) items values ->
  Forall2 (represents (fun l => l <> s) h') items values.
Proof.
  intros Hkeep H. induction H as [|v x items values Hv _ IH]; constructor; [|exact IH].
  eapply represents_transport; [| |exact Hv].
  - intros l Hl. exact Hl.
  - intros l o Hl. apply Hkeep. exact Hl.
Qed.

Lemma segment_step (kernel sections : loc) entries (h1 h : store)
      (done : list rule) (c : St unit) (r : rule) :
  kernel <> sections ->
  segment_inv kernel sections entries h1 done h ->
  block_spec kernel sections entries c r ->
  exists h', c h = Some (tt, h')
             /\ segment_inv kernel sections entries h1 (done ++ [r]) h'.
Proof.
  intros Hne [Hk [Hkeep1 [[Hs1 Hlen] [items [Hs [Hfresh Hrep]]]]]] Hspec.
  destruct (Hspec h items Hk Hs Hne)
    as [h' [Hrun [new [Hs' [Hkeep [Hlen' [Hfresh' Hrep']]]]]]].
  exists h'. split; [exact Hrun|].
  split; [apply Hkeep; assumption|].
  split; [eapply preserves_trans; eassumption|].
  split; [lia|].
  exists (items ++ new). split; [exact Hs'|]. split.
  - apply Forall_app. split.
    + eapply Forall_impl; [exact Hfresh|].
      intros v [l [es [-> [Hl Hget]]]]. exists l, es.
      split; [reflexivity|]. split; [exact Hl|]. apply Hkeep; [lia | exact Hget].
    + eapply Forall_impl; [exact Hfresh'|].
      intros v [l [es [-> [Hl Hget]]]]. exists l, es.
      split; [reflexivity|]. split; [lia | exact Hget].
  - intros d Hrel. rewrite flat_map_app, map_app. cbn [flat_map]. rewrite app_nil_r.
    apply Forall2_app.
    + eapply Forall2_represents_preserved; [exact Hkeep | apply Hrep; exact Hrel].
    + apply Hrep'. eapply entries_rel_preserved; [exact Hkeep1 | exact Hrel].
Qed.

Ltac run_block Hne Hinv spec :=
  let h' := fresh "h" in
  let Hrun := fresh "Hrun" in
  let Hinv' := fresh "Hinv" in
  destruct (segment_step _ _ _ _ _ _ _ _ Hne Hinv spec) as [h' [Hrun Hinv']];
  rewrite (sbind_run _ _ _ _ _ Hrun);
  clear Hrun Hinv; rename Hinv' into Hinv.

(** The whole run, over any store that holds a dict at [kernel]. *)
Lemma segment_run (h0 : store) (kernel : loc) (entries : list (string * ref)) :
  h0 !! kernel = Some (ODict entries) ->
  exists sections_items h,
    segment_inv kernel (length h0) entries (h0 ++ [OList []]) rule_table h
    /\ h !! length h0 = Some (OList sections_items)
    /\ chunk_single_kernel_s kernel h0
       = if 1 <? length sections_items
         then Some (length h0, h)
         else Some (length h, h ++ [OList [RObj kernel]]).
Proof.
  intros Hk. pose proof (lookup_lt_Some _ _ _ Hk) as Hlt.
  assert (Hne : kernel <> length h0) by lia.
  assert (Hinv : segment_inv kernel (length h0) entries (h0 ++ [OList []]) []
                             (h0 ++ [OList []])).
  { split; [apply lookup_app_l_Some; exact Hk|].
    split; [intros l o _ Hget; exact Hget|].
    split; [rewrite length_app; cbn; lia|].
    exists []. split; [apply list_lookup_middle; reflexivity|].
    split; [constructor|]. intros d _. constructor. }
  unfold chunk_single_kernel_s.
  rewrite (sbind_run _ _ h0 (h0 ++ [OList []]) (length h0)) by reflexivity.
  run_block Hne Hinv (header_block_spec kernel (length h0) entries).
  run_block Hne Hinv (field_block_spec kernel (length h0) entries
                        "emotional_arc" "Emotional Arc").
  run_block Hne Hinv (field_block_spec kernel (length h0) entries
                        "heat_signature" "Heat Signature").
  run_block Hne Hinv (lang_motifs_block_spec kernel (length h0) entries).
  run_block Hne Hinv (field_block_spec kernel (length h0) entries
                        "physical_anchors" "Physical Anchors").
  run_block Hne Hinv (field_block_spec kernel (length h0) entries
                        "visual_description" "Visual Description").
  run_block Hne Hinv (group_block_spec kernel (length h0) entries
                        "dynamics" "Relationship Dynamics"
                        ["consent_pattern"; "power_dynamic"; "aftercare"]).
  run_block Hne Hinv (group_block_spec kernel (length h0) entries
                        "core_truth" "Core Truth & Boundaries"
                        ["pattern_boundaries"; "what_makes_it_work"; "core_truth";
                         "why_it_matters"]).
  run_block Hne Hinv (field_block_spec kernel (length h0) entries
                        "cubic_attractor" "Cubic Attractor (Identity)").
  run_block Hne Hinv (group_block_spec kernel (length h0) entries
                        "export" "Export Notes"
                        ["replication_notes"; "export_notes"; "closing_image";
                         "heat_at_close"; "sigil"]).
  change (segment_inv kernel (length h0) entries (h0 ++ [OList []]) rule_table h9) in Hinv.
  pose proof Hinv as [_ [_ [_ [items [Hs _]]]]].
  exists items, h9. split; [exact Hinv|]. split; [exact Hs|].
  rewrite (sbind_run _ _ _ _ _ (len_run _ _ _ Hs)).
  destruct (1 <? length items); reflexivity.
Qed.

Lemma entries_rel_impl {A B : Type} (R R' : A -> B -> Prop)
      (d : list (string * A)) (d' : list (string * B)) :
  (forall v x, R v x -> R' v x) -> entries_rel R d d' -> entries_rel R' d d'.
Proof.
  intros Himpl H. induction H as [|e kv d d' [Hk Hv] _ IH]; constructor; [|exact IH].
  split; [exact Hk | apply Himpl; exact Hv].
Qed.

(** C9: [chunk_single_kernel], run on a store that holds the record at
    [kernel], returns; every object the store held before the call, the
    record among them, is found unchanged after it; the result is a list
    made by the call, which holds either the reference to the record
    itself and nothing else (the fallback), or two or more references to
    dicts made by the call. *)
Theorem chunk_single_kernel_reads_only
        (h : store) (kernel : loc) (entries : list (string * ref)) :
  h !! kernel = Some (ODict entries) ->
  exists result h' items,
    chunk_single_kernel_s kernel h = Some (result, h')
    /\ (forall l o, h !! l = Some o -> h' !! l = Some o)
    /\ h' !! kernel = Some (ODict entries)
    /\ length h <= result
    /\ h' !! result = Some (OList items)
    /\ (items = [RObj kernel]
        \/ (2 <= length items
            /\ Forall (fun v => exists l es,
                                  v = RObj l /\ length h < l /\ h' !! l = Some (ODict es))
                      items)).
Proof.
  intros Hk.
  destruct (segment_run h kernel entries Hk) as [items [hf [Hinv [Hs Hrun]]]].
  destruct Hinv as [Hkf [Hkeep [[_ Hlen] [items' [Hs' [Hfresh _]]]]]].
  rewrite Hs in Hs'. injection Hs' as <-.
  rewrite length_app in Hlen. cbn [length] in Hlen.
  assert (Hframe : forall l o, h !! l = Some o -> hf !! l = Some o).
  { intros l o Hget. apply Hkeep.
    - apply lookup_lt_Some in Hget. lia.
    - apply lookup_app_l_Some. exact Hget. }
  destruct (1 <? length items) eqn:Hn.
  - exists (length h), hf, items. split; [exact Hrun|].
    split; [exact Hframe|]. split; [exact Hkf|]. split; [lia|]. split; [exact Hs|].
    right. apply Nat.ltb_lt in Hn. split; [lia|].
    eapply Forall_impl; [exact Hfresh|].
    intros v [l [es [-> [Hl Hget]]]]. exists l, es.
    split; [reflexivity|]. split; [|exact Hget].
    rewrite length_app in Hl. cbn [length] in Hl. lia.
  - exists (length hf), (hf ++ [OList [RObj kernel]]), [RObj kernel].
    split; [exact Hrun|].
    split; [intros l o Hget; apply lookup_app_l_Some; apply Hframe; exact Hget|].
    split; [apply lookup_app_l_Some; exact Hkf|]. split; [lia|].
    split; [apply list_lookup_middle; reflexivity|].
    left. reflexivity.
Qed.

Lemma chunk_single_kernel_reads_only_witness :
  exists result h' items,
    chunk_single_kernel_s 0 store_solo = Some (result, h')
    /\ h' !! 0 = Some (ODict [("id", RStr "k1"); ("title", RStr "Solo")])
    /\ h' !! result = Some (OList items)
    /\ (items = [RObj 0] \/ 2 <= length items).
Proof.
  destruct (chunk_single_kernel_reads_only store_solo 0
              [("id", RStr "k1"); ("title", RStr "Solo")] eq_refl)
    as [result [h' [items [Hrun [_ [Hk [_ [Hitems Hshape]]]]]]]].
  exists result, h', items.
  split; [exact Hrun|]. split; [exact Hk|]. split; [exact Hitems|].
  destruct Hshape as [-> | [Hlen _]]; [left; reflexivity | right; exact Hlen].
Defined.

(** The run on the store computes what [chunk_single_kernel] computes on
    the record the store represents: the result list represents the
    sections, or the record alone. *)
Theorem chunk_single_kernel_s_refines (h : store) (kernel : loc) (d : dict) :
  represents (fun _ => True) h (RObj kernel) (VDict d) ->
  exists result h',
    chunk_single_kernel_s kernel h = Some (result, h')
    /\ represents (fun _ => True) h' (RObj result)
                  (VList (map VDict (chunk_single_kernel d))).
Proof.
  intros Hrep. pose proof Hrep as Hrep0.
  inversion Hrep as [ | | | | | | l entries d' _ Hk Hrel]; subst l d'.
  destruct (segment_run h kernel entries Hk) as [items [hf [Hinv [Hs Hrun]]]].
  destruct Hinv as [Hkf [Hkeep [[_ Hlen] [items' [Hs' [_ Hsections]]]]]].
  rewrite Hs in Hs'. injection Hs' as <-.
  assert (Hframe : forall l o, h !! l = Some o -> hf !! l = Some o).
  { intros l o Hget. apply Hkeep.
    - apply lookup_lt_Some in Hget. lia.
    - apply lookup_app_l_Some. exact Hget. }
  assert (Hrel1 : entries_rel (represents (fun l => l <> length h) (h ++ [OList []]))
                              entries d).
  { eapply entries_rel_transport with (ok := fun l => l < length h) (h := h).
    - intros l Hl. lia.
    - intros l o _ Hget. apply lookup_app_l_Some. exact Hget.
    - eapply entries_rel_impl; [|exact Hrel]. apply represents_bounded. }
  specialize (Hsections d Hrel1). rewrite <- extract_sections_table in Hsections.
  assert (Hcount : length items = length (extract_sections d)).
  { apply Forall2_length in Hsections. rewrite length_map in Hsections. exact Hsections. }
  unfold chunk_single_kernel. rewrite <- Hcount.
  destruct (1 <? length items).
  - exists (length h), hf. split; [exact Hrun|].
    eapply rep_list; [exact I | exact Hs |].
    clear -Hsections. induction Hsections as [|v x l l' Hv _ IH]; constructor; [|exact IH].
    eapply represents_transport; [| |exact Hv]; [intros; exact I | intros l0 o _ Hget; exact Hget].
  - exists (length hf), (hf ++ [OList [RObj kernel]]). split; [exact Hrun|].
    eapply rep_list; [exact I | apply list_lookup_middle; reflexivity |].
    constructor; [|constructor].
    eapply represents_transport; [| |exact Hrep0]; [intros; exact I|].
    intros l o _ Hget. apply lookup_app_l_Some. apply Hframe. exact Hget.
Qed.

Lemma chunk_single_kernel_s_refines_witness :
  exists result h',
    chunk_single_kernel_s 1 store_k1 = Some (result, h')
    /\ represents (fun _ => True) h' (RObj result)
                  (VList (map VDict (chunk_single_kernel record_k1))).
Proof.
  apply (chunk_single_kernel_s_refines store_k1 1 record_k1).
  eapply rep_dict; [exact I | reflexivity |].
  constructor; [split; [reflexivity | constructor]|].
  constructor; [split; [reflexivity|] | constructor].
  eapply rep_dict; [exact I | reflexivity |].
  constructor; [split; [reflexivity | constructor] | constructor].
Defined.

(** ** The controller *)

Tactic Notation "run_slot" :=
  cbv beta iota delta [bind this assign ret raise or_raise or_type_error].
Tactic Notation "run_slot" "in" hyp(H) :=
  cbv beta iota delta [bind this assign ret raise or_raise or_type_error] in H.

Lemma map_kernel_data_insert (cards : list ChunkCard) (i : nat) (card : ChunkCard) (b : bool) :
  cards !! i = Some card ->
  map kernel_data
      (<[i := {| chunk_num := chunk_num card; kernel_data := kernel_data card;
                 is_copied := b |}]> cards)
  = map kernel_data cards.
Proof.
  revert i. induction cards as [|c cards IH]; intros [|i] H; try discriminate H.
  - injection H as ->. reflexivity.
  - cbn. f_equal. apply IH. exact H.
Qed.

Lemma map_kernel_data_reset (cards : list ChunkCard) :
  map kernel_data (map reset_style cards) = map kernel_data cards.
Proof. rewrite map_map. reflexivity. Qed.

Lemma lookup_map_kernel_data (cards : list ChunkCard) (i : nat) (chunk : value) :
  nth_error (map kernel_data cards) i = Some chunk ->
  exists card, cards !! i = Some card /\ kernel_data card = chunk.
Proof.
  revert i. induction cards as [|c cards IH]; intros [|i] H; try discriminate H.
  - injection H as <-. exists c. split; reflexivity.
  - apply IH. exact H.
Qed.

(** [copy_kernel] writes the card's chunk to the clipboard and marks the
    card; without a card at [i] it does nothing. *)
Lemma copy_kernel_returns (i : nat) (self : KernelChunker) :
  exists self',
    copy_kernel i self = Returns tt self'
    /\ chunks self' = chunks self
    /\ current_chunk_index self' = current_chunk_index self
    /\ map kernel_data (chunks_layout self') = map kernel_data (chunks_layout self)
    /\ copy_all_btn_enabled self' = copy_all_btn_enabled self
    /\ match chunks_layout self !! i with
       | Some card => clipboard self' = Some (json_dumps (kernel_data card) 2)
       | None => clipboard self' = clipboard self
       end.
Proof.
  unfold copy_kernel. run_slot.
  destruct (chunks_layout self !! i) as [card|] eqn:Hcard.
  - eexists. split; [reflexivity|]. cbn.
    repeat split. apply map_kernel_data_insert. exact Hcard.
  - exists self. repeat split.
Qed.

Section SlotFacts.

Variable strip : string -> string.
Variable loads : string -> loads_result.

(** A failed parse sets the status label and returns. *)
Lemma process_chunks_failure (self : KernelChunker) (message : string) :
  parse_failure strip loads (drop_zone self) message ->
  process_chunks strip loads self = Returns tt (set_status_label message self).
Proof.
  intros H. unfold process_chunks. run_slot.
  destruct H as [Hblank | e Hne Hload | data msg Hne Hload Hshape
                 | data kernels is_sectioned Hne Hload Hshape Hzero].
  - rewrite Hblank. reflexivity.
  - apply String.eqb_neq in Hne. rewrite Hne, Hload. reflexivity.
  - apply String.eqb_neq in Hne. rewrite Hne, Hload, Hshape. reflexivity.
  - apply String.eqb_neq in Hne. rewrite Hne, Hload, Hshape, Hzero. reflexivity.
Qed.

(** An exception of the decoder other than [json.JSONDecodeError] escapes
    [process_chunks] before anything is written. *)
Lemma process_chunks_loads_raises (self : KernelChunker) (e : exn) :
  strip (drop_zone self) <> "" ->
  loads (strip (drop_zone self)) = LoadsRaises e ->
  process_chunks strip loads self = Raises e self.
Proof.
  intros Hne Hload. unfold process_chunks. run_slot.
  apply String.eqb_neq in Hne. rewrite Hne, Hload. reflexivity.
Qed.

(** A value under ['kernels'] that is no list, here an [int], is a
    recognized shape: the slot writes it to [chunks] and raises when it
    starts the card loop. *)
Lemma process_chunks_raises_on_int (self : KernelChunker) (z : Z) :
  strip (drop_zone self) <> "" ->
  loads (strip (drop_zone self)) = Decoded (VDict [("kernels", VInt z)]) ->
  z <> 0%Z ->
  process_chunks strip loads self
  = Raises TypeError
           (set_current_chunk_index 0 (set_chunks (VInt z) (set_chunks_layout [] self))).
Proof.
  intros Hne Hload Hz. unfold process_chunks. run_slot.
  apply String.eqb_neq in Hne. rewrite Hne, Hload. cbn [extract_kernels dict_lookup].
  cbn [String.eqb Ascii.eqb Bool.eqb truthy].
  apply Z.eqb_neq in Hz. rewrite Hz. reflexivity.
Qed.

(** The card loop builds one card for each item that renders. *)
Lemma add_cards_renders (items : list value) (i : nat) (self : KernelChunker) :
  Forall (fun item => forall j, init_ui j item = None) items ->
  exists cards,
    add_cards i items self
    = Returns tt (set_chunks_layout (chunks_layout self ++ cards) self)
    /\ map kernel_data cards = items.
Proof.
  intros Hok. revert i self.
  induction Hok as [|item rest Hitem _ IH]; intros i self; cbn [add_cards].
  - exists []. rewrite app_nil_r. split; [destruct self; reflexivity | reflexivity].
  - unfold new_ChunkCard. rewrite Hitem. run_slot.
    destruct (IH (S i)
                 (set_chunks_layout
                    (chunks_layout self
                       ++ [{| chunk_num := i; kernel_data := item; is_copied := false |}])
                    self))
      as [cards [Hrun Hdata]].
    exists ({| chunk_num := i; kernel_data := item; is_copied := false |} :: cards).
    split.
    + rewrite Hrun. cbn. rewrite <- app_assoc. reflexivity.
    + cbn. rewrite Hdata. reflexivity.
Qed.

(** The card loop either builds one card per item, in order, or stops at
    the first item that is no dict or does not render. *)
Lemma add_cards_returns (items : list value) (i : nat) (self self' : KernelChunker) :
  add_cards i items self = Returns tt self' ->
  exists cards,
    self' = set_chunks_layout (chunks_layout self ++ cards) self
    /\ map kernel_data cards = items
    /\ Forall (fun item => exists d, item = VDict d) items.
Proof.
  revert i self. induction items as [|item rest IH]; intros i self H; cbn [add_cards] in H.
  - injection H as <-. exists []. rewrite app_nil_r.
    split; [destruct self; reflexivity|]. split; [reflexivity | constructor].
  - unfold bind at 1 in H. unfold or_raise, new_ChunkCard in H.
    destruct (init_ui i item) as [e|] eqn:Hinit; [discriminate H|].
    cbn beta iota in H. unfold ret at 1 in H. cbn beta iota in H.
    unfold bind at 1, this in H. cbn beta iota in H.
    unfold bind at 1, assign at 1 in H. cbn beta iota in H.
    apply IH in H as [cards [-> [Hdata Hdicts]]].
    exists ({| chunk_num := i; kernel_data := item; is_copied := false |} :: cards).
    split; [|split].
    + cbn. rewrite <- app_assoc. reflexivity.
    + cbn. rewrite Hdata. reflexivity.
    + constructor; [|exact Hdicts].
      destruct item; try discriminate Hinit. eexists. reflexivity.
Qed.

(** [update_copy_all_button] rewrites the button text and nothing else,
    whenever [chunks] has a length. *)
Lemma update_copy_all_button_returns (self : KernelChunker) (n : nat) :
  py_len (chunks self) = Some n ->
  exists label,
    update_copy_all_button self = Returns tt (set_copy_all_btn_text label self).
Proof.
  intros Hlen. unfold update_copy_all_button. run_slot. rewrite Hlen.
  destruct (truthy (chunks self)).
  - cbn beta iota. destruct (Z.of_nat n - current_chunk_index self <=? 0)%Z;
      eexists; reflexivity.
  - exists (copy_all_btn_text self). destruct self; reflexivity.
Qed.

(** How [process_chunks] returns: with a failed parse, or with a fresh
    chunk list, the cursor at 0 and one card per chunk. *)
Lemma process_chunks_returns (self self' : KernelChunker) :
  process_chunks strip loads self = Returns tt self' ->
  (exists message,
      parse_failure strip loads (drop_zone self) message
      /\ self' = set_status_label message self)
  \/ (exists data is_sectioned items,
         loads (strip (drop_zone self)) = Decoded data
         /\ extract_kernels data = inr (VList items, is_sectioned)
         /\ items <> []
         /\ chunks self' = VList items
         /\ current_chunk_index self' = 0%Z
         /\ map kernel_data (chunks_layout self') = items
         /\ copy_all_btn_enabled self' = true
         /\ drop_zone self' = drop_zone self
         /\ clipboard self' = clipboard self).
Proof.
  intros H. unfold process_chunks in H. run_slot in H.
  destruct (String.eqb (strip (drop_zone self)) "") eqn:Hblank.
  { left. injection H as <-. eexists. split; [|reflexivity].
    apply blank_input. apply String.eqb_eq. exact Hblank. }
  apply String.eqb_neq in Hblank.
  destruct (loads (strip (drop_zone self))) as [data | e | e] eqn:Hload.
  2: { left. injection H as <-. eexists. split; [|reflexivity].
       apply malformed_text; assumption. }
  2: { discriminate H. }
  destruct (extract_kernels data) as [message | [kernels is_sectioned]] eqn:Hshape.
  { left. injection H as <-. eexists. split; [|reflexivity].
    eapply unrecognized_shape; eassumption. }
  destruct (truthy kernels) eqn:Htruthy; cbn [negb] in H.
  2: { left. injection H as <-. eexists. split; [|reflexivity].
       eapply zero_records; eassumption. }
  right. unfold clear_chunks in H. run_slot in H.
  destruct kernels as [ | b | z | f | s | items | entries]; cbn [py_iter] in H;
    try discriminate H.
  - (* a string: its first character is no dict *)
    destruct s as [|c s]; [discriminate Htruthy|].
    cbn in H. discriminate H.
  - (* a list *)
    destruct (add_cards 1 items _) as [[] mid | e mid] eqn:Hcards; [|discriminate H].
    apply add_cards_returns in Hcards as [cards [-> [Hdata _]]].
    cbn [py_len] in H.
    destruct is_sectioned; cbv beta iota in H;
      match type of H with
      | update_copy_all_button ?st = _ =>
          destruct (update_copy_all_button_returns st (length items) eq_refl)
            as [label Hbtn];
          rewrite Hbtn in H
      end;
      injection H as <-;
      eexists _, _, items;
      (repeat split; try eassumption; try reflexivity);
      destruct items; first [discriminate Htruthy | discriminate].
  - (* a dict: its first key is no dict *)
    destruct entries as [|[k v] entries]; [discriminate Htruthy|].
    cbn in H. discriminate H.
Qed.

(** The reset branch of [copy_next_chunk]: the cursor has reached the
    length of [chunks]. *)
Lemma copy_next_chunk_exhausted (self : KernelChunker) (n : nat) :
  py_len (chunks self) = Some n ->
  (Z.of_nat n <= current_chunk_index self)%Z ->
  exists self',
    copy_next_chunk self = Returns tt self'
    /\ current_chunk_index self' = 0%Z
    /\ chunks self' = chunks self
    /\ clipboard self' = clipboard self
    /\ map kernel_data (chunks_layout self') = map kernel_data (chunks_layout self)
    /\ copy_all_btn_enabled self' = copy_all_btn_enabled self
    /\ status_label self' = "Reset - ready to copy again".
Proof.
  intros Hlen Hge. unfold copy_next_chunk. run_slot. rewrite Hlen.
  apply Z.leb_le in Hge. rewrite Hge.
  unfold reset_all_cards. run_slot.
  match goal with
  | |- context [update_copy_all_button ?st] =>
      destruct (update_copy_all_button_returns st n Hlen) as [label ->]
  end.
  eexists. split; [reflexivity|]. cbn.
  repeat split. apply map_kernel_data_reset.
Qed.

(** The copy branch of [copy_next_chunk] over a list with a card per
    chunk: the chunk under the cursor reaches the clipboard and the
    cursor moves on by one. *)
Lemma copy_next_chunk_ready (self : KernelChunker) (items : list value) (chunk : value) :
  chunks self = VList items ->
  map kernel_data (chunks_layout self) = items ->
  (0 <= current_chunk_index self < Z.of_nat (length items))%Z ->
  nth_error items (Z.to_nat (current_chunk_index self)) = Some chunk ->
  exists self',
    copy_next_chunk self = Returns tt self'
    /\ clipboard self' = Some (json_dumps chunk 2)
    /\ current_chunk_index self' = (current_chunk_index self + 1)%Z
    /\ chunks self' = chunks self
    /\ map kernel_data (chunks_layout self') = items
    /\ copy_all_btn_enabled self' = copy_all_btn_enabled self.
Proof.
  intros Hchunks Hcards [Hlo Hhi] Hnth.
  unfold copy_next_chunk. run_slot. rewrite Hchunks. cbn [py_len].
  assert ((Z.of_nat (length items) <=? current_chunk_index self)%Z = false) as ->
      by (apply Z.leb_gt; exact Hhi).
  assert (truthy (VList items) = true) as ->.
  { destruct items; [cbn in Hhi; lia | reflexivity]. }
  unfold py_getitem, py_index.
  assert ((current_chunk_index self <? 0)%Z = false) as Hneg
      by (apply Z.ltb_ge; exact Hlo).
  assert ((current_chunk_index self <? Z.of_nat (length items))%Z = true) as ->
      by (apply Z.ltb_lt; exact Hhi).
  rewrite Hneg, Hnth. cbv beta iota.
  unfold grey_out_card. rewrite Hneg.
  set (st := set_clipboard (json_dumps chunk 2) self).
  destruct (copy_kernel_returns (Z.to_nat (current_chunk_index self)) st)
    as [st' [-> [Hc [Hi [Hl [He Hclip]]]]]].
  rewrite <- Hcards in Hnth.
  apply lookup_map_kernel_data in Hnth as [card [Hcard Hkd]].
  change (chunks_layout st) with (chunks_layout self) in Hclip.
  rewrite Hcard, Hkd in Hclip.
  match goal with
  | |- context [update_copy_all_button ?st0] =>
      destruct (update_copy_all_button_returns st0 (length items)) as [label ->];
        [cbn; rewrite Hc; cbn; rewrite Hchunks; reflexivity|]
  end.
  eexists. split; [reflexivity|]. cbn.
  repeat split; try assumption.
  - rewrite Hc. exact Hchunks.
  - rewrite Hl. exact Hcards.
Qed.

(** [copy_next_chunk] keeps the cursor within [chunks], whatever the
    layout holds. *)
Lemma copy_next_chunk_in_bounds (self self' : KernelChunker) :
  in_bounds self ->
  copy_next_chunk self = Returns tt self' ->
  in_bounds self'.
Proof.
  intros [n [Hlen [Hlo Hhi]]] H.
  destruct (Z_le_gt_dec (Z.of_nat n) (current_chunk_index self)) as [Hge | Hlt].
  - destruct (copy_next_chunk_exhausted self n Hlen Hge) as [st [Hst [Hi [Hc _]]]].
    rewrite Hst in H. injection H as <-.
    exists n. rewrite Hc, Hi. split; [exact Hlen | lia].
  - unfold copy_next_chunk in H. run_slot in H. rewrite Hlen in H.
    assert ((Z.of_nat n <=? current_chunk_index self)%Z = false) as Hleb
        by (apply Z.leb_gt; lia).
    rewrite Hleb in H.
    destruct (truthy (chunks self)).
    2: { injection H as <-. exists n. split; [exact Hlen | lia]. }
    destruct (py_getitem (chunks self) (current_chunk_index self)) as [e | kernel];
      [discriminate H|].
    cbv beta iota in H. unfold grey_out_card in H.
    assert ((current_chunk_index self <? 0)%Z = false) as Hneg by (apply Z.ltb_ge; lia).
    rewrite Hneg in H.
    set (st := set_clipboard (json_dumps kernel 2) self) in H.
    destruct (copy_kernel_returns (Z.to_nat (current_chunk_index self)) st)
      as [st' [Hst' [Hc [Hi _]]]].
    rewrite Hst' in H.
    match type of H with
    | context [update_copy_all_button ?st0] =>
        destruct (update_copy_all_button_returns st0 n) as [label Hbtn];
          [cbn; rewrite Hc; exact Hlen | rewrite Hbtn in H]
    end.
    injection H as <-. exists n. cbn. rewrite Hc. split; [exact Hlen | lia].
Qed.

(** Every action keeps the cursor within [chunks]. *)
Lemma perform_in_bounds (a : action) (self self' : KernelChunker) :
  in_bounds self ->
  perform strip loads a self = Some (Returns tt self') ->
  in_bounds self'.
Proof.
  intros Hin H. destruct a as [content | name content | reason | | | | i]; cbn [perform] in H.
  - injection H as <-. exact Hin.
  - injection H as <-. exact Hin.
  - injection H as <-. exact Hin.
  - injection H as H. apply process_chunks_returns in H
      as [[message [_ ->]] | [data [b [items [_ [_ [_ [Hc [Hi _]]]]]]]]].
    + exact Hin.
    + exists (length items). rewrite Hc, Hi. split; [reflexivity | lia].
  - injection H as <-. exists 0. cbn. split; [reflexivity | lia].
  - destruct (copy_all_btn_enabled self); [|discriminate H].
    injection H as H. eapply copy_next_chunk_in_bounds; eassumption.
  - destruct (i <? length (chunks_layout self)); [|discriminate H].
    injection H as H.
    destruct (copy_kernel_returns i self) as [st [Hst [Hc [Hi _]]]].
    rewrite Hst in H. injection H as <-.
    destruct Hin as [n [Hlen Hb]]. exists n. rewrite Hc, Hi. split; assumption.
Qed.

Lemma consistent_in_bounds (self : KernelChunker) : consistent self -> in_bounds self.
Proof.
  intros [items [Hc [Hb _]]]. exists (length items). rewrite Hc. split; [reflexivity | exact Hb].
Qed.

(** Every action keeps the widget consistent. *)
Lemma perform_consistent (a : action) (self self' : KernelChunker) :
  consistent self ->
  perform strip loads a self = Some (Returns tt self') ->
  consistent self'.
Proof.
  intros Hcons H.
  pose proof Hcons as [items [Hc [Hb [Hl He]]]].
  destruct a as [content | name content | reason | | | | i]; cbn [perform] in H.
  - injection H as <-. exact Hcons.
  - injection H as <-. exact Hcons.
  - injection H as <-. exact Hcons.
  - injection H as H. apply process_chunks_returns in H
      as [[message [_ ->]] | [data [b [items' [_ [_ [Hne [Hc' [Hi' [Hl' _]]]]]]]]]].
    + exact Hcons.
    + exists items'. rewrite Hi'.
      split; [exact Hc'|]. split; [lia|]. split; [exact Hl'|]. intros _. exact Hne.
  - injection H as <-. exists []. cbn.
    split; [reflexivity|]. split; [lia|]. split; [reflexivity | discriminate].
  - destruct (copy_all_btn_enabled self) eqn:Henabled; [|discriminate H].
    injection H as H.
    destruct (Z_le_gt_dec (Z.of_nat (length items)) (current_chunk_index self))
      as [Hge | Hlt].
    + destruct (copy_next_chunk_exhausted self (length items)) as
          [st [Hst [Hi' [Hc' [_ [Hl' [He' _]]]]]]];
        [rewrite Hc; reflexivity | exact Hge |].
      rewrite Hst in H. injection H as <-.
      exists items. rewrite Hc', Hi', Hl', He'.
      split; [exact Hc|]. split; [lia|]. split; [exact Hl | intros _; apply He; reflexivity].
    + destruct (nth_error items (Z.to_nat (current_chunk_index self))) as [chunk|] eqn:Hnth.
      2: { apply nth_error_None in Hnth. lia. }
      destruct (copy_next_chunk_ready self items chunk Hc Hl) as
          [st [Hst [_ [Hi' [Hc' [Hl' He']]]]]]; [lia | exact Hnth |].
      rewrite Hst in H. injection H as <-.
      exists items. rewrite Hc', Hi', He'.
      split; [exact Hc|]. split; [lia|]. split; [exact Hl' | intros _; apply He; reflexivity].
  - destruct (i <? length (chunks_layout self)); [|discriminate H].
    injection H as H.
    destruct (copy_kernel_returns i self) as [st [Hst [Hc' [Hi' [Hl' [He' _]]]]]].
    rewrite Hst in H. injection H as <-.
    exists items. rewrite Hc', Hi', Hl', He'.
    split; [exact Hc|]. split; [exact Hb|]. split; [exact Hl | exact He].
Qed.

Lemma reachable_consistent (self : KernelChunker) :
  reachable strip loads self -> consistent self.
Proof.
  induction 1 as [|self self' a _ IH Hstep].
  - exists []. repeat split; cbn; try lia; discriminate.
  - eapply perform_consistent; eassumption.
Qed.

(** A bare list of records that render is accepted: the list becomes the
    chunk sequence, the cursor is 0 and the sequential-copy button is
    enabled. *)
Lemma process_chunks_accepts_list (self : KernelChunker) (items : list value) :
  strip (drop_zone self) <> "" ->
  loads (strip (drop_zone self)) = Decoded (VList items) ->
  items <> [] ->
  Forall (fun item => forall j, init_ui j item = None) items ->
  exists self',
    process_chunks strip loads self = Returns tt self'
    /\ chunks self' = VList items
    /\ current_chunk_index self' = 0%Z
    /\ copy_all_btn_enabled self' = true.
Proof.
  intros Hne Hload Hitems Hok. unfold process_chunks. run_slot.
  apply String.eqb_neq in Hne. rewrite Hne, Hload. cbn [extract_kernels].
  destruct items as [|item rest] eqn:Hi; [contradiction|]. rewrite <- Hi in *.
  assert (truthy (VList items) = true) as -> by (rewrite Hi; reflexivity).
  cbn [negb py_iter py_len]. unfold clear_chunks. run_slot.
  match goal with
  | |- context [add_cards 1 items ?st] =>
      destruct (add_cards_renders items 1 st Hok) as [cards [-> _]]
  end.
  match goal with
  | |- context [update_copy_all_button ?st] =>
      destruct (update_copy_all_button_returns st (length items) eq_refl) as [label ->]
  end.
  eexists. split; [reflexivity|]. repeat split.
Qed.

(** Over an empty chunk list the sequential-copy button is disabled, so
    there is no click to perform; [copy_next_chunk] itself would only put
    the cursor back to 0. *)
Lemma no_click_without_chunks (self : KernelChunker) :
  reachable strip loads self ->
  chunks self = VList [] ->
  perform strip loads ClickCopyAll self = None
  /\ exists self', copy_next_chunk self = Returns tt self'
                   /\ current_chunk_index self' = 0%Z
                   /\ clipboard self' = clipboard self.
Proof.
  intros Hreach Hchunks.
  destruct (reachable_consistent self Hreach) as [items [Hc [Hb [_ He]]]].
  rewrite Hchunks in Hc. injection Hc as <-.
  split.
  - cbn [perform]. destruct (copy_all_btn_enabled self); [|reflexivity].
    contradiction He; reflexivity.
  - destruct (copy_next_chunk_exhausted self 0) as [self' [Hrun [Hi [_ [Hclip _]]]]].
    + rewrite Hchunks. reflexivity.
    + cbn in Hb. lia.
    + exists self'. repeat split; assumption.
Qed.

Lemma perform_all_reachable (actions : list action) (self self' : KernelChunker) :
  reachable strip loads self ->
  perform_all strip loads actions self = Some self' ->
  reachable strip loads self'.
Proof.
  revert self. induction actions as [|a rest IH]; intros self Hreach H; cbn [perform_all] in H.
  - injection H as <-. exact Hreach.
  - destruct (perform strip loads a self) as [[[] mid | e mid]|] eqn:Hstep;
      try discriminate H.
    apply (IH mid); [|exact H].
    eapply reachable_step; eassumption.
Qed.

End SlotFacts.

(** ** The controller: claims *)

(** C5: a decoded mapping without ['kernels'] that lacks ['id'], or has
    none of ['emotional_arc'], ['heat_signature'], ['cubic_attractor'], is
    not handed to the segmenter: the parse ends with the status message
    "No kernels found in JSON" and the chunk list, the cursor and the cards
    stay as they were. *)
Theorem unrecognized_mapping_rejected
        (strip : string -> string) (loads : string -> loads_result)
        (self : KernelChunker) (d : dict) :
  strip (drop_zone self) <> "" ->
  loads (strip (drop_zone self)) = Decoded (VDict d) ->
  dict_contains d "kernels" = false ->
  dict_contains d "id" = false
  \/ (dict_contains d "emotional_arc" = false
      /\ dict_contains d "heat_signature" = false
      /\ dict_contains d "cubic_attractor" = false) ->
  extract_kernels (VDict d) = inl "No kernels found in JSON"
  /\ parse_failure strip loads (drop_zone self) "No kernels found in JSON"
  /\ exists self',
       process_chunks strip loads self = Returns tt self'
       /\ status_label self' = "No kernels found in JSON"
       /\ chunks self' = chunks self
       /\ current_chunk_index self' = current_chunk_index self
       /\ chunks_layout self' = chunks_layout self.
Proof.
  intros Hne Hload Hkernels Hshape.
  assert (Hextract : extract_kernels (VDict d) = inl "No kernels found in JSON").
  { unfold extract_kernels. unfold dict_contains in Hkernels.
    destruct (dict_lookup d "kernels"); [discriminate Hkernels|].
    destruct Hshape as [-> | [-> [-> ->]]]; [reflexivity|].
    rewrite andb_false_r. reflexivity. }
  assert (Hfail : parse_failure strip loads (drop_zone self) "No kernels found in JSON")
    by (eapply unrecognized_shape; eassumption).
  split; [exact Hextract|]. split; [exact Hfail|].
  exists (set_status_label "No kernels found in JSON" self).
  split; [apply process_chunks_failure; exact Hfail|].
  repeat split.
Qed.

Lemma unrecognized_mapping_rejected_witness :
  extract_kernels (VDict record_solo) = inl "No kernels found in JSON"
  /\ process_chunks sample_strip sample_loads (set_drop_zone solo_text initial)
     = Returns tt (set_status_label "No kernels found in JSON"
                     (set_drop_zone solo_text initial)).
Proof.
  destruct (unrecognized_mapping_rejected sample_strip sample_loads
              (set_drop_zone solo_text initial) record_solo)
    as [Hshape [_ [self' [Hrun _]]]].
  - vm_compute. discriminate.
  - vm_compute. reflexivity.
  - reflexivity.
  - right. repeat split.
  - split; [exact Hshape | reflexivity].
Defined.

(** C7: a parse that fails (blank input, malformed text, an unrecognized
    shape, no record) returns with its message in the status label and
    leaves the chunk list, the cursor, the cards, the input text, the
    clipboard and the sequential-copy button as they were; malformed text
    is the case [malformed_text], reported as "Invalid JSON: ...". *)
Theorem parse_failure_keeps_chunks
        (strip : string -> string) (loads : string -> loads_result)
        (self : KernelChunker) (message : string) :
  parse_failure strip loads (drop_zone self) message ->
  exists self',
    process_chunks strip loads self = Returns tt self'
    /\ status_label self' = message
    /\ chunks self' = chunks self
    /\ current_chunk_index self' = current_chunk_index self
    /\ chunks_layout self' = chunks_layout self
    /\ drop_zone self' = drop_zone self
    /\ clipboard self' = clipboard self
    /\ copy_all_btn_enabled self' = copy_all_btn_enabled self
    /\ copy_all_btn_text self' = copy_all_btn_text self.
Proof.
  intros Hfail. exists (set_status_label message self).
  split; [apply process_chunks_failure; exact Hfail|].
  repeat split.
Qed.

Lemma parse_failure_keeps_chunks_witness :
  exists self',
    process_chunks sample_strip sample_loads deck_then_bad_text = Returns tt self'
    /\ status_label self'
       = "Invalid JSON: Expecting property name enclosed in double quotes: line 1 column 2 (char 1)"
    /\ chunks self' = VList [VDict [("id", VStr "a")]; VDict [("id", VStr "b")]]
    /\ current_chunk_index self' = 1%Z.
Proof.
  destruct (parse_failure_keeps_chunks sample_strip sample_loads deck_then_bad_text
              ("Invalid JSON: " ++ "Expecting property name enclosed in double quotes: line 1 column 2 (char 1)"))
    as [self' [Hrun [Hstatus [Hchunks [Hcursor _]]]]].
  - apply malformed_text.
    + vm_compute. discriminate.
    + vm_compute. reflexivity.
  - exists self'. rewrite Hchunks, Hcursor.
    split; [exact Hrun|]. split; [exact Hstatus|]. split; reflexivity.
Defined.

Lemma deck_copied_once_reachable : reachable sample_strip sample_loads deck_copied_once.
Proof.
  apply (perform_all_reachable sample_strip sample_loads deck_session initial).
  - apply reachable_initial.
  - vm_compute. reflexivity.
Qed.

(** C8: the cursor lies between 0 and the length of [chunks] in the initial
    state, every action that returns keeps it there (editing or loading
    text, parsing, clearing, advancing the sequential copy, copying one
    card), and so it holds in every state of a session. *)
Theorem cursor_within_bounds (strip : string -> string) (loads : string -> loads_result) :
  in_bounds initial
  /\ (forall (a : action) (self self' : KernelChunker),
        in_bounds self ->
        perform strip loads a self = Some (Returns tt self') ->
        in_bounds self')
  /\ (forall self : KernelChunker,
        reachable strip loads self ->
        exists items,
          chunks self = VList items
          /\ (0 <= current_chunk_index self <= Z.of_nat (length items))%Z).
Proof.
  split; [|split].
  - exists 0. split; [reflexivity | cbn; lia].
  - intros a self self'. apply perform_in_bounds.
  - intros self Hreach.
    destruct (reachable_consistent strip loads self Hreach) as [items [Hc [Hb _]]].
    exists items. split; assumption.
Qed.

Lemma cursor_within_bounds_witness :
  exists items,
    chunks deck_copied_once = VList items
    /\ (0 <= current_chunk_index deck_copied_once <= Z.of_nat (length items))%Z.
Proof.
  apply (proj2 (proj2 (cursor_within_bounds sample_strip sample_loads))).
  exact deck_copied_once_reachable.
Defined.

(** C6: in a state of a session, over the chunk list [items] of length
    [N], take a click on the sequential-copy button (the button is enabled
    and the click has an outcome).  With the cursor below [N], the click
    copies the chunk under the cursor to the clipboard and moves the cursor
    on by one; with the cursor at [N], it puts the cursor back to 0 and
    leaves the clipboard alone, and the click after it copies the first
    chunk. *)
Theorem sequential_copy
        (strip : string -> string) (loads : string -> loads_result)
        (self : KernelChunker) (items : list value) (outcome : result unit) :
  reachable strip loads self ->
  chunks self = VList items ->
  perform strip loads ClickCopyAll self = Some outcome ->
  ((current_chunk_index self < Z.of_nat (length items))%Z ->
   exists chunk self',
     nth_error items (Z.to_nat (current_chunk_index self)) = Some chunk
     /\ outcome = Returns tt self'
     /\ clipboard self' = Some (json_dumps chunk 2)
     /\ current_chunk_index self' = (current_chunk_index self + 1)%Z
     /\ chunks self' = VList items)
  /\ (current_chunk_index self = Z.of_nat (length items) ->
      exists self',
        outcome = Returns tt self'
        /\ current_chunk_index self' = 0%Z
        /\ clipboard self' = clipboard self
        /\ chunks self' = VList items
        /\ exists chunk0 self'',
             nth_error items 0 = Some chunk0
             /\ perform strip loads ClickCopyAll self' = Some (Returns tt self'')
             /\ clipboard self'' = Some (json_dumps chunk0 2)
             /\ current_chunk_index self'' = 1%Z
             /\ chunks self'' = VList items).
Proof.
  intros Hreach Hchunks Hclick.
  destruct (reachable_consistent strip loads self Hreach) as [items' [Hc [Hb [Hl He]]]].
  rewrite Hchunks in Hc. injection Hc as <-.
  cbn [perform] in Hclick.
  destruct (copy_all_btn_enabled self) eqn:Henabled; [|discriminate Hclick].
  injection Hclick as <-.
  specialize (He eq_refl).
  split.
  - intros Hlt.
    destruct (nth_error items (Z.to_nat (current_chunk_index self))) as [chunk|] eqn:Hnth.
    2: { apply nth_error_None in Hnth. lia. }
    destruct (copy_next_chunk_ready self items chunk Hchunks Hl) as
        [self' [Hrun [Hclip [Hi [Hc' _]]]]]; [lia | exact Hnth |].
    exists chunk, self'. rewrite Hc'.
    repeat split; assumption.
  - intros Hend.
    destruct (copy_next_chunk_exhausted self (length items)) as
        [self' [Hrun [Hi [Hc' [Hclip [Hl' [He' _]]]]]]];
      [rewrite Hchunks; reflexivity | lia |].
    exists self'.
    split; [exact Hrun|]. split; [exact Hi|]. split; [exact Hclip|].
    split; [rewrite Hc'; exact Hchunks|].
    destruct items as [|chunk0 rest]; [contradiction He; reflexivity|].
    destruct (copy_next_chunk_ready self' (chunk0 :: rest) chunk0) as
        [self'' [Hrun' [Hclip' [Hi' [Hc'' _]]]]].
    + rewrite Hc'. exact Hchunks.
    + rewrite Hl'. exact Hl.
    + rewrite Hi. cbn [length]. lia.
    + rewrite Hi. reflexivity.
    + exists chunk0, self''. cbn [perform].
      rewrite He', Henabled, Hrun', Hclip', Hi', Hi, Hc'', Hc'.
      repeat split. exact Hchunks.
Qed.

Lemma sequential_copy_witness :
  exists chunk self',
    nth_error [VDict [("id", VStr "a")]; VDict [("id", VStr "b")]] 1 = Some chunk
    /\ copy_next_chunk deck_copied_once = Returns tt self'
    /\ clipboard self' = Some (json_dumps chunk 2)
    /\ current_chunk_index self' = 2%Z.
Proof.
  destruct (proj1 (sequential_copy sample_strip sample_loads deck_copied_once
                     [VDict [("id", VStr "a")]; VDict [("id", VStr "b")]]
                     (copy_next_chunk deck_copied_once)
                     deck_copied_once_reachable eq_refl eq_refl))
    as [chunk [self' [Hnth [Hrun [Hclip [Hi _]]]]]].
  - vm_compute. reflexivity.
  - exists chunk, self'. repeat split; assumption.
Defined.
(** * Part III: further properties of the program *)

(** ** The sections and the record's fields *)

Lemma dict_lookup_keys {V : Type} (d : list (string * V)) (k : string) (v : V) :
  dict_lookup d k = Some v -> In k (map fst d).
Proof.
  induction d as [|[k0 w] rest IH]; cbn [dict_lookup map fst In]; [discriminate|].
  destruct (String.eqb k0 k) eqn:E.
  - apply String.eqb_eq in E. intros _. left. exact E.
  - intros H. right. apply IH. exact H.
Qed.

Lemma dict_lookup_absent {V : Type} (d : list (string * V)) (k : string) :
  ~ In k (map fst d) -> dict_lookup d k = None.
Proof.
  intros H. destruct (dict_lookup d k) as [v|] eqn:E; [|reflexivity].
  exfalso. apply H. eapply dict_lookup_keys. exact E.
Qed.

Lemma dict_setitem_keys {V : Type} (d : list (string * V)) (k : string) (v : V) :
  ~ In k (map fst d) -> map fst (dict_setitem d k v) = map fst d ++ [k].
Proof.
  induction d as [|[k0 w] rest IH]; cbn [dict_setitem map fst In app]; intros H.
  - reflexivity.
  - destruct (String.eqb k0 k) eqn:E.
    + apply String.eqb_eq in E. exfalso. apply H. left. exact E.
    + cbn [map fst]. rewrite IH; [reflexivity|]. intros Hin. apply H. right. exact Hin.
Qed.

Lemma dict_lookup_setitem_new {V : Type} (d : list (string * V)) (k : string) (v : V) :
  dict_lookup d k = None -> dict_setitem d k v = d ++ [(k, v)].
Proof.
  induction d as [|[k0 w] rest IH]; cbn [dict_lookup dict_setitem app]; intros H.
  - reflexivity.
  - destruct (String.eqb k0 k); [discriminate H|]. rewrite IH by exact H. reflexivity.
Qed.

(** Spreading a dict with distinct keys, none of them in the display,
    appends its entries. *)
Lemma dict_update_app {V : Type} (d other : list (string * V)) :
  List.NoDup (map fst other) ->
  (forall k, In k (map fst other) -> ~ In k (map fst d)) ->
  dict_update d other = d ++ other.
Proof.
  unfold dict_update. revert d.
  induction other as [|[k v] rest IH]; intros d Hnd Hdisj; cbn [fold_left].
  - symmetry. apply app_nil_r.
  - cbn [map fst] in Hnd. apply NoDup_cons_iff in Hnd as [Hk Hnd].
    rewrite dict_lookup_setitem_new.
    + rewrite IH.
      * rewrite <- app_assoc. reflexivity.
      * exact Hnd.
      * intros k' Hin Hin'. rewrite map_app, in_app_iff in Hin'.
        destruct Hin' as [Hin' | [<- | []]].
        -- apply (Hdisj k'); [right; exact Hin | exact Hin'].
        -- apply Hk. exact Hin.
    + apply dict_lookup_absent. apply Hdisj. left. reflexivity.
Qed.

(** The copy loop collects the fields that are present, in the order of
    its key list. *)
Lemma copy_present_app (kernel : dict) (keys : list string) (target : dict) :
  List.NoDup keys ->
  (forall k, In k keys -> ~ In k (map fst target)) ->
  copy_present kernel keys target
  = target ++ flat_map (fun k => match dict_lookup kernel k with
                                 | Some v => [(k, v)]
                                 | None => []
                                 end) keys.
Proof.
  unfold copy_present. revert target.
  induction keys as [|key rest IH]; intros target Hnd Hdisj; cbn [fold_left flat_map].
  - symmetry. apply app_nil_r.
  - apply NoDup_cons_iff in Hnd as [Hk Hnd].
    destruct (dict_lookup kernel key) as [v|].
    + rewrite IH.
      * rewrite dict_lookup_setitem_new.
        -- rewrite <- app_assoc. reflexivity.
        -- apply dict_lookup_absent. apply Hdisj. left. reflexivity.
      * exact Hnd.
      * intros k Hin Hin'. rewrite dict_setitem_keys in Hin'
          by (apply Hdisj; left; reflexivity).
        apply in_app_iff in Hin' as [Hin' | [<- | []]].
        -- apply (Hdisj k); [right; exact Hin | exact Hin'].
        -- apply Hk. exact Hin.
    + cbn [app]. apply IH; [exact Hnd|].
      intros k Hin. apply Hdisj. right. exact Hin.
Qed.

Lemma copy_present_keys (kernel : dict) (keys : list string) :
  List.NoDup keys ->
  map fst (copy_present kernel keys []) = List.filter (dict_contains kernel) keys.
Proof.
  intros Hnd. rewrite copy_present_app by (exact Hnd || (intros k _ [])).
  cbn [app]. clear Hnd.
  induction keys as [|key rest IH]; cbn [flat_map List.filter]; [reflexivity|].
  unfold dict_contains at 1.
  destruct (dict_lookup kernel key); cbn [app map fst]; rewrite IH; reflexivity.
Qed.

Lemma NoDup_filter_keys (p : string -> bool) (keys : list string) :
  List.NoDup keys -> List.NoDup (List.filter p keys).
Proof.
  intros H. rewrite <- (map_id (List.filter p keys)).
  apply NoDup_map_filter. rewrite map_id. exact H.
Qed.

Ltac nodup_strings :=
  repeat (apply NoDup_cons_iff; split;
          [cbn [In]; intros H; repeat (destruct H as [H|H]; [discriminate H|]); exact H|]);
  constructor.

Lemma rule_triggers_NoDup (r : rule) : In r rule_table -> List.NoDup (rule_triggers r).
Proof.
  intros Hr. cbn [rule_table In] in Hr.
  repeat (destruct Hr as [<- | Hr]); try contradiction;
    cbn [rule_triggers header_keys]; nodup_strings.
Qed.

(** A group section: the three entries of the display, then the group. *)
Lemma group_section_app (kernel : dict) (tag title : string) (keys : list string) :
  List.NoDup keys ->
  (forall k, In k keys -> ~ In k ["section"; "title"; "id"]) ->
  dict_update
    (dict_display
       [("section", VStr tag); ("title", VStr title);
        ("id", dict_get kernel "id" (VStr "unknown"))])
    (copy_present kernel keys [])
  = [("section", VStr tag); ("title", VStr title);
     ("id", dict_get kernel "id" (VStr "unknown"))]
      ++ copy_present kernel keys [].
Proof.
  intros Hnd Hdisj. apply dict_update_app.
  - rewrite copy_present_keys by exact Hnd. apply NoDup_filter_keys. exact Hnd.
  - intros k Hin. rewrite copy_present_keys in Hin by exact Hnd.
    apply filter_In in Hin as [Hin _]. apply Hdisj. exact Hin.
Qed.

Ltac not_in_strings :=
  let k := fresh "k" in
  let Hin := fresh "Hin" in
  let H := fresh "H" in
  intros k Hin H; cbn [In] in Hin, H;
  repeat (destruct Hin as [<- | Hin];
          [repeat (destruct H as [H|H]; [discriminate H|]); exact H|]);
  exact Hin.

(** The shape of the section a rule of the table makes. *)
Lemma run_rule_shape (kernel : dict) (r : rule) (s : dict) :
  In r rule_table ->
  In s (run_rule kernel r) ->
  s = [("section", VStr (rule_tag r)); ("title", rule_title kernel r);
       ("id", dict_get kernel "id" (VStr "unknown"))]
        ++ match r with
           | HeaderRule => [("data", VDict (copy_present kernel header_keys []))]
           | FieldRule tag _ =>
               match dict_lookup kernel tag with Some v => [(tag, v)] | None => [] end
           | GroupRule _ _ keys => copy_present kernel keys []
           end.
Proof.
  intros Hr Hs. cbn [rule_table In] in Hr.
  repeat (destruct Hr as [<- | Hr]); try contradiction;
    lazymatch type of Hs with
    | In _ (run_rule _ (GroupRule _ _ _)) =>
        open_rule Hs; cbn [rule_tag rule_title];
        apply group_section_app; [nodup_strings | not_in_strings]
    | In _ (run_rule _ (FieldRule _ _)) =>
        unfold run_rule in Hs; cbn [rule_tag rule_title];
        lazymatch type of Hs with
        | In _ (match ?o with Some _ => _ | None => _ end) =>
            destruct o; [|contradiction]
        end;
        destruct Hs as [<- | []]; reflexivity
    | _ => open_rule Hs; reflexivity
    end.
Qed.

(** X1: every extracted section is laid out the same way: the entries
    ['section'], ['title'] and ['id'], in this order, and then the payload
    of its rule: ['data'] for the header, the field under its own name for
    a field rule, and for a group rule the group's fields that the record
    has, in the order of the rule and not of the record.  The header's
    ['data'] holds the header fields the record has, in the rule's order. *)
Theorem section_layout (kernel s : dict) :
  In s (extract_sections kernel) ->
  exists r,
    In r rule_table
    /\ section_tag s = Some (VStr (rule_tag r))
    /\ map fst s = ["section"; "title"; "id"] ++ payload_keys kernel r
    /\ (r = HeaderRule ->
        exists header,
          dict_lookup s "data" = Some (VDict header)
          /\ map fst header = List.filter (dict_contains kernel) header_keys).
Proof.
  intros Hs. apply in_extract_sections in Hs as [r [Hr Hs]].
  exists r. split; [exact Hr|].
  split; [apply (run_rule_section kernel r s Hr Hs)|].
  pose proof (run_rule_shape kernel r s Hr Hs) as Hshape.
  pose proof (rule_triggers_NoDup r Hr) as Hnd.
  destruct r as [|tag title|tag title keys]; cbn [payload_keys rule_triggers] in *.
  - split.
    + rewrite Hshape. reflexivity.
    + intros _. exists (copy_present kernel header_keys []).
      split; [rewrite Hshape; reflexivity|].
      apply copy_present_keys. exact Hnd.
  - split; [|discriminate].
    unfold run_rule in Hs.
    destruct (dict_lookup kernel tag) as [v|]; [|contradiction].
    rewrite Hshape. reflexivity.
  - split; [|discriminate].
    rewrite Hshape, map_app, copy_present_keys by exact Hnd. reflexivity.
Qed.

Lemma section_layout_witness :
  exists r,
    In r rule_table
    /\ map fst [("section", VStr "heat_signature"); ("title", VStr "Heat Signature");
                ("id", VStr "k1");
                ("heat_signature", VDict [("trust", VFloat 0.5%float)])]
       = ["section"; "title"; "id"] ++ payload_keys record_k1 r.
Proof.
  destruct (section_layout record_k1
              [("section", VStr "heat_signature"); ("title", VStr "Heat Signature");
               ("id", VStr "k1");
               ("heat_signature", VDict [("trust", VFloat 0.5%float)])])
    as [r [Hr [_ [Hkeys _]]]].
  - vm_compute. right. left. reflexivity.
  - exists r. split; assumption.
Defined.

(** X2: no field a rule reads is lost: when the record has the field, the
    section of that rule is among the extracted sections and carries the
    field with the record's value, under ['data'] for a header field and
    in the section itself otherwise. *)
Theorem known_fields_kept (kernel : dict) (r : rule) (k : string) (v : value) :
  In r rule_table ->
  In k (rule_triggers r) ->
  dict_lookup kernel k = Some v ->
  exists s,
    In s (extract_sections kernel)
    /\ section_tag s = Some (VStr (rule_tag r))
    /\ match r with
       | HeaderRule =>
           exists header,
             dict_lookup s "data" = Some (VDict header)
             /\ dict_lookup header k = Some v
       | _ => dict_lookup s k = Some v
       end.
Proof.
  intros Hr Hk Hv.
  assert (Htrig : triggered kernel r = true).
  { unfold triggered. apply existsb_exists. exists k. split; [exact Hk|].
    unfold dict_contains. rewrite Hv. reflexivity. }
  destruct (run_rule_triggered kernel r) as [s Hrun]. rewrite Htrig in Hrun.
  assert (Hs : In s (run_rule kernel r)) by (rewrite Hrun; left; reflexivity).
  exists s. split; [apply in_extract_sections; exists r; split; assumption|].
  split; [apply (run_rule_section kernel r s Hr Hs)|].
  pose proof (run_rule_shape kernel r s Hr Hs) as Hshape.
  assert (Hcopy : forall keys, In k keys ->
                  dict_lookup (copy_present kernel keys []) k = Some v).
  { intros keys Hin. rewrite copy_present_lookup.
    assert (existsb (String.eqb k) keys = true) as ->.
    { apply existsb_exists. exists k. split; [exact Hin | apply String.eqb_refl]. }
    rewrite Hv. reflexivity. }
  assert (Hskip : forall (rest : dict),
             ~ In k ["section"; "title"; "id"] ->
             dict_lookup ([("section", VStr (rule_tag r)); ("title", rule_title kernel r);
                           ("id", dict_get kernel "id" (VStr "unknown"))] ++ rest) k
             = dict_lookup rest k).
  { intros rest Hni. cbn [app dict_lookup].
    destruct (String.eqb "section" k) eqn:E1;
      [apply String.eqb_eq in E1; exfalso; apply Hni; left; exact E1|].
    destruct (String.eqb "title" k) eqn:E2;
      [apply String.eqb_eq in E2; exfalso; apply Hni; right; left; exact E2|].
    destruct (String.eqb "id" k) eqn:E3;
      [apply String.eqb_eq in E3; exfalso; apply Hni; right; right; left; exact E3|].
    reflexivity. }
  destruct r as [|tag title|tag title keys]; cbn [rule_triggers] in Hk.
  - exists (copy_present kernel header_keys []).
    split; [rewrite Hshape; reflexivity | apply Hcopy; exact Hk].
  - destruct Hk as [<- | []]. rewrite Hv in Hshape. rewrite Hshape, Hskip.
    + cbn [dict_lookup]. rewrite String.eqb_refl. reflexivity.
    + clear -Hr. cbn [rule_table In] in Hr.
      repeat (destruct Hr as [Hr | Hr]; [try discriminate Hr; injection Hr as <- _|]);
        try contradiction;
        cbn [In]; intros H; repeat (destruct H as [H|H]; [discriminate H|]); exact H.
  - rewrite Hshape, Hskip; [apply Hcopy; exact Hk|].
    clear -Hr Hk. cbn [rule_table In] in Hr.
    repeat (destruct Hr as [Hr | Hr]; [try discriminate Hr; injection Hr as _ _ <-|]);
      try contradiction;
      cbn [In] in Hk |- *; intros H;
      repeat (destruct Hk as [<- | Hk];
              [repeat (destruct H as [H|H]; [discriminate H|]); exact H|]);
      exact Hk.
Qed.

Lemma known_fields_kept_witness :
  exists s,
    In s (extract_sections record_k1)
    /\ section_tag s = Some (VStr "heat_signature")
    /\ dict_lookup s "heat_signature" = Some (VDict [("trust", VFloat 0.5%float)]).
Proof.
  apply (known_fields_kept record_k1 (FieldRule "heat_signature" "Heat Signature")
           "heat_signature" (VDict [("trust", VFloat 0.5%float)])).
  - right. right. left. reflexivity.
  - left. reflexivity.
  - reflexivity.
Defined.

Lemma known_keys_triggers (r : rule) (k : string) :
  In r rule_table -> In k (rule_triggers r) -> In k known_keys.
Proof.
  intros Hr Hk. unfold known_keys. apply in_flat_map. exists r. split; assumption.
Qed.

(** X3: when segmentation applies, a field that no rule reads is lost: no
    returned section holds it, and the header's ['data'] does not hold it
    either.  (['section'] and ['data'] are no fields of a rule; a section
    has entries of its own under these two names.) *)
Theorem unknown_fields_dropped (kernel s : dict) (k : string) :
  ~ In k known_keys ->
  ~ In k ["section"; "data"] ->
  1 < length (extract_sections kernel) ->
  In s (chunk_single_kernel kernel) ->
  dict_lookup s k = None
  /\ forall data, dict_lookup s "data" = Some (VDict data) -> dict_lookup data k = None.
Proof.
  intros Hunknown Hown Happ Hs.
  rewrite chunk_single_kernel_applies in Hs by exact Happ.
  apply in_extract_sections in Hs as [r [Hr Hs]].
  pose proof (run_rule_shape kernel r s Hr Hs) as Hshape.
  pose proof (rule_triggers_NoDup r Hr) as Hnd.
  assert (Hid : In "id" known_keys) by (vm_compute; tauto).
  assert (Htitle : In "title" known_keys) by (vm_compute; tauto).
  assert (Hgroup : forall keys, (forall k', In k' keys -> In k' known_keys) ->
                   List.NoDup keys ->
                   dict_lookup (copy_present kernel keys []) k = None).
  { intros keys Hsub Hnd'. apply dict_lookup_absent.
    rewrite copy_present_keys by exact Hnd'.
    intros Hin. apply filter_In in Hin as [Hin _]. apply Hunknown, Hsub, Hin. }
  assert (Hhead : forall rest : dict,
             dict_lookup ([("section", VStr (rule_tag r)); ("title", rule_title kernel r);
                           ("id", dict_get kernel "id" (VStr "unknown"))] ++ rest) k
             = dict_lookup rest k).
  { intros rest. cbn [app dict_lookup].
    destruct (String.eqb "section" k) eqn:E1;
      [apply String.eqb_eq in E1; exfalso; apply Hown; left; exact E1|].
    destruct (String.eqb "title" k) eqn:E2;
      [apply String.eqb_eq in E2; subst k; contradiction|].
    destruct (String.eqb "id" k) eqn:E3;
      [apply String.eqb_eq in E3; subst k; contradiction|].
    reflexivity. }
  assert (Hdata : forall rest : dict,
             dict_lookup ([("section", VStr (rule_tag r)); ("title", rule_title kernel r);
                           ("id", dict_get kernel "id" (VStr "unknown"))] ++ rest) "data"
             = dict_lookup rest "data") by reflexivity.
  destruct r as [|tag title|tag title keys]; cbn [rule_triggers] in Hnd.
  - split.
    + rewrite Hshape, Hhead. cbn [dict_lookup].
      destruct (String.eqb "data" k) eqn:E; [|reflexivity].
      apply String.eqb_eq in E. exfalso. apply Hown. right. left. exact E.
    + intros data Hd. rewrite Hshape, Hdata in Hd.
      assert (Hheader : dict_lookup (copy_present kernel header_keys []) k = None).
      { apply Hgroup; [|exact Hnd].
        intros k' Hin. apply (known_keys_triggers HeaderRule); [exact Hr | exact Hin]. }
      remember (copy_present kernel header_keys []) as header.
      cbn [dict_lookup] in Hd. rewrite String.eqb_refl in Hd.
      injection Hd as <-. exact Hheader.
  - assert (Htag : In tag known_keys)
      by (apply (known_keys_triggers (FieldRule tag title)); [exact Hr | left; reflexivity]).
    assert (Hnodata : tag <> "data").
    { clear -Hr. cbn [rule_table In] in Hr.
      repeat (destruct Hr as [Hr | Hr]; [try discriminate Hr; injection Hr as <- _|]);
        try contradiction; discriminate. }
    destruct (dict_lookup kernel tag) as [v|].
    + split.
      * rewrite Hshape, Hhead. cbn [dict_lookup].
        destruct (String.eqb tag k) eqn:E; [|reflexivity].
        apply String.eqb_eq in E. subst k. contradiction.
      * intros data Hd. rewrite Hshape, Hdata in Hd. cbn [dict_lookup] in Hd.
        apply String.eqb_neq in Hnodata. rewrite Hnodata in Hd. discriminate Hd.
    + rewrite Hshape, app_nil_r. split.
      * rewrite <- (app_nil_r [_; _; _]), Hhead. reflexivity.
      * intros data Hd. discriminate Hd.
  - assert (Hsub : forall k', In k' keys -> In k' known_keys).
    { intros k' Hin.
      apply (known_keys_triggers (GroupRule tag title keys)); [exact Hr | exact Hin]. }
    split.
    + rewrite Hshape, Hhead. apply Hgroup; assumption.
    + intros data Hd. rewrite Hshape, Hdata in Hd.
      assert (Hnone : dict_lookup (copy_present kernel keys []) "data" = None).
      { apply dict_lookup_absent. rewrite copy_present_keys by exact Hnd.
        intros Hin. apply filter_In in Hin as [Hin _].
        apply Hsub in Hin. vm_compute in Hin.
        repeat (destruct Hin as [Hin | Hin]; [discriminate Hin|]). exact Hin. }
      rewrite Hnone in Hd. discriminate Hd.
Qed.

Lemma unknown_fields_dropped_witness :
  dict_lookup record_noted "notes" = Some (VStr "keep me")
  /\ forall s, In s (chunk_single_kernel record_noted) -> dict_lookup s "notes" = None.
Proof.
  split; [reflexivity|].
  intros s Hs.
  destruct (unknown_fields_dropped record_noted s "notes") as [Hnone _].
  - vm_compute. intros H.
    repeat (destruct H as [H|H]; [discriminate H|]). exact H.
  - cbn [In]. intros H.
    repeat (destruct H as [H|H]; [discriminate H|]). exact H.
  - vm_compute. lia.
  - exact Hs.
  - exact Hnone.
Defined.

(** ** The labels of a card *)

(** [init_ui] raises where one of its labels cannot be made, and the same
    exception. *)
Lemma init_ui_info_layout (chunk_num : nat) (kernel_data : value) :
  init_ui chunk_num kernel_data
  = match info_layout chunk_num kernel_data with inl e => Some e | inr _ => None end.
Proof.
  destruct kernel_data as [ | b | z | f | s | items | d]; try reflexivity.
  unfold init_ui, info_layout.
  assert (Htitle : shorten (dict_get d "title"
                              (VStr ("Kernel " ++ str_of_nat chunk_num)%string)) 50
                   = match title_label chunk_num d with inl e => Some e | inr _ => None end).
  { unfold shorten, title_label.
    destruct (py_len _) as [n|]; [|reflexivity].
    destruct (50 <? n); [|reflexivity].
    destruct (dict_get d "title" _); reflexivity. }
  assert (Hmeta : (if truthy (dict_get d "section" VNone)
                   then hash_key (dict_get d "section" VNone)
                   else shorten (dict_get d "id" (VStr "unknown")) 40)
                  = match meta_label d with inl e => Some e | inr _ => None end).
  { unfold meta_label, shorten, hash_key.
    destruct (truthy (dict_get d "section" VNone)).
    - destruct (dict_get d "section" VNone); reflexivity.
    - destruct (py_len _) as [n|]; [|reflexivity].
      destruct (40 <? n); [|reflexivity].
      destruct (dict_get d "id" _); reflexivity. }
  assert (Hheat : (let heat := dict_get d "heat_signature" (VDict []) in
                   if truthy heat then
                     match heat with
                     | VDict h =>
                         format_1f (dict_get h "tenderness" (VInt 0))
                         >> format_1f (dict_get h "trust" (VInt 0))
                         >> format_1f (dict_get h "erotic_charge" (VInt 0))
                     | _ => Some AttributeError
                     end
                   else None)
                  = match heat_label d with inl e => Some e | inr _ => None end).
  { unfold heat_label. cbv zeta.
    destruct (truthy (dict_get d "heat_signature" (VDict []))); [|reflexivity].
    destruct (dict_get d "heat_signature" (VDict [])); try reflexivity.
    destruct (_ >> _ >> _); reflexivity. }
  cbv zeta in Hheat |- *. rewrite Htitle, Hmeta, Hheat.
  destruct (title_label chunk_num d); [reflexivity|].
  destruct (meta_label d); [reflexivity|].
  destruct (heat_label d); reflexivity.
Qed.

Lemma dict_get_lookup {V : Type} (d : list (string * V)) (k : string) (v default : V) :
  dict_lookup d k = Some v -> dict_get d k default = v.
Proof. intros H. unfold dict_get. rewrite H. reflexivity. Qed.

(** The entry of a section under ['heat_signature']: the record's, in the
    heat-signature section, and none elsewhere. *)
Lemma section_heat_signature (kernel : dict) (r : rule) (s : dict) :
  In r rule_table ->
  In s (run_rule kernel r) ->
  dict_lookup s "heat_signature"
  = if String.eqb (rule_tag r) "heat_signature"
    then dict_lookup kernel "heat_signature"
    else None.
Proof.
  intros Hr Hs.
  pose proof (run_rule_shape kernel r s Hr Hs) as Hshape.
  pose proof (rule_triggers_NoDup r Hr) as Hnd.
  assert (Hhead : forall rest : dict,
             dict_lookup ([("section", VStr (rule_tag r)); ("title", rule_title kernel r);
                           ("id", dict_get kernel "id" (VStr "unknown"))] ++ rest)
                         "heat_signature"
             = dict_lookup rest "heat_signature") by reflexivity.
  rewrite Hshape, Hhead. clear Hshape Hhead Hs.
  cbn [rule_table In] in Hr.
  repeat (destruct Hr as [<- | Hr]); try contradiction;
    cbn [rule_tag rule_triggers] in *;
    lazymatch goal with
    | |- dict_lookup (copy_present _ _ _) _ = _ =>
        rewrite copy_present_lookup; reflexivity
    | |- dict_lookup (match ?o with Some _ => _ | None => _ end) _ = _ =>
        destruct o eqn:E; cbn [dict_lookup]; try reflexivity
    | _ => reflexivity
    end.
Qed.

(** What [init_ui] does with a section: the title is the rule's, the
    section name is known, and there is a heat preview to format on the
    heat-signature section only. *)
Lemma section_init_ui (kernel : dict) (r : rule) (s : dict) (chunk_num : nat) :
  In r rule_table ->
  In s (run_rule kernel r) ->
  init_ui chunk_num (VDict s)
  = shorten (rule_title kernel r) 50
    >> (if String.eqb (rule_tag r) "heat_signature"
        then match heat_label kernel with inl e => Some e | inr _ => None end
        else None).
Proof.
  intros Hr Hs.
  destruct (run_rule_section kernel r s Hr Hs) as [Htag [Htitle _]].
  pose proof (section_heat_signature kernel r s Hr Hs) as Hheat.
  unfold section_tag in Htag.
  assert (Hname : hash_key (VStr (rule_tag r)) = None) by reflexivity.
  assert (Htruthy : truthy (VStr (rule_tag r)) = true).
  { clear -Hr. cbn [rule_table In] in Hr.
    repeat (destruct Hr as [<- | Hr]); try contradiction; reflexivity. }
  unfold init_ui.
  rewrite (dict_get_lookup s "title" _ _ Htitle), (dict_get_lookup s "section" _ _ Htag).
  rewrite Htruthy, Hname.
  assert (Hh : (let heat := dict_get s "heat_signature" (VDict []) in
                if truthy heat then
                  match heat with
                  | VDict h =>
                      format_1f (dict_get h "tenderness" (VInt 0))
                      >> format_1f (dict_get h "trust" (VInt 0))
                      >> format_1f (dict_get h "erotic_charge" (VInt 0))
                  | _ => Some AttributeError
                  end
                else None)
               = if String.eqb (rule_tag r) "heat_signature"
                 then match heat_label kernel with inl e => Some e | inr _ => None end
                 else None).
  { cbv zeta. unfold dict_get at 1 2. rewrite Hheat.
    destruct (String.eqb (rule_tag r) "heat_signature").
    - unfold heat_label. cbv zeta.
      assert (dict_get kernel "heat_signature" (VDict [])
              = match dict_lookup kernel "heat_signature" with
                | Some v => v
                | None => VDict []
                end) as -> by reflexivity.
      destruct (dict_lookup kernel "heat_signature") as [v|]; [|reflexivity].
      destruct (truthy v); [|reflexivity].
      destruct v; try reflexivity.
      match goal with
      | |- context [?a >> ?b >> ?c] => destruct (a >> b >> c)
      end; reflexivity.
    - reflexivity. }
  cbv zeta in Hh |- *. rewrite Hh.
  destruct (shorten (rule_title kernel r) 50); reflexivity.
Qed.

(** X4: every section the segmenter makes is shown with a name of
    [section_names]: the card's metadata line is the ["Section: ..."] line
    with the display name of the section's tag, never the raw tag and never
    the ["ID: ..."] line. *)
Theorem sections_have_display_names (kernel s : dict) :
  In s (extract_sections kernel) ->
  exists tag name,
    section_tag s = Some (VStr tag)
    /\ dict_lookup section_names tag = Some name
    /\ meta_label s = inr (SectionLabel (VStr name)).
Proof.
  intros Hs. apply in_extract_sections in Hs as [r [Hr Hs]].
  destruct (run_rule_section kernel r s Hr Hs) as [Htag _].
  exists (rule_tag r).
  assert (Hname : exists name, dict_lookup section_names (rule_tag r) = Some name
                               /\ truthy (VStr (rule_tag r)) = true).
  { clear -Hr. cbn [rule_table In] in Hr.
    repeat (destruct Hr as [<- | Hr]); try contradiction;
      eexists; split; reflexivity. }
  destruct Hname as [name [Hname Htruthy]].
  exists name. split; [exact Htag|]. split; [exact Hname|].
  unfold meta_label. unfold section_tag in Htag.
  rewrite (dict_get_lookup s "section" _ _ Htag), Htruthy.
  unfold dict_get. rewrite Hname. reflexivity.
Qed.

Lemma sections_have_display_names_witness :
  exists tag name,
    section_tag [("section", VStr "cubic_attractor");
                 ("title", VStr "Cubic Attractor (Identity)");
                 ("id", VStr "unknown"); ("cubic_attractor", VInt 3)]
    = Some (VStr tag)
    /\ dict_lookup section_names tag = Some name
    /\ meta_label [("section", VStr "cubic_attractor");
                   ("title", VStr "Cubic Attractor (Identity)");
                   ("id", VStr "unknown"); ("cubic_attractor", VInt 3)]
       = inr (SectionLabel (VStr name)).
Proof.
  apply (sections_have_display_names [("cubic_attractor", VInt 3)]).
  vm_compute. left. reflexivity.
Defined.

(** X5: a section other than the header and the heat-signature section
    always makes a card: [init_ui] raises nothing on it, whatever the
    record holds. *)
Theorem plain_sections_render (kernel s : dict) (tag : string) :
  In s (extract_sections kernel) ->
  section_tag s = Some (VStr tag) ->
  tag <> "header" ->
  tag <> "heat_signature" ->
  renders (VDict s).
Proof.
  intros Hs Htag Hhead Hheat chunk_num.
  apply in_extract_sections in Hs as [r [Hr Hs]].
  destruct (run_rule_section kernel r s Hr Hs) as [Htag' _].
  rewrite Htag in Htag'. injection Htag' as ->.
  rewrite (section_init_ui kernel r s chunk_num Hr Hs).
  apply String.eqb_neq in Hheat. rewrite Hheat.
  clear -Hr Hhead. cbn [rule_table In] in Hr.
  repeat (destruct Hr as [<- | Hr]); try contradiction; reflexivity.
Qed.

Lemma plain_sections_render_witness :
  renders (VDict [("section", VStr "cubic_attractor");
                  ("title", VStr "Cubic Attractor (Identity)");
                  ("id", VStr "unknown"); ("cubic_attractor", VInt 3)]).
Proof.
  apply (plain_sections_render [("cubic_attractor", VInt 3)] _ "cubic_attractor").
  - vm_compute. left. reflexivity.
  - reflexivity.
  - discriminate.
  - discriminate.
Defined.







(** ** Parsing *)

Section ParseFacts.

Variable strip : string -> string.
Variable loads : string -> loads_result.

(** When the card loop returns, its cards are the fresh cards. *)
Lemma add_cards_returns_fresh (items : list value) (i : nat) (self self' : KernelChunker) :
  add_cards i items self = Returns tt self' ->
  self' = set_chunks_layout (chunks_layout self ++ fresh_cards i items) self.
Proof.
  revert i self. induction items as [|item rest IH]; intros i self H;
    cbn [add_cards fresh_cards] in *.
  - injection H as <-. rewrite app_nil_r. destruct self; reflexivity.
  - unfold bind at 1 in H. unfold or_raise, new_ChunkCard in H.
    destruct (init_ui i item) as [e|]; [discriminate H|].
    cbn beta iota in H. unfold ret at 1 in H. cbn beta iota in H.
    unfold bind at 1, this in H. cbn beta iota in H.
    unfold bind at 1, assign at 1 in H. cbn beta iota in H.
    apply IH in H. rewrite H. cbn. rewrite <- app_assoc. reflexivity.
Qed.

Lemma add_cards_fresh (items : list value) (i : nat) (self : KernelChunker) :
  Forall renders items ->
  add_cards i items self
  = Returns tt (set_chunks_layout (chunks_layout self ++ fresh_cards i items) self).
Proof.
  intros Hok. destruct (add_cards_renders items i self Hok) as [cards [Hrun _]].
  rewrite Hrun. f_equal. eapply add_cards_returns_fresh. exact Hrun.
Qed.

(** The card loop stops at the first item that makes no card; the cards of
    the items before it are in the layout. *)
Lemma add_cards_stops (pre post : list value) (bad : value) (e : exn) (i : nat)
      (self : KernelChunker) :
  Forall renders pre ->
  init_ui (i + length pre) bad = Some e ->
  add_cards i (pre ++ bad :: post) self
  = Raises e (set_chunks_layout (chunks_layout self ++ fresh_cards i pre) self).
Proof.
  intros Hok. revert i self.
  induction Hok as [|item rest Hitem _ IH]; intros i self Hbad;
    cbn [app add_cards fresh_cards length] in *.
  - rewrite Nat.add_0_r in Hbad. unfold new_ChunkCard. rewrite Hbad. run_slot.
    rewrite app_nil_r. destruct self; reflexivity.
  - unfold new_ChunkCard. rewrite Hitem. run_slot.
    rewrite IH by (rewrite <- Hbad; f_equal; lia).
    cbn. rewrite <- app_assoc. reflexivity.
Qed.

(** [process_chunks] on a non-empty list of items: the outcome of the card
    loop decides. *)
Lemma process_chunks_run (self : KernelChunker) (data : value) (items : list value)
      (is_sectioned : bool) :
  strip (drop_zone self) <> "" ->
  loads (strip (drop_zone self)) = Decoded data ->
  extract_kernels data = inr (VList items, is_sectioned) ->
  items <> [] ->
  process_chunks strip loads self
  = match add_cards 1 items
            (set_current_chunk_index 0
               (set_chunks (VList items) (set_chunks_layout [] self))) with
    | Returns _ _ => Returns tt (loaded is_sectioned items self)
    | Raises e self' => Raises e self'
    end.
Proof.
  intros Hne Hload Hshape Hitems. unfold process_chunks. run_slot.
  apply String.eqb_neq in Hne. rewrite Hne, Hload, Hshape.
  assert (truthy (VList items) = true) as ->
      by (destruct items; [contradiction | reflexivity]).
  cbn [negb py_iter py_len]. unfold clear_chunks. run_slot.
  destruct (add_cards 1 items _) as [[] mid | e mid] eqn:Hcards; [|reflexivity].
  apply add_cards_returns_fresh in Hcards. subst mid.
  assert (Hn : (Z.of_nat (length items) - 0 <=? 0)%Z = false).
  { apply Z.leb_gt. destruct items; [contradiction | cbn [length]; lia]. }
  assert (Htruthy : truthy (VList items) = true)
    by (destruct items; [contradiction | reflexivity]).
  destruct is_sectioned; cbv beta iota;
    unfold update_copy_all_button; run_slot;
    cbn [chunks current_chunk_index set_chunks set_current_chunk_index set_chunks_layout
         set_status_label set_copy_all_btn_enabled py_len];
    rewrite Htruthy; cbv beta iota; rewrite Hn; reflexivity.
Qed.

End ParseFacts.

Lemma filter_two {A : Type} (p : A -> bool) (l1 l2 l3 : list A) (x y : A) :
  p x = true -> p y = true ->
  2 <= length (List.filter p (l1 ++ x :: l2 ++ y :: l3)).
Proof.
  intros Hx Hy.
  rewrite List.filter_app. cbn [List.filter]. rewrite Hx.
  rewrite List.filter_app. cbn [List.filter]. rewrite Hy.
  rewrite !length_app. cbn [length]. rewrite !length_app. cbn [length]. lia.
Qed.

Lemma extract_sections_count (kernel : dict) :
  length (extract_sections kernel) = length (List.filter (triggered kernel) rule_table).
Proof.
  rewrite <- (length_map section_tag), extract_sections_tags, length_map. reflexivity.
Qed.

(** A record that [process_chunks] takes for a single kernel has two
    sections or more: the header, for its ['id'], and one of the three
    fields looked for. *)
Lemma single_record_sections (d : dict) :
  dict_contains d "id" = true ->
  dict_contains d "emotional_arc" || dict_contains d "heat_signature"
    || dict_contains d "cubic_attractor" = true ->
  2 <= length (extract_sections d) <= 10.
Proof.
  intros Hid Hfield. split; [|apply extract_sections_length].
  rewrite extract_sections_count.
  assert (Hheader : triggered d HeaderRule = true).
  { unfold triggered. cbn [rule_triggers header_keys existsb]. rewrite Hid. reflexivity. }
  assert (Hone : forall tag title, dict_contains d tag = true ->
                                   triggered d (FieldRule tag title) = true).
  { intros tag title H. unfold triggered. cbn [rule_triggers existsb]. rewrite H.
    reflexivity. }
  destruct (dict_contains d "emotional_arc") eqn:Harc;
    [|destruct (dict_contains d "heat_signature") eqn:Hheat;
      [|destruct (dict_contains d "cubic_attractor") eqn:Hcubic; [|discriminate Hfield]]].
  - apply (filter_two _ [] [] _ HeaderRule (FieldRule "emotional_arc" "Emotional Arc"));
      [exact Hheader | apply Hone; exact Harc].
  - apply (filter_two _ [] [_] _ HeaderRule (FieldRule "heat_signature" "Heat Signature"));
      [exact Hheader | apply Hone; exact Hheat].
  - apply (filter_two _ [] [_; _; _; _; _; _; _] _ HeaderRule
             (FieldRule "cubic_attractor" "Cubic Attractor (Identity)"));
      [exact Hheader | apply Hone; exact Hcubic].
Qed.

Lemma extract_kernels_single_record (d : dict) :
  dict_lookup d "kernels" = None ->
  dict_contains d "id" = true ->
  dict_contains d "emotional_arc" || dict_contains d "heat_signature"
    || dict_contains d "cubic_attractor" = true ->
  extract_kernels (VDict d) = inr (VList (map VDict (extract_sections d)), true).
Proof.
  intros Hkernels Hid Hfield.
  destruct (single_record_sections d Hid Hfield) as [Hlo _].
  unfold extract_kernels. rewrite Hkernels, Hid, Hfield. cbn [andb].
  rewrite chunk_single_kernel_applies by lia.
  assert ((1 <? length (extract_sections d)) = true) as ->
      by (apply Nat.ltb_lt; lia).
  reflexivity.
Qed.

(** X8: a mapping that [process_chunks] hands to the segmenter is always
    split: it has ['id'] and one of ['emotional_arc'], ['heat_signature'],
    ['cubic_attractor'], so the header rule and a field rule apply, the
    result has from two to ten sections, and [is_sectioned] is [True].
    The fallback of [chunk_single_kernel], the record alone in a list, is
    never the result of this call. *)
Theorem single_record_always_split (d : dict) :
  dict_lookup d "kernels" = None ->
  dict_contains d "id" = true ->
  dict_contains d "emotional_arc" || dict_contains d "heat_signature"
    || dict_contains d "cubic_attractor" = true ->
  extract_kernels (VDict d) = inr (VList (map VDict (extract_sections d)), true)
  /\ chunk_single_kernel d = extract_sections d
  /\ 2 <= length (extract_sections d) <= 10.
Proof.
  intros Hkernels Hid Hfield.
  pose proof (single_record_sections d Hid Hfield) as Hlen.
  split; [apply extract_kernels_single_record; assumption|].
  split; [apply chunk_single_kernel_applies; lia | exact Hlen].
Qed.

Lemma single_record_always_split_witness :
  extract_kernels (VDict record_k1)
  = inr (VList (map VDict (extract_sections record_k1)), true)
  /\ chunk_single_kernel record_k1 = extract_sections record_k1
  /\ 2 <= length (extract_sections record_k1) <= 10.
Proof.
  apply (single_record_always_split record_k1); reflexivity.
Defined.

(** X9: a deck is parsed as the bare list under its ['kernels'] key: the
    two texts leave the widget in the same state, or raise the same way.
    The other entries of the deck are not read, and a deck with an ['id']
    and a ['heat_signature'] of its own is not segmented. *)
Theorem deck_wrapper_transparent
        (strip : string -> string) (loads loads' : string -> loads_result)
        (self : KernelChunker) (d : dict) (items : list value) :
  loads (strip (drop_zone self)) = Decoded (VDict d) ->
  dict_lookup d "kernels" = Some (VList items) ->
  loads' (strip (drop_zone self)) = Decoded (VList items) ->
  process_chunks strip loads self = process_chunks strip loads' self.
Proof.
  intros Hload Hkernels Hload'. unfold process_chunks. run_slot.
  destruct (String.eqb (strip (drop_zone self)) ""); [reflexivity|].
  rewrite Hload, Hload'. cbn [extract_kernels]. rewrite Hkernels. reflexivity.
Qed.

Lemma deck_wrapper_transparent_witness :
  process_chunks sample_strip sample_loads (set_drop_zone deck_text initial)
  = process_chunks sample_strip
      (fun _ => Decoded (VList [VDict [("id", VStr "a")]; VDict [("id", VStr "b")]]))
      (set_drop_zone deck_text initial).
Proof.
  apply (deck_wrapper_transparent sample_strip sample_loads _ _
           [("kernels", VList [VDict [("id", VStr "a")]; VDict [("id", VStr "b")]])]
           [VDict [("id", VStr "a")]; VDict [("id", VStr "b")]]);
    reflexivity.
Defined.

Lemma shorten_str (s : string) (limit : nat) : shorten (VStr s) limit = None.
Proof. unfold shorten. cbn [py_len]. destruct (limit <? String.length s); reflexivity. Qed.

(** A record without a title makes a card when the rest of it does: the
    default title is a [str]. *)
Lemma untitled_renders (d : dict) :
  init_ui 0 (VDict (("title", VStr "") :: d)) = None ->
  dict_lookup d "title" = None ->
  renders (VDict d).
Proof.
  intros H Hnone n. unfold init_ui in *. unfold dict_get at 1.
  rewrite Hnone, shorten_str.
  cbn [dict_get dict_lookup String.eqb Ascii.eqb Bool.eqb] in H.
  rewrite shorten_str in H. exact H.
Qed.

Lemma fresh_cards_lookup (items : list value) (i k : nat) (card : ChunkCard) :
  fresh_cards i items !! k = Some card ->
  chunk_num card = i + k
  /\ nth_error items k = Some (kernel_data card)
  /\ is_copied card = false.
Proof.
  revert i k. induction items as [|item rest IH]; intros i k H; cbn [fresh_cards] in H.
  - discriminate H.
  - destruct k as [|k].
    + injection H as <-. cbn. repeat split. lia.
    + apply IH in H as [Hn [Hd Hc]]. cbn [nth_error]. repeat split; try assumption. lia.
Qed.

Lemma fresh_cards_length (items : list value) (i : nat) :
  length (fresh_cards i items) = length items.
Proof.
  revert i. induction items as [|item rest IH]; intros i; cbn; [reflexivity|].
  rewrite IH. reflexivity.
Qed.

Lemma map_kernel_data_fresh (items : list value) (i : nat) :
  map kernel_data (fresh_cards i items) = items.
Proof.
  revert i. induction items as [|item rest IH]; intros i; cbn; [reflexivity|].
  rewrite IH. reflexivity.
Qed.

(** X10: a list of records, bare or under the ['kernels'] key of a deck,
    whose items all make a card, is accepted whole: the list becomes the
    chunk sequence and the cursor is 0; the layout holds one card per
    record and nothing of an earlier parse, the card at position [k] has
    the number [k + 1], holds the record at [k] and is not marked as
    copied; the status line counts the records, "Found N kernels ...", and
    the sequential-copy button is enabled and reads "COPY NEXT (1/N)"; the
    input text and the clipboard are as before. *)
Theorem found_kernels
        (strip : string -> string) (loads : string -> loads_result)
        (self : KernelChunker) (data : value) (items : list value) :
  strip (drop_zone self) <> "" ->
  loads (strip (drop_zone self)) = Decoded data ->
  data = VList items
  \/ (exists d, data = VDict d /\ dict_lookup d "kernels" = Some (VList items)) ->
  items <> [] ->
  Forall renders items ->
  exists self',
    process_chunks strip loads self = Returns tt self'
    /\ chunks self' = VList items
    /\ current_chunk_index self' = 0%Z
    /\ length (chunks_layout self') = length items
    /\ (forall k card,
           chunks_layout self' !! k = Some card ->
           chunk_num card = S k
           /\ nth_error items k = Some (kernel_data card)
           /\ is_copied card = false)
    /\ status_label self'
       = ("Found " ++ str_of_nat (length items)
            ++ " kernels - click COPY on each or use sequential copy")%string
    /\ copy_all_btn_enabled self' = true
    /\ copy_all_btn_text self'
       = ("COPY NEXT (1/" ++ str_of_nat (length items) ++ ")")%string
    /\ drop_zone self' = drop_zone self
    /\ clipboard self' = clipboard self.
Proof.
  intros Hne Hload Hdata Hitems Hok.
  assert (Hshape : extract_kernels data = inr (VList items, false)).
  { destruct Hdata as [-> | [d [-> Hk]]]; [reflexivity|].
    cbn [extract_kernels]. rewrite Hk. reflexivity. }
  exists (loaded false items self).
  split.
  - rewrite (process_chunks_run strip loads self data items false Hne Hload Hshape Hitems).
    rewrite add_cards_fresh by exact Hok. reflexivity.
  - cbn [loaded chunks current_chunk_index chunks_layout status_label
         copy_all_btn_enabled copy_all_btn_text drop_zone clipboard].
    repeat split.
    + apply fresh_cards_length.
    + apply fresh_cards_lookup in H as [H _]. exact H.
    + apply fresh_cards_lookup in H as [_ [H _]]. exact H.
    + apply fresh_cards_lookup in H as [_ [_ H]]. exact H.
Qed.

Lemma found_kernels_witness :
  exists self',
    process_chunks sample_strip sample_loads (set_drop_zone deck_text initial)
    = Returns tt self'
    /\ status_label self'
       = "Found 2 kernels - click COPY on each or use sequential copy"
    /\ copy_all_btn_text self' = "COPY NEXT (1/2)"
    /\ map chunk_num (chunks_layout self') = [1; 2].
Proof.
  destruct (found_kernels sample_strip sample_loads (set_drop_zone deck_text initial)
              deck [VDict [("id", VStr "a")]; VDict [("id", VStr "b")]])
    as [self' [Hrun [_ [_ [Hlen [Hcards [Hstatus [_ [Htext _]]]]]]]]].
  - vm_compute. discriminate.
  - reflexivity.
  - right. eexists. split; reflexivity.
  - discriminate.
  - apply List.Forall_cons; [apply untitled_renders; reflexivity|].
    apply List.Forall_cons; [apply untitled_renders; reflexivity | apply List.Forall_nil].
  - exists self'. split; [exact Hrun|]. split; [exact Hstatus|]. split; [exact Htext|].
    destruct (chunks_layout self') as [|c1 [|c2 [|c3 rest]]]; try discriminate Hlen.
    destruct (Hcards 0 c1 eq_refl) as [H1 _]. destruct (Hcards 1 c2 eq_refl) as [H2 _].
    cbn [map]. rewrite H1, H2. reflexivity.
Defined.

(** The sections of a record all make a card when the record's title, if
    it has one, is a [str], and its heat preview can be made. *)
Lemma sections_render (d : dict) :
  (forall title, dict_lookup d "title" = Some title -> exists s, title = VStr s) ->
  (exists preview, heat_label d = inr preview) ->
  Forall renders (map VDict (extract_sections d)).
Proof.
  intros Htitle [preview Hheat].
  apply List.Forall_forall. intros item Hitem.
  apply in_map_iff in Hitem as [s [<- Hs]].
  apply in_extract_sections in Hs as [r [Hr Hs]].
  intros n. rewrite (section_init_ui d r s n Hr Hs), Hheat.
  assert (shorten (rule_title d r) 50 = None) as ->.
  { destruct r as [|tag title|tag title keys]; cbn [rule_title]; try apply shorten_str.
    unfold dict_get. destruct (dict_lookup d "title") as [title|] eqn:E.
    - destruct (Htitle title eq_refl) as [s' ->]. apply shorten_str.
    - apply shorten_str. }
  destruct (String.eqb (rule_tag r) "heat_signature"); reflexivity.
Qed.

(** X11: a single record with a [str] title, or none, and a heat signature
    whose preview can be made, is accepted as its sections: they become the
    chunk sequence, from two to ten of them, each with its card, and the
    status line is "Split into N sections ...". *)
Theorem split_into_sections
        (strip : string -> string) (loads : string -> loads_result)
        (self : KernelChunker) (d : dict) :
  strip (drop_zone self) <> "" ->
  loads (strip (drop_zone self)) = Decoded (VDict d) ->
  dict_lookup d "kernels" = None ->
  dict_contains d "id" = true ->
  dict_contains d "emotional_arc" || dict_contains d "heat_signature"
    || dict_contains d "cubic_attractor" = true ->
  (forall title, dict_lookup d "title" = Some title -> exists s, title = VStr s) ->
  (exists preview, heat_label d = inr preview) ->
  exists self',
    process_chunks strip loads self = Returns tt self'
    /\ chunks self' = VList (map VDict (extract_sections d))
    /\ 2 <= length (extract_sections d) <= 10
    /\ current_chunk_index self' = 0%Z
    /\ map kernel_data (chunks_layout self') = map VDict (extract_sections d)
    /\ status_label self'
       = ("Split into " ++ str_of_nat (length (extract_sections d))
            ++ " sections - copy sequentially for best results")%string
    /\ copy_all_btn_enabled self' = true.
Proof.
  intros Hne Hload Hkernels Hid Hfield Htitle Hheat.
  destruct (single_record_sections d Hid Hfield) as [Hlo Hhi].
  pose proof (extract_kernels_single_record d Hkernels Hid Hfield) as Hshape.
  assert (Hitems : map VDict (extract_sections d) <> []).
  { destruct (extract_sections d); [cbn [length] in Hlo; lia | discriminate]. }
  exists (loaded true (map VDict (extract_sections d)) self).
  split.
  - rewrite (process_chunks_run strip loads self _ _ true Hne Hload Hshape Hitems).
    rewrite add_cards_fresh by (apply sections_render; assumption). reflexivity.
  - cbn [loaded chunks current_chunk_index chunks_layout status_label copy_all_btn_enabled].
    rewrite map_kernel_data_fresh, length_map. repeat split; assumption.
Qed.

Lemma split_into_sections_witness :
  exists self',
    process_chunks sample_strip sample_loads (set_drop_zone k1_text initial)
    = Returns tt self'
    /\ status_label self' = "Split into 2 sections - copy sequentially for best results".
Proof.
  destruct (split_into_sections sample_strip sample_loads
              (set_drop_zone k1_text initial) record_k1)
    as [self' [Hrun [_ [_ [_ [_ [Hstatus _]]]]]]].
  - vm_compute. discriminate.
  - reflexivity.
  - reflexivity.
  - reflexivity.
  - reflexivity.
  - intros title H. discriminate H.
  - eexists. reflexivity.
  - exists self'. split; [exact Hrun | exact Hstatus].
Defined.

(** X12: an item that makes no card ends [process_chunks] with the
    exception of [ChunkCard]: no status message is shown; the chunk
    sequence is already the new list and the cursor 0, the layout holds
    the cards of the items before the failing one only, and the status
    line and the sequential-copy button are those of before the parse. *)
Theorem bad_item_stops_card_loop
        (strip : string -> string) (loads : string -> loads_result)
        (self : KernelChunker) (data : value) (pre post : list value) (bad : value)
        (is_sectioned : bool) (e : exn) :
  strip (drop_zone self) <> "" ->
  loads (strip (drop_zone self)) = Decoded data ->
  extract_kernels data = inr (VList (pre ++ bad :: post), is_sectioned) ->
  Forall renders pre ->
  init_ui (S (length pre)) bad = Some e ->
  process_chunks strip loads self
  = Raises e
      {| chunks := VList (pre ++ bad :: post);
         current_chunk_index := 0;
         drop_zone := drop_zone self;
         status_label := status_label self;
         chunks_layout := fresh_cards 1 pre;
         copy_all_btn_enabled := copy_all_btn_enabled self;
         copy_all_btn_text := copy_all_btn_text self;
         clipboard := clipboard self |}.
Proof.
  intros Hne Hload Hshape Hok Hbad.
  rewrite (process_chunks_run strip loads self data _ is_sectioned Hne Hload Hshape)
    by (destruct pre; discriminate).
  rewrite (add_cards_stops pre post bad e 1) by assumption.
  reflexivity.
Qed.

Lemma bad_item_stops_card_loop_witness :
  exists self',
    process_chunks sample_strip
      (fun _ => Decoded (VList [VDict [("id", VStr "a")]; VInt 2]))
      (set_drop_zone "[{...}, 2]" initial)
    = Raises AttributeError self'
    /\ chunks self' = VList [VDict [("id", VStr "a")]; VInt 2]
    /\ map chunk_num (chunks_layout self') = [1]
    /\ status_label self' = "Ready - Drop or paste a kernel deck"
    /\ copy_all_btn_enabled self' = false.
Proof.
  eexists. split.
  - apply (bad_item_stops_card_loop sample_strip _ _
             (VList [VDict [("id", VStr "a")]; VInt 2])
             [VDict [("id", VStr "a")]] [] (VInt 2) false AttributeError).
    + vm_compute. discriminate.
    + reflexivity.
    + reflexivity.
    + apply List.Forall_cons; [apply untitled_renders; reflexivity | apply List.Forall_nil].
    + reflexivity.
  - repeat split.
Defined.

(** X13: a single record whose title has no length (a number, a boolean,
    [null]) cannot be shown: its header section takes the record's title,
    [len] of it raises [TypeError] in the first card, and [process_chunks]
    ends with the sections as chunk sequence and no card at all. *)
Theorem unsized_title_breaks_header_card
        (strip : string -> string) (loads : string -> loads_result)
        (self : KernelChunker) (d : dict) (title : value) :
  strip (drop_zone self) <> "" ->
  loads (strip (drop_zone self)) = Decoded (VDict d) ->
  dict_lookup d "kernels" = None ->
  dict_contains d "id" = true ->
  dict_contains d "emotional_arc" || dict_contains d "heat_signature"
    || dict_contains d "cubic_attractor" = true ->
  dict_lookup d "title" = Some title ->
  py_len title = None ->
  exists self',
    process_chunks strip loads self = Raises TypeError self'
    /\ chunks self' = VList (map VDict (extract_sections d))
    /\ chunks_layout self' = []
    /\ status_label self' = status_label self
    /\ copy_all_btn_enabled self' = copy_all_btn_enabled self.
Proof.
  intros Hne Hload Hkernels Hid Hfield Htitle Hlen.
  pose proof (extract_kernels_single_record d Hkernels Hid Hfield) as Hshape.
  assert (Hheader : triggered d HeaderRule = true).
  { unfold triggered. cbn [rule_triggers header_keys existsb]. rewrite Hid. reflexivity. }
  destruct (run_rule_triggered d HeaderRule) as [s Hrun]. rewrite Hheader in Hrun.
  assert (Hsections : exists rest, extract_sections d = s :: rest).
  { rewrite extract_sections_table. cbn [rule_table flat_map]. rewrite Hrun.
    eexists. reflexivity. }
  destruct Hsections as [rest Hsections].
  assert (Hbad : init_ui 1 (VDict s) = Some TypeError).
  { rewrite (section_init_ui d HeaderRule s 1); [|left; reflexivity | rewrite Hrun; left; reflexivity].
    cbn [rule_title]. rewrite (dict_get_lookup d "title" _ _ Htitle).
    unfold shorten. rewrite Hlen. reflexivity. }
  rewrite Hsections in *. cbn [map] in *.
  rewrite (process_chunks_run strip loads self (VDict d) _ true Hne Hload Hshape)
    by discriminate.
  rewrite (add_cards_stops [] (map VDict rest) (VDict s) TypeError 1)
    by (exact Hbad || apply List.Forall_nil).
  eexists. split; [reflexivity|]. repeat split.
Qed.

Lemma unsized_title_breaks_header_card_witness :
  exists self',
    process_chunks sample_strip (fun _ => Decoded (VDict record_numbered))
      (set_drop_zone "{...}" initial)
    = Raises TypeError self'
    /\ chunks_layout self' = [].
Proof.
  destruct (unsized_title_breaks_header_card sample_strip
              (fun _ => Decoded (VDict record_numbered))
              (set_drop_zone "{...}" initial) record_numbered (VInt 7))
    as [self' [Hrun [_ [Hcards _]]]].
  - vm_compute. discriminate.
  - reflexivity.
  - reflexivity.
  - reflexivity.
  - reflexivity.
  - reflexivity.
  - reflexivity.
  - exists self'. split; assumption.
Defined.

(** ** The sequential-copy button *)

(** [update_copy_all_button] writes a text that a second call finds
    written. *)
Lemma update_copy_all_button_current (self : KernelChunker) (n : nat) :
  py_len (chunks self) = Some n ->
  exists label,
    update_copy_all_button self = Returns tt (set_copy_all_btn_text label self)
    /\ update_copy_all_button (set_copy_all_btn_text label self)
       = Returns tt (set_copy_all_btn_text label self).
Proof.
  intros Hlen. unfold update_copy_all_button. run_slot.
  cbn [chunks current_chunk_index set_copy_all_btn_text].
  rewrite Hlen. destruct (truthy (chunks self)).
  - cbv beta iota.
    destruct (Z.of_nat n - current_chunk_index self <=? 0)%Z;
      eexists; split; reflexivity.
  - exists (copy_all_btn_text self). split; [destruct self; reflexivity | reflexivity].
Qed.

(** Whether the text is current depends on [chunks], the cursor and the
    text only. *)
Lemma button_current_frame (self other : KernelChunker) :
  chunks other = chunks self ->
  current_chunk_index other = current_chunk_index self ->
  copy_all_btn_text other = copy_all_btn_text self ->
  update_copy_all_button self = Returns tt self ->
  update_copy_all_button other = Returns tt other.
Proof.
  intros Hc Hi Ht H. unfold update_copy_all_button in *. run_slot. run_slot in H.
  rewrite Hc, Hi. destruct (truthy (chunks self)); [|reflexivity].
  destruct (py_len (chunks self)) as [n|]; [|discriminate H].
  cbv beta iota in *.
  destruct (Z.of_nat n - current_chunk_index self <=? 0)%Z;
    injection H as H; apply (f_equal copy_all_btn_text) in H; cbn in H;
    rewrite <- Ht in H; f_equal; destruct other; cbn in *; rewrite H; reflexivity.
Qed.


Section ButtonFacts.

Variable strip : string -> string.
Variable loads : string -> loads_result.

(** How [process_chunks] returns: with a status message only, or with the
    widget loaded. *)
Lemma process_chunks_cases (self self' : KernelChunker) :
  process_chunks strip loads self = Returns tt self' ->
  (exists message, self' = set_status_label message self)
  \/ (exists is_sectioned items, items <> [] /\ self' = loaded is_sectioned items self).
Proof.
  intros H.
  destruct (String.eqb (strip (drop_zone self)) "") eqn:Hblank.
  { left. apply String.eqb_eq in Hblank.
    rewrite (process_chunks_failure strip loads self _
               (blank_input strip loads _ Hblank)) in H.
    injection H as <-. eexists. reflexivity. }
  apply String.eqb_neq in Hblank.
  destruct (process_chunks_returns strip loads self self' H)
    as [[message [_ ->]] | [data [b [items [Hload [Hshape [Hne _]]]]]]].
  - left. eexists. reflexivity.
  - right. exists b, items. split; [exact Hne|].
    rewrite (process_chunks_run strip loads self data items b Hblank Hload Hshape Hne) in H.
    destruct (add_cards 1 items _) as [[] mid | e mid]; [|discriminate H].
    injection H as <-. reflexivity.
Qed.

Lemma loaded_synced (is_sectioned : bool) (items : list value) (self : KernelChunker) :
  items <> [] -> synced (loaded is_sectioned items self).
Proof.
  intros Hne. split; [reflexivity|].
  unfold update_copy_all_button. run_slot. cbn [loaded chunks current_chunk_index py_len].
  assert (truthy (VList items) = true) as ->
      by (destruct items; [contradiction | reflexivity]).
  cbv beta iota.
  assert ((Z.of_nat (length items) - 0 <=? 0)%Z = false) as ->.
  { apply Z.leb_gt. destruct items; [contradiction | cbn [length]; lia]. }
  reflexivity.
Qed.

(** The reset branch of [copy_next_chunk], in full. *)
Lemma copy_next_chunk_reset (self : KernelChunker) (n : nat) :
  py_len (chunks self) = Some n ->
  (Z.of_nat n <= current_chunk_index self)%Z ->
  exists label,
    copy_next_chunk self
    = Returns tt
        {| chunks := chunks self;
           current_chunk_index := 0;
           drop_zone := drop_zone self;
           status_label := "Reset - ready to copy again";
           chunks_layout := map reset_style (chunks_layout self);
           copy_all_btn_enabled := copy_all_btn_enabled self;
           copy_all_btn_text := label;
           clipboard := clipboard self |}
    /\ update_copy_all_button
         {| chunks := chunks self;
            current_chunk_index := 0;
            drop_zone := drop_zone self;
            status_label := "Reset - ready to copy again";
            chunks_layout := map reset_style (chunks_layout self);
            copy_all_btn_enabled := copy_all_btn_enabled self;
            copy_all_btn_text := label;
            clipboard := clipboard self |}
       = Returns tt
           {| chunks := chunks self;
              current_chunk_index := 0;
              drop_zone := drop_zone self;
              status_label := "Reset - ready to copy again";
              chunks_layout := map reset_style (chunks_layout self);
              copy_all_btn_enabled := copy_all_btn_enabled self;
              copy_all_btn_text := label;
              clipboard := clipboard self |}.
Proof.
  intros Hlen Hge. unfold copy_next_chunk. run_slot. rewrite Hlen.
  apply Z.leb_le in Hge. rewrite Hge.
  unfold reset_all_cards. run_slot.
  match goal with
  | |- context [update_copy_all_button ?st] =>
      destruct (update_copy_all_button_current st n Hlen) as [label [-> Hcurrent]]
  end.
  exists label. split; [reflexivity|].
  eapply button_current_frame; [| | |exact Hcurrent]; reflexivity.
Qed.

(** The copy branch of [copy_next_chunk], in full, over a layout with a
    card per chunk. *)
Lemma copy_next_chunk_copy (self : KernelChunker) (items : list value) (chunk : value) :
  chunks self = VList items ->
  map kernel_data (chunks_layout self) = items ->
  (0 <= current_chunk_index self < Z.of_nat (length items))%Z ->
  nth_error items (Z.to_nat (current_chunk_index self)) = Some chunk ->
  exists card label,
    chunks_layout self !! Z.to_nat (current_chunk_index self) = Some card
    /\ kernel_data card = chunk
    /\ copy_next_chunk self
       = Returns tt
           {| chunks := chunks self;
              current_chunk_index := current_chunk_index self + 1;
              drop_zone := drop_zone self;
              status_label := status_label self;
              chunks_layout :=
                <[Z.to_nat (current_chunk_index self) := copied card]> (chunks_layout self);
              copy_all_btn_enabled := copy_all_btn_enabled self;
              copy_all_btn_text := label;
              clipboard := Some (json_dumps chunk 2) |}
    /\ update_copy_all_button
         {| chunks := chunks self;
            current_chunk_index := current_chunk_index self + 1;
            drop_zone := drop_zone self;
            status_label := status_label self;
            chunks_layout :=
              <[Z.to_nat (current_chunk_index self) := copied card]> (chunks_layout self);
            copy_all_btn_enabled := copy_all_btn_enabled self;
            copy_all_btn_text := label;
            clipboard := Some (json_dumps chunk 2) |}
       = Returns tt
           {| chunks := chunks self;
              current_chunk_index := current_chunk_index self + 1;
              drop_zone := drop_zone self;
              status_label := status_label self;
              chunks_layout :=
                <[Z.to_nat (current_chunk_index self) := copied card]> (chunks_layout self);
              copy_all_btn_enabled := copy_all_btn_enabled self;
              copy_all_btn_text := label;
              clipboard := Some (json_dumps chunk 2) |}.
Proof.
  intros Hchunks Hcards [Hlo Hhi] Hnth.
  pose proof Hnth as Hcard. rewrite <- Hcards in Hcard.
  apply lookup_map_kernel_data in Hcard as [card [Hcard Hkd]].
  exists card.
  assert (Hneg : (current_chunk_index self <? 0)%Z = false)
    by (apply Z.ltb_ge; exact Hlo).
  assert (Hlen : py_len (chunks self) = Some (length items))
    by (rewrite Hchunks; reflexivity).
  assert (Htruthy : truthy (chunks self) = true).
  { rewrite Hchunks. destruct items; [cbn in Hhi; lia | reflexivity]. }
  assert (Hget : py_getitem (chunks self) (current_chunk_index self) = inr chunk).
  { rewrite Hchunks. unfold py_getitem, py_index. rewrite Hneg.
    assert ((current_chunk_index self <? Z.of_nat (length items))%Z = true) as ->
        by (apply Z.ltb_lt; exact Hhi).
    rewrite Hnth. reflexivity. }
  unfold copy_next_chunk. run_slot. rewrite Hlen, Htruthy, Hget.
  assert ((Z.of_nat (length items) <=? current_chunk_index self)%Z = false) as ->
      by (apply Z.leb_gt; exact Hhi).
  cbv beta iota.
  unfold grey_out_card. rewrite Hneg.
  unfold copy_kernel. run_slot. cbn [chunks_layout set_clipboard].
  rewrite Hcard. cbv beta iota.
  match goal with
  | |- context [update_copy_all_button ?st] =>
      destruct (update_copy_all_button_current st (length items)) as [label [-> Hcurrent]];
        [exact Hlen|]
  end.
  exists label. split; [reflexivity|]. split; [exact Hkd|].
  subst chunk. split; [reflexivity|].
  eapply button_current_frame; [| | |exact Hcurrent]; reflexivity.
Qed.

(** Every action keeps the button and its text in step with the chunks. *)
Lemma perform_synced (a : action) (self self' : KernelChunker) :
  consistent self ->
  synced self ->
  perform strip loads a self = Some (Returns tt self') ->
  synced self'.
Proof.
  intros Hcons [Hen Hcur] H.
  pose proof Hcons as [items [Hc [Hb [Hl He]]]].
  destruct a as [content | name content | reason | | | | i]; cbn [perform] in H.
  - injection H as <-. split; [exact Hen|].
    eapply button_current_frame; [| | |exact Hcur]; reflexivity.
  - injection H as <-. split; [exact Hen|].
    eapply button_current_frame; [| | |exact Hcur]; reflexivity.
  - injection H as <-. split; [exact Hen|].
    eapply button_current_frame; [| | |exact Hcur]; reflexivity.
  - injection H as H. apply process_chunks_cases in H
      as [[message ->] | [b [items' [Hne ->]]]].
    + split; [exact Hen|].
      eapply button_current_frame; [| | |exact Hcur]; reflexivity.
    + apply loaded_synced. exact Hne.
  - injection H as <-. split; [intros Hne; contradiction Hne; reflexivity | reflexivity].
  - destruct (copy_all_btn_enabled self) eqn:Henabled; [|discriminate H].
    injection H as H.
    destruct (Z_le_gt_dec (Z.of_nat (length items)) (current_chunk_index self))
      as [Hge | Hlt].
    + destruct (copy_next_chunk_reset self (length items)) as [label [Hrun Hcurrent]];
        [rewrite Hc; reflexivity | exact Hge |].
      rewrite Hrun in H. injection H as <-.
      split; [intros _; exact Henabled | exact Hcurrent].
    + destruct (nth_error items (Z.to_nat (current_chunk_index self))) as [chunk|] eqn:Hnth.
      2: { apply nth_error_None in Hnth. lia. }
      destruct (copy_next_chunk_copy self items chunk Hc Hl) as
          [card [label [_ [_ [Hrun Hcurrent]]]]]; [lia | exact Hnth |].
      rewrite Hrun in H. injection H as <-.
      split; [intros _; exact Henabled | exact Hcurrent].
  - destruct (i <? length (chunks_layout self)); [|discriminate H].
    injection H as H. unfold copy_kernel in H. run_slot in H.
    destruct (chunks_layout self !! i) as [card|].
    + injection H as <-. split; [exact Hen|].
      eapply button_current_frame; [| | |exact Hcur]; reflexivity.
    + injection H as <-. split; assumption.
Qed.

Lemma reachable_synced (self : KernelChunker) :
  reachable strip loads self -> synced self.
Proof.
  induction 1 as [|self self' a Hreach IH Hstep].
  - split; [intros Hne; contradiction Hne; reflexivity | reflexivity].
  - eapply perform_synced; [|exact IH|exact Hstep].
    apply (reachable_consistent strip loads). exact Hreach.
Qed.

End ButtonFacts.

(** X14: in every state of a session the sequential-copy button is
    enabled exactly when there are chunks: a parse that accepts its input
    enables it, [clear_all] disables it, and nothing else touches it or
    empties the chunk list. *)
Theorem button_enabled_iff_chunks
        (strip : string -> string) (loads : string -> loads_result)
        (self : KernelChunker) :
  reachable strip loads self ->
  (copy_all_btn_enabled self = true <-> chunks self <> VList []).
Proof.
  intros Hreach.
  destruct (reachable_consistent strip loads self Hreach) as [items [Hc [_ [_ He]]]].
  destruct (reachable_synced strip loads self Hreach) as [Hen _].
  split.
  - intros Henabled. rewrite Hc. intros E. injection E as E. apply He; assumption.
  - exact Hen.
Qed.

Lemma button_enabled_iff_chunks_witness :
  copy_all_btn_enabled deck_copied_once = true <-> chunks deck_copied_once <> VList [].
Proof.
  apply (button_enabled_iff_chunks sample_strip sample_loads).
  apply (perform_all_reachable sample_strip sample_loads deck_session initial).
  - apply reachable_initial.
  - reflexivity.
Defined.

(** X15: in every state of a session with chunks, the text of the
    sequential-copy button tells where the cursor is: "START OVER" when
    the cursor has reached the end of the chunk sequence, and
    "COPY NEXT (i/N)" otherwise, [i] the cursor plus one and [N] the
    number of chunks. *)
Theorem button_text_follows_cursor
        (strip : string -> string) (loads : string -> loads_result)
        (self : KernelChunker) (items : list value) :
  reachable strip loads self ->
  chunks self = VList items ->
  items <> [] ->
  copy_all_btn_text self
  = if (Z.of_nat (length items) - current_chunk_index self <=? 0)%Z
    then "START OVER"
    else ("COPY NEXT (" ++ str_of_int (current_chunk_index self + 1)
            ++ "/" ++ str_of_nat (length items) ++ ")")%string.
Proof.
  intros Hreach Hc Hne.
  destruct (reachable_synced strip loads self Hreach) as [_ Hcur].
  unfold update_copy_all_button in Hcur. run_slot in Hcur. rewrite Hc in Hcur.
  assert (Htruthy : truthy (VList items) = true)
    by (destruct items; [contradiction | reflexivity]).
  rewrite Htruthy in Hcur. cbn [py_len] in Hcur. cbv beta iota in Hcur.
  destruct (Z.of_nat (length items) - current_chunk_index self <=? 0)%Z;
    injection Hcur as Hcur; apply (f_equal copy_all_btn_text) in Hcur;
    cbn [copy_all_btn_text set_copy_all_btn_text] in Hcur; symmetry; exact Hcur.
Qed.

Lemma button_text_follows_cursor_witness :
  copy_all_btn_text deck_copied_once = "COPY NEXT (2/2)".
Proof.
  rewrite (button_text_follows_cursor sample_strip sample_loads deck_copied_once
             [VDict [("id", VStr "a")]; VDict [("id", VStr "b")]]).
  - reflexivity.
  - apply (perform_all_reachable sample_strip sample_loads deck_session initial).
    + apply reachable_initial.
    + reflexivity.
  - reflexivity.
  - discriminate.
Defined.

(** X16: a click on the COPY button of the card at position [i] puts the
    chunk at [i] on the clipboard and marks that card as copied, and
    changes nothing else: the cursor of the sequential copy, the chunk
    sequence, the button and the status line stay as they are, so the
    sequential copy goes on from where it was. *)
Theorem card_copy_keeps_cursor
        (strip : string -> string) (loads : string -> loads_result)
        (self : KernelChunker) (items : list value) (i : nat) (chunk : value) :
  reachable strip loads self ->
  chunks self = VList items ->
  nth_error items i = Some chunk ->
  exists card,
    chunks_layout self !! i = Some card
    /\ kernel_data card = chunk
    /\ perform strip loads (ClickCardCopy i) self
       = Some (Returns tt
                 (set_chunks_layout (<[i := copied card]> (chunks_layout self))
                    (set_clipboard (json_dumps chunk 2) self))).
Proof.
  intros Hreach Hc Hnth.
  destruct (reachable_consistent strip loads self Hreach) as [items' [Hc' [_ [Hl _]]]].
  rewrite Hc in Hc'. injection Hc' as <-.
  pose proof Hnth as Hcard. rewrite <- Hl in Hcard.
  apply lookup_map_kernel_data in Hcard as [card [Hcard Hkd]].
  exists card. split; [exact Hcard|]. split; [exact Hkd|].
  cbn [perform].
  assert ((i <? length (chunks_layout self)) = true) as ->.
  { apply Nat.ltb_lt. apply lookup_lt_Some in Hcard. exact Hcard. }
  unfold copy_kernel. run_slot. rewrite Hcard. subst chunk. reflexivity.
Qed.

Lemma card_copy_keeps_cursor_witness :
  exists card self',
    kernel_data card = VDict [("id", VStr "a")]
    /\ perform sample_strip sample_loads (ClickCardCopy 0) deck_copied_once
       = Some (Returns tt self')
    /\ current_chunk_index self' = 1%Z
    /\ clipboard self' = Some (json_dumps (VDict [("id", VStr "a")]) 2).
Proof.
  destruct (card_copy_keeps_cursor sample_strip sample_loads deck_copied_once
              [VDict [("id", VStr "a")]; VDict [("id", VStr "b")]] 0
              (VDict [("id", VStr "a")]))
    as [card [_ [Hkd Hrun]]].
  - apply (perform_all_reachable sample_strip sample_loads deck_session initial).
    + apply reachable_initial.
    + reflexivity.
  - reflexivity.
  - reflexivity.
  - exists card. eexists. split; [exact Hkd|]. split; [exact Hrun|].
    split; reflexivity.
Defined.

(** ** A round of sequential copies *)

Lemma mark_copied_0 (cards : list ChunkCard) : mark_copied 0 cards = cards.
Proof. reflexivity. Qed.

Lemma mark_copied_S (k : nat) (card : ChunkCard) (cards : list ChunkCard) :
  mark_copied (S k) (card :: cards) = copied card :: mark_copied k cards.
Proof. reflexivity. Qed.

Lemma mark_copied_step (k : nat) (cards : list ChunkCard) (card : ChunkCard) :
  cards !! k = Some card ->
  mark_copied k cards !! k = Some card
  /\ <[k := copied card]> (mark_copied k cards) = mark_copied (S k) cards.
Proof.
  revert k. induction cards as [|c cards IH]; intros [|k] H; try discriminate H.
  - injection H as ->. split; reflexivity.
  - destruct (IH k H) as [Hget Hset].
    rewrite mark_copied_S, (mark_copied_S (S k)).
    split; [exact Hget | rewrite <- Hset; reflexivity].
Qed.



Section Rounds.

Variable strip : string -> string.
Variable loads : string -> loads_result.

Lemma perform_all_app (actions actions' : list action) (self : KernelChunker) :
  perform_all strip loads (actions ++ actions') self
  = match perform_all strip loads actions self with
    | Some self' => perform_all strip loads actions' self'
    | None => None
    end.
Proof.
  revert self. induction actions as [|a rest IH]; intros self; cbn [app perform_all].
  - reflexivity.
  - destruct (perform strip loads a self) as [[[] mid | e mid]|]; try reflexivity.
    apply IH.
Qed.

(** [k] clicks on the sequential-copy button, from the cursor at 0. *)
Lemma copy_all_run (self : KernelChunker) (items : list value) (k : nat) :
  reachable strip loads self ->
  chunks self = VList items ->
  current_chunk_index self = 0%Z ->
  k <= length items ->
  exists self',
    perform_all strip loads (repeat ClickCopyAll k) self = Some self'
    /\ chunks self' = VList items
    /\ current_chunk_index self' = Z.of_nat k
    /\ chunks_layout self' = mark_copied k (chunks_layout self)
    /\ (forall j, k = S j ->
                  exists chunk, nth_error items j = Some chunk
                                /\ clipboard self' = Some (json_dumps chunk 2))
    /\ (k = 0 -> clipboard self' = clipboard self)
    /\ status_label self' = status_label self
    /\ drop_zone self' = drop_zone self
    /\ copy_all_btn_enabled self' = copy_all_btn_enabled self.
Proof.
  intros Hreach Hc Hi. induction k as [|k IH]; intros Hk.
  - exists self. cbn [repeat perform_all]. rewrite mark_copied_0.
    repeat split; try assumption. intros j E. discriminate E.
  - destruct IH as [mid [Hrun [Hc' [Hi' [Hl' [_ [_ [Hs' [Hd' He']]]]]]]]]; [lia|].
    assert (Hreach' : reachable strip loads mid)
      by (eapply perform_all_reachable; eassumption).
    destruct (reachable_consistent strip loads mid Hreach') as [items' [Hc'' [_ [Hcards _]]]].
    rewrite Hc' in Hc''. injection Hc'' as <-.
    destruct (reachable_synced strip loads mid Hreach') as [Hen _].
    assert (Henabled : copy_all_btn_enabled mid = true).
    { apply Hen. rewrite Hc'. destruct items; [cbn in Hk; lia | discriminate]. }
    destruct (nth_error items k) as [chunk|] eqn:Hnth.
    2: { apply nth_error_None in Hnth. lia. }
    destruct (copy_next_chunk_copy mid items chunk Hc' Hcards)
      as [card [label [Hcard [_ [Hcopy _]]]]].
    { rewrite Hi'. lia. }
    { rewrite Hi', Nat2Z.id. exact Hnth. }
    rewrite Hi', Nat2Z.id in Hcard, Hcopy.
    rewrite Hl' in Hcard.
    assert (Horig : chunks_layout self !! k = Some card).
    { assert (Hlt : k < length (chunks_layout self)).
      { destruct (reachable_consistent strip loads self Hreach)
          as [items0 [Hc0 [_ [Hcards0 _]]]].
        rewrite Hc in Hc0. injection Hc0 as <-.
        rewrite <- (length_map kernel_data), Hcards0. lia. }
      destruct (chunks_layout self !! k) as [card0|] eqn:E.
      - destruct (mark_copied_step k _ card0 E) as [Hget _]. congruence.
      - apply lookup_ge_None in E. lia. }
    destruct (mark_copied_step k _ card Horig) as [_ Hstep].
    eexists. split.
    + change (repeat ClickCopyAll (S k)) with (ClickCopyAll :: repeat ClickCopyAll k).
      rewrite repeat_cons, perform_all_app, Hrun.
      cbn [perform_all perform]. rewrite Henabled, Hcopy. reflexivity.
    + cbn [chunks current_chunk_index chunks_layout clipboard status_label drop_zone
           copy_all_btn_enabled].
      rewrite Hl', Hstep.
      split; [exact Hc'|]. split; [lia|]. split; [reflexivity|].
      split; [intros j E; injection E as <-; exists chunk; split; [exact Hnth | reflexivity]|].
      split; [intros E; discriminate E|].
      repeat split; assumption.
Qed.

End Rounds.

(** X17: from the cursor at 0, the clicks on the sequential-copy button
    go through the chunks in order: for every [k] up to the number of
    chunks, [k] clicks return, the last of them has put the chunk at
    [k - 1] on the clipboard, the cursor is [k], and the first [k] cards
    are marked as copied while the other cards, the status line and the
    input text are as before. *)
Theorem copy_all_in_order
        (strip : string -> string) (loads : string -> loads_result)
        (self : KernelChunker) (items : list value) (k : nat) :
  reachable strip loads self ->
  chunks self = VList items ->
  current_chunk_index self = 0%Z ->
  k <= length items ->
  exists self',
    perform_all strip loads (repeat ClickCopyAll k) self = Some self'
    /\ chunks self' = VList items
    /\ current_chunk_index self' = Z.of_nat k
    /\ chunks_layout self' = mark_copied k (chunks_layout self)
    /\ (forall j, k = S j ->
                  exists chunk, nth_error items j = Some chunk
                                /\ clipboard self' = Some (json_dumps chunk 2))
    /\ status_label self' = status_label self
    /\ drop_zone self' = drop_zone self.
Proof.
  intros Hreach Hc Hi Hk.
  destruct (copy_all_run strip loads self items k Hreach Hc Hi Hk)
    as [self' [Hrun [Hc' [Hi' [Hl' [Hclip [_ [Hs' [Hd' _]]]]]]]]].
  exists self'. repeat split; assumption.
Qed.

Lemma deck_parsed_reachable : reachable sample_strip sample_loads deck_parsed.
Proof.
  apply (perform_all_reachable sample_strip sample_loads [Edit deck_text; ClickChunk] initial).
  - apply reachable_initial.
  - reflexivity.
Qed.

Lemma copy_all_in_order_witness :
  exists self',
    perform_all sample_strip sample_loads [ClickCopyAll; ClickCopyAll] deck_parsed
    = Some self'
    /\ current_chunk_index self' = 2%Z
    /\ map is_copied (chunks_layout self') = [true; true]
    /\ clipboard self' = Some (json_dumps (VDict [("id", VStr "b")]) 2).
Proof.
  destruct (copy_all_in_order sample_strip sample_loads deck_parsed
              [VDict [("id", VStr "a")]; VDict [("id", VStr "b")]] 2)
    as [self' [Hrun [_ [Hi [Hl [Hclip _]]]]]].
  - exact deck_parsed_reachable.
  - reflexivity.
  - reflexivity.
  - cbn. lia.
  - exists self'. split; [exact Hrun|]. split; [exact Hi|].
    split; [rewrite Hl; reflexivity|].
    destruct (Hclip 1 eq_refl) as [chunk [Hnth ->]].
    injection Hnth as <-. reflexivity.
Defined.



(** ** Drops and files *)

Section FileFacts.

Variable strip : string -> string.
Variable loads : string -> loads_result.
Variable read_text : string -> string + string.
Variable path_name : string -> string.
Variable plain_text : string -> string.

(** What the loop over the URLs does to the widget. *)
Lemma drop_urls_returns (urls : list QUrl) (self : KernelChunker) :
  exists accepted self',
    drop_urls read_text path_name plain_text urls self = Returns accepted self'
    /\ chunks self' = chunks self
    /\ current_chunk_index self' = current_chunk_index self
    /\ chunks_layout self' = chunks_layout self
    /\ copy_all_btn_enabled self' = copy_all_btn_enabled self
    /\ copy_all_btn_text self' = copy_all_btn_text self
    /\ clipboard self' = clipboard self
    /\ (accepted = false -> drop_zone self' = drop_zone self)
    /\ (reachable strip loads self -> reachable strip loads self').
Proof.
  revert self. induction urls as [|url rest IH]; intros self; cbn [drop_urls].
  - exists false, self. repeat split; trivial.
  - destruct (String.eqb (toLocalFile url) ""); [apply IH|].
    unfold read_into_drop_zone.
    destruct (read_text (toLocalFile url)) as [e | content]; run_slot.
    + destruct (IH (set_status_label ("Error: " ++ e)%string self))
        as [accepted [self' [Hrun [Hc [Hi [Hl [He [Ht [Hclip [Hd Hr]]]]]]]]]].
      exists accepted, self'. split; [exact Hrun|].
      repeat split; try assumption.
      intros Hreach. apply Hr.
      apply (reachable_step strip loads self _ (FileFailed e)); [exact Hreach | reflexivity].
    + eexists true, _. split; [reflexivity|].
      repeat split; try discriminate.
      intros Hreach.
      apply (reachable_step strip loads self _
               (FileLoaded (path_name (toLocalFile url)) (plain_text content)));
        [exact Hreach | reflexivity].
Qed.

End FileFacts.

(** X19: a drop never raises and touches the input area and the status
    line only: the chunks, the cursor, the cards, the sequential-copy
    button and the clipboard are as before, and so is the input text
    unless the drop is accepted.  A drop that is accepted was accepted by
    [dragEnterEvent]; and a drop in a state of a session leaves a state of
    a session, the one a run of file loads and edits leaves. *)
Theorem drop_touches_input_only
        (strip : string -> string) (loads : string -> loads_result)
        (read_text : string -> string + string) (path_name plain_text : string -> string)
        (mime : QMimeData) (self : KernelChunker) :
  exists accepted self',
    dropEvent read_text path_name plain_text mime self = Returns accepted self'
    /\ chunks self' = chunks self
    /\ current_chunk_index self' = current_chunk_index self
    /\ chunks_layout self' = chunks_layout self
    /\ copy_all_btn_enabled self' = copy_all_btn_enabled self
    /\ copy_all_btn_text self' = copy_all_btn_text self
    /\ clipboard self' = clipboard self
    /\ (accepted = false -> drop_zone self' = drop_zone self)
    /\ (accepted = true -> dragEnterEvent mime = true)
    /\ (reachable strip loads self -> reachable strip loads self').
Proof.
  unfold dropEvent, dragEnterEvent.
  destruct (hasUrls mime).
  - destruct (drop_urls_returns strip loads read_text path_name plain_text (urls mime) self)
      as [accepted [self' [Hrun [Hc [Hi [Hl [He [Ht [Hclip [Hd Hr]]]]]]]]]].
    exists accepted, self'. repeat split; assumption.
  - destruct (hasText mime); run_slot.
    + eexists true, _. split; [reflexivity|].
      repeat split; try discriminate.
      intros Hreach.
      apply (reachable_step strip loads self _ (Edit (plain_text (text mime))));
        [exact Hreach | reflexivity].
    + exists false, self. repeat split; trivial.
Qed.

(** X20: a drop of files loads the first one that is local and can be
    read: its text goes to the input area, the status line names it, and
    the event is accepted.  The URLs before it leave no trace, and the
    ones after it are not looked at. *)
Theorem first_readable_file_wins
        (read_text : string -> string + string) (path_name plain_text : string -> string)
        (mime : QMimeData) (pre post : list QUrl) (url : QUrl) (content : string)
        (self : KernelChunker) :
  hasUrls mime = true ->
  urls mime = pre ++ url :: post ->
  Forall (unreadable read_text) pre ->
  toLocalFile url <> "" ->
  read_text (toLocalFile url) = inr content ->
  dropEvent read_text path_name plain_text mime self
  = Returns true
      (set_status_label ("Loaded: " ++ path_name (toLocalFile url))%string
         (set_drop_zone (plain_text content) self)).
Proof.
  intros Hurls Hsplit Hpre Hlocal Hread. unfold dropEvent. rewrite Hurls, Hsplit.
  clear Hurls Hsplit. revert self.
  induction Hpre as [|u pre Hu _ IH]; intros self; cbn [app drop_urls].
  - apply String.eqb_neq in Hlocal. rewrite Hlocal.
    unfold read_into_drop_zone. rewrite Hread. reflexivity.
  - destruct Hu as [Hempty | [e He]].
    + rewrite Hempty. cbn [String.eqb]. apply IH.
    + destruct (String.eqb (toLocalFile u) ""); [apply IH|].
      unfold read_into_drop_zone. rewrite He. run_slot. rewrite IH. reflexivity.
Qed.

Lemma first_readable_file_wins_witness :
  dropEvent sample_read_text sample_path_name (fun s => s)
    {| hasUrls := true;
       urls := [{| toLocalFile := "" |}; {| toLocalFile := "/decks/missing.json" |};
                {| toLocalFile := "/decks/deck.json" |}];
       hasText := true; text := "dragged text" |}
    initial
  = Returns true
      (set_status_label "Loaded: deck.json" (set_drop_zone deck_text initial)).
Proof.
  apply (first_readable_file_wins sample_read_text sample_path_name (fun s => s) _
           [{| toLocalFile := "" |}; {| toLocalFile := "/decks/missing.json" |}] []
           {| toLocalFile := "/decks/deck.json" |} deck_text).
  - reflexivity.
  - reflexivity.
  - apply List.Forall_cons; [left; reflexivity|].
    apply List.Forall_cons; [right; eexists; reflexivity | apply List.Forall_nil].
  - discriminate.
  - reflexivity.
Defined.

(** X21: URLs hide the text of a drop.  When the drop has URLs and none
    of them gives a file that can be read, the event is ignored and the
    input area keeps its text, even if the drop carries text as well; the
    status line is as before, or shows the error of a file that failed. *)
Theorem urls_shadow_text
        (read_text : string -> string + string) (path_name plain_text : string -> string)
        (mime : QMimeData) (self : KernelChunker) :
  hasUrls mime = true ->
  Forall (unreadable read_text) (urls mime) ->
  exists self',
    dropEvent read_text path_name plain_text mime self = Returns false self'
    /\ drop_zone self' = drop_zone self
    /\ (self' = self
        \/ exists url e,
             In url (urls mime)
             /\ read_text (toLocalFile url) = inl e
             /\ self' = set_status_label ("Error: " ++ e)%string self).
Proof.
  intros Hurls Hall. unfold dropEvent. rewrite Hurls. clear Hurls. revert self.
  induction Hall as [|u rest Hu _ IH]; intros self; cbn [drop_urls].
  - exists self. split; [reflexivity|]. split; [reflexivity | left; reflexivity].
  - assert (Hskip : forall st : KernelChunker,
               (st = self \/ exists e, read_text (toLocalFile u) = inl e
                                       /\ st = set_status_label ("Error: " ++ e)%string self) ->
               exists self',
                 drop_urls read_text path_name plain_text rest st = Returns false self'
                 /\ drop_zone self' = drop_zone self
                 /\ (self' = self
                     \/ exists url e,
                          In url (u :: rest)
                          /\ read_text (toLocalFile url) = inl e
                          /\ self' = set_status_label ("Error: " ++ e)%string self)).
    { intros st Hst. destruct (IH st) as [self' [Hrun [Hd Hs]]].
      exists self'. split; [exact Hrun|].
      assert (Hdz : drop_zone st = drop_zone self).
      { destruct Hst as [-> | [e [_ ->]]]; reflexivity. }
      split; [rewrite Hd; exact Hdz|].
      destruct Hs as [-> | [url [e [Hin [He ->]]]]].
      - destruct Hst as [-> | [e [He ->]]]; [left; reflexivity|].
        right. exists u, e. split; [left; reflexivity|]. split; [exact He | reflexivity].
      - right. exists url, e. split; [right; exact Hin|]. split; [exact He|].
        destruct Hst as [-> | [e' [_ ->]]]; reflexivity. }
    destruct (String.eqb (toLocalFile u) "") eqn:Hempty.
    + apply Hskip. left. reflexivity.
    + destruct Hu as [Hu | [e He]];
        [apply String.eqb_neq in Hempty; contradiction|].
      unfold read_into_drop_zone. rewrite He. run_slot.
      apply Hskip. right. exists e. split; [exact He | reflexivity].
Qed.

Lemma urls_shadow_text_witness :
  exists self',
    dropEvent sample_read_text sample_path_name (fun s => s)
      {| hasUrls := true; urls := [{| toLocalFile := "/decks/missing.json" |}];
         hasText := true; text := "dragged text" |}
      initial
    = Returns false self'
    /\ drop_zone self' = "".
Proof.
  destruct (urls_shadow_text sample_read_text sample_path_name (fun s => s)
              {| hasUrls := true; urls := [{| toLocalFile := "/decks/missing.json" |}];
                 hasText := true; text := "dragged text" |}
              initial)
    as [self' [Hrun [Hd _]]].
  - reflexivity.
  - apply List.Forall_cons; [right; eexists; reflexivity | apply List.Forall_nil].
  - exists self'. split; [exact Hrun | exact Hd].
Defined.

(** X22: the LOAD button does what a drop of the chosen file does: both
    leave the widget in the same state, whether the file can be read or
    not; a cancelled dialog, like a URL that names no local file, leaves
    the widget as it is. *)
Theorem load_file_as_drop
        (read_text : string -> string + string) (path_name plain_text : string -> string)
        (file_path : string) (self : KernelChunker) :
  exists accepted self',
    load_file read_text path_name plain_text file_path self = Returns tt self'
    /\ dropEvent read_text path_name plain_text
         {| hasUrls := true; urls := [{| toLocalFile := file_path |}];
            hasText := false; text := "" |}
         self
       = Returns accepted self'
    /\ (file_path = "" -> self' = self).
Proof.
  unfold load_file, dropEvent. cbn [hasUrls urls drop_urls toLocalFile].
  destruct (String.eqb file_path "") eqn:Hempty.
  - exists false, self. repeat split.
  - unfold read_into_drop_zone.
    destruct (read_text file_path) as [e | content]; run_slot;
      eexists _, _; (split; [reflexivity|]); (split; [reflexivity|]);
      intros ->; discriminate Hempty.
Qed.

(** ** Dragging the window *)

Lemma wrap_small (z : Z) : (- 2 ^ 31 <= z < 2 ^ 31)%Z -> QPoint.wrap z = z.
Proof.
  intros H. unfold QPoint.wrap.
  rewrite Z.mod_small by lia. lia.
Qed.

Lemma handle_all_app (ms ms' : list mouse) (self : Window) :
  handle_all (ms ++ ms') self = handle_all ms' (handle_all ms self).
Proof. unfold handle_all. apply fold_left_app. Qed.

(** While the left button is held, moves keep the drag going and leave
    [drag_position] alone. *)
Lemma moves_keep_dragging (moves : list QMouseEvent) (self : Window) :
  is_dragging self = true ->
  Forall (fun m => existsb is_left (buttons m) = true) moves ->
  is_dragging (handle_all (map Move moves) self) = true
  /\ drag_position (handle_all (map Move moves) self) = drag_position self
  /\ closed (handle_all (map Move moves) self) = closed self.
Proof.
  intros Hdrag Hheld. revert self Hdrag.
  induction Hheld as [|m moves Hm _ IH]; intros self Hdrag.
  - repeat split; assumption.
  - change (handle_all (map Move (m :: moves)) self)
      with (handle_all (map Move moves) (mouseMoveEvent m self)).
    unfold mouseMoveEvent. rewrite Hdrag, Hm. cbn [andb].
    destruct (IH {| topLeft := QPoint.sub (globalPosition m) (drag_position self);
                    is_dragging := true;
                    drag_position := drag_position self;
                    closed := closed self |} eq_refl) as [H1 [H2 H3]].
    repeat split; assumption.
Qed.

(** X23: a drag moves the window with the pointer.  After a press of the
    left button in the top 40 pixels, off the close button, and any
    number of moves with the left button held, the top-left corner of the
    window is where it was at the press, displaced by what the pointer
    has moved since: the window stays under the pointer at the point where
    it was taken.  (The points are those of a screen, far from the limits
    of [int].) *)
Theorem drag_follows_pointer
        (self : Window) (press : QMouseEvent) (moves : list QMouseEvent)
        (last : QMouseEvent) :
  button press = LeftButton ->
  on_close_button (pos press) = false ->
  (QPoint.y (pos press) < 40)%Z ->
  Forall (fun m => existsb is_left (buttons m) = true) (moves ++ [last]) ->
  on_screen (topLeft self) ->
  on_screen (globalPosition press) ->
  on_screen (globalPosition last) ->
  QPoint.x (topLeft (handle_all (Press press :: map Move (moves ++ [last])) self))
  = (QPoint.x (topLeft self)
     + (QPoint.x (globalPosition last) - QPoint.x (globalPosition press)))%Z
  /\ QPoint.y (topLeft (handle_all (Press press :: map Move (moves ++ [last])) self))
     = (QPoint.y (topLeft self)
        + (QPoint.y (globalPosition last) - QPoint.y (globalPosition press)))%Z
  /\ is_dragging (handle_all (Press press :: map Move (moves ++ [last])) self) = true.
Proof.
  intros Hleft Hclose Hband Hheld [Hx Hy] [Hgx Hgy] [Hlx Hly].
  change (handle_all (Press press :: map Move (moves ++ [last])) self)
    with (handle_all (map Move (moves ++ [last])) (mousePressEvent press self)).
  unfold mousePressEvent. rewrite Hleft. cbn [is_left]. rewrite Hclose.
  apply Z.ltb_lt in Hband. rewrite Hband.
  rewrite map_app, handle_all_app.
  apply Forall_app in Hheld as [Hmoves Hlast].
  apply Forall_cons_1 in Hlast as [Hlast _].
  set (taken := {| topLeft := topLeft self; is_dragging := true;
                   drag_position := QPoint.sub (globalPosition press) (topLeft self);
                   closed := closed self |}).
  destruct (moves_keep_dragging moves taken eq_refl Hmoves) as [Hdrag [Hpos _]].
  cbn [map handle_all fold_left handle]. fold (handle_all (map Move moves) taken).
  unfold mouseMoveEvent. rewrite Hdrag, Hlast, Hpos. cbn [andb topLeft is_dragging].
  unfold taken. cbn [drag_position]. unfold QPoint.sub. cbn [QPoint.x QPoint.y].
  rewrite (wrap_small (QPoint.x (globalPosition press) - QPoint.x (topLeft self))) by lia.
  rewrite (wrap_small (QPoint.y (globalPosition press) - QPoint.y (topLeft self))) by lia.
  rewrite !wrap_small by lia.
  repeat split; lia.
Qed.

Lemma drag_follows_pointer_witness :
  topLeft (handle_all [Press press_title_bar; Move (move_to 170 125); Move (move_to 200 150)]
             window_at_rest)
  = {| QPoint.x := 140; QPoint.y := 130 |}.
Proof.
  destruct (drag_follows_pointer window_at_rest press_title_bar [move_to 170 125]
              (move_to 200 150))
    as [Hx [Hy _]].
  - reflexivity.
  - reflexivity.
  - reflexivity.
  - repeat (apply List.Forall_cons; [reflexivity|]). apply List.Forall_nil.
  - split; cbn; lia.
  - split; cbn; lia.
  - split; cbn; lia.
  - cbn [app map] in Hx, Hy.
    destruct (topLeft _) as [x y]. cbn [QPoint.x QPoint.y] in Hx, Hy.
    rewrite Hx, Hy. reflexivity.
Defined.

(** X24: the window moves in a drag only.  From a window that is not
    being dragged, a run of mouse events without a press that starts a
    drag (moves, releases, presses of another button, presses below the
    top 40 pixels, presses on the close button) leaves the window where
    it is, and not dragged. *)
Theorem window_moves_only_in_drag (events : list mouse) (self : Window) :
  is_dragging self = false ->
  Forall (fun m => starts_drag m = false) events ->
  topLeft (handle_all events self) = topLeft self
  /\ is_dragging (handle_all events self) = false.
Proof.
  intros Hrest Hall. revert self Hrest.
  induction Hall as [|m events Hm _ IH]; intros self Hrest.
  - split; [reflexivity | exact Hrest].
  - change (handle_all (m :: events) self) with (handle_all events (handle m self)).
    assert (Hstep : topLeft (handle m self) = topLeft self
                    /\ is_dragging (handle m self) = false).
    { destruct m as [event | event | event]; cbn [handle starts_drag] in *.
      - unfold mousePressEvent.
        destruct (is_left (button event)); [|split; [reflexivity | exact Hrest]].
        destruct (on_close_button (pos event)); [split; [reflexivity | exact Hrest]|].
        cbn [andb negb] in Hm. rewrite Hm. split; [reflexivity | exact Hrest].
      - unfold mouseMoveEvent. rewrite Hrest. split; [reflexivity | exact Hrest].
      - split; reflexivity. }
    destruct Hstep as [Htop Hdrag].
    destruct (IH (handle m self) Hdrag) as [H1 H2].
    split; [rewrite H1; exact Htop | exact H2].
Qed.

Lemma window_moves_only_in_drag_witness :
  topLeft (handle_all
             [Press {| button := RightButton; buttons := [RightButton];
                       pos := {| QPoint.x := 60; QPoint.y := 20 |};
                       globalPosition := {| QPoint.x := 160; QPoint.y := 120 |} |};
              Move (move_to 200 150); Release (move_to 200 150)]
             window_at_rest)
  = topLeft window_at_rest.
Proof.
  apply (window_moves_only_in_drag _ window_at_rest).
  - reflexivity.
  - repeat (apply List.Forall_cons; [reflexivity|]). apply List.Forall_nil.
Defined.

(** ** Parsing again *)

(** Whether the card loop returns does not depend on the widget. *)
Lemma add_cards_any_state (items : list value) (i : nat) (self self' other : KernelChunker) :
  add_cards i items self = Returns tt self' ->
  exists other', add_cards i items other = Returns tt other'.
Proof.
  revert i self other. induction items as [|item rest IH]; intros i self other H;
    cbn [add_cards] in *.
  - eexists. reflexivity.
  - unfold bind at 1 in H. unfold or_raise, new_ChunkCard in H.
    unfold bind at 1. unfold or_raise, new_ChunkCard.
    destruct (init_ui i item) as [e|]; [discriminate H|].
    cbn beta iota in H |- *. unfold ret at 1 in H. unfold ret at 1. cbn beta iota in H |- *.
    unfold bind at 1, this in H. unfold bind at 1, this. cbn beta iota in H |- *.
    unfold bind at 1, assign at 1 in H. unfold bind at 1, assign at 1.
    cbn beta iota in H |- *.
    eapply IH. exact H.
Qed.

(** X25: parsing the same input again changes nothing: when a click on
    CHUNK returns, a second click on it, with the input area untouched,
    returns and leaves the widget as the first click left it, whether the
    parse failed or was accepted. *)
Theorem process_chunks_idempotent
        (strip : string -> string) (loads : string -> loads_result)
        (self self' : KernelChunker) :
  process_chunks strip loads self = Returns tt self' ->
  process_chunks strip loads self' = Returns tt self'.
Proof.
  intros H.
  assert (Hfail : forall message,
             parse_failure strip loads (drop_zone self) message ->
             self' = set_status_label message self ->
             process_chunks strip loads self' = Returns tt self').
  { intros message Hmsg ->.
    rewrite (process_chunks_failure strip loads _ message) by exact Hmsg.
    reflexivity. }
  destruct (String.eqb (strip (drop_zone self)) "") eqn:Hblank.
  { apply String.eqb_eq in Hblank.
    eapply Hfail; [apply blank_input; exact Hblank|].
    rewrite (process_chunks_failure strip loads self _
               (blank_input strip loads _ Hblank)) in H.
    injection H as <-. reflexivity. }
  apply String.eqb_neq in Hblank.
  destruct (process_chunks_returns strip loads self self' H)
    as [[message [Hmsg ->]] | [data [b [items [Hload [Hshape [Hne _]]]]]]].
  - eapply Hfail; [exact Hmsg | reflexivity].
  - rewrite (process_chunks_run strip loads self data items b Hblank Hload Hshape Hne) in H.
    destruct (add_cards 1 items _) as [[] mid | e mid] eqn:Hcards; [|discriminate H].
    injection H as <-.
    rewrite (process_chunks_run strip loads _ data items b) by assumption.
    match goal with
    | |- context [add_cards 1 items ?st] =>
        destruct (add_cards_any_state items 1 _ _ st Hcards) as [other ->]
    end.
    reflexivity.
Qed.

Lemma process_chunks_idempotent_witness :
  process_chunks sample_strip sample_loads deck_parsed = Returns tt deck_parsed.
Proof.
  apply (process_chunks_idempotent sample_strip sample_loads
           (set_drop_zone deck_text initial)).
  reflexivity.
Defined.

(** ** What the slots never do *)

(** The card loop, however it ends, changes the layout only, adding the
    cards of the items before the first one that makes no card. *)
Lemma add_cards_outcome (items : list value) (i : nat) (self : KernelChunker) :
  (add_cards i items self
   = Returns tt (set_chunks_layout (chunks_layout self ++ fresh_cards i items) self))
  \/ exists pre bad post e,
       items = pre ++ bad :: post
       /\ init_ui (i + length pre) bad = Some e
       /\ add_cards i items self
          = Raises e (set_chunks_layout (chunks_layout self ++ fresh_cards i pre) self).
Proof.
  revert i self. induction items as [|item rest IH]; intros i self; cbn [add_cards].
  - left. cbn [fresh_cards]. rewrite app_nil_r. destruct self; reflexivity.
  - unfold new_ChunkCard. destruct (init_ui i item) as [e|] eqn:Hinit; run_slot.
    + right. exists [], item, rest, e. cbn [app length fresh_cards].
      rewrite Nat.add_0_r, app_nil_r. repeat split; [exact Hinit|].
      destruct self; reflexivity.
    + destruct (IH (S i)
                   (set_chunks_layout
                      (chunks_layout self
                         ++ [{| chunk_num := i; kernel_data := item; is_copied := false |}])
                      self))
        as [Hrun | [pre [bad [post [e [-> [Hbad Hrun]]]]]]].
      * left. rewrite Hrun. cbn. rewrite <- app_assoc. reflexivity.
      * right. exists (item :: pre), bad, post, e. cbn [app length fresh_cards].
        split; [reflexivity|]. split; [rewrite <- Hbad; f_equal; lia|].
        rewrite Hrun. cbn. rewrite <- app_assoc. reflexivity.
Qed.

(** X26: [process_chunks] reads the input area and never writes to it,
    and it never touches the clipboard: however the slot ends, with a
    message, with chunks or with an exception, the input text and the
    clipboard are what they were. *)
Theorem process_chunks_keeps_input_and_clipboard
        (strip : string -> string) (loads : string -> loads_result)
        (self : KernelChunker) :
  drop_zone (state_of (process_chunks strip loads self)) = drop_zone self
  /\ clipboard (state_of (process_chunks strip loads self)) = clipboard self.
Proof.
  unfold process_chunks. run_slot.
  destruct (String.eqb (strip (drop_zone self)) ""); [split; reflexivity|].
  destruct (loads (strip (drop_zone self))) as [data | e | e]; try (split; reflexivity).
  destruct (extract_kernels data) as [message | [kernels is_sectioned]];
    [split; reflexivity|].
  destruct (truthy kernels) eqn:Htruthy; cbn [negb]; [|split; reflexivity].
  unfold clear_chunks. run_slot.
  destruct (py_iter kernels) as [items|] eqn:Hiter; cbv beta iota; [|split; reflexivity].
  match goal with
  | |- context [add_cards 1 items ?st] =>
      destruct (add_cards_outcome items 1 st)
        as [-> | [pre [bad [post [e [_ [_ ->]]]]]]]
  end; [|split; reflexivity].
  destruct (py_len kernels) as [n|] eqn:Hlen; cbv beta iota; [|split; reflexivity].
  destruct is_sectioned; cbv beta iota;
    match goal with
    | |- context [update_copy_all_button ?st] =>
        destruct (update_copy_all_button_returns st n Hlen) as [label ->]
    end; split; reflexivity.
Qed.



(** X28: when a click on CHUNK ends with an exception, it is for one of
    three reasons: the decoder raised something other than
    [json.JSONDecodeError], and the widget is untouched; or the value
    found for the kernels is neither a list nor empty, so that the loop
    cannot draw dict items from it; or an item of the list makes no card,
    and the exception is the one of [ChunkCard] for that item. *)
Theorem chunk_raises_for_three_reasons
        (strip : string -> string) (loads : string -> loads_result)
        (self self' : KernelChunker) (e : exn) :
  process_chunks strip loads self = Raises e self' ->
  (loads (strip (drop_zone self)) = LoadsRaises e /\ self' = self)
  \/ (exists data kernels is_sectioned,
         loads (strip (drop_zone self)) = Decoded data
         /\ extract_kernels data = inr (kernels, is_sectioned)
         /\ truthy kernels = true
         /\ chunks self' = kernels
         /\ ((forall items, kernels <> VList items)
             \/ exists pre bad post,
                  kernels = VList (pre ++ bad :: post)
                  /\ init_ui (S (length pre)) bad = Some e
                  /\ chunks_layout self' = fresh_cards 1 pre)).
Proof.
  intros H. unfold process_chunks in H. run_slot in H.
  destruct (String.eqb (strip (drop_zone self)) ""); [discriminate H|].
  destruct (loads (strip (drop_zone self))) as [data | msg | e'] eqn:Hload;
    [|discriminate H|].
  2: { left. injection H as <- <-. split; reflexivity. }
  right.
  destruct (extract_kernels data) as [message | [kernels is_sectioned]] eqn:Hshape;
    [discriminate H|].
  destruct (truthy kernels) eqn:Htruthy; cbn [negb] in H; [|discriminate H].
  exists data, kernels, is_sectioned.
  split; [reflexivity|]. split; [exact Hshape|]. split; [exact Htruthy|].
  unfold clear_chunks in H. run_slot in H.
  destruct kernels as [ | b | z | f | s | items | entries]; cbn [py_iter] in H.
  - discriminate Htruthy.
  - injection H as <- <-. split; [reflexivity | left; discriminate].
  - injection H as <- <-. split; [reflexivity | left; discriminate].
  - injection H as <- <-. split; [reflexivity | left; discriminate].
  - destruct s as [|c s]; [discriminate Htruthy|].
    cbn in H. injection H as <- <-. split; [reflexivity | left; discriminate].
  - match type of H with
    | context [add_cards 1 items ?st] =>
        destruct (add_cards_outcome items 1 st)
          as [Hrun | [pre [bad [post [e0 [-> [Hbad Hrun]]]]]]]; rewrite Hrun in H
    end.
    + cbn [py_len] in H. cbv beta iota in H.
      destruct is_sectioned; cbv beta iota in H;
        match type of H with
        | context [update_copy_all_button ?st] =>
            destruct (update_copy_all_button_returns st (length items) eq_refl)
              as [label Hbtn];
            rewrite Hbtn in H
        end; discriminate H.
    + injection H as <- <-. split; [reflexivity|].
      right. exists pre, bad, post. split; [reflexivity|]. split; [exact Hbad | reflexivity].
  - destruct entries as [|[k v] entries]; [discriminate Htruthy|].
    cbn in H. injection H as <- <-. split; [reflexivity | left; discriminate].
Qed.

Lemma chunk_raises_for_three_reasons_witness :
  exists pre bad post,
    VList [VDict [("id", VStr "a")]; VInt 2] = VList (pre ++ bad :: post)
    /\ init_ui (S (length pre)) bad = Some AttributeError.
Proof.
  destruct (chunk_raises_for_three_reasons sample_strip
              (fun _ => Decoded (VList [VDict [("id", VStr "a")]; VInt 2]))
              (set_drop_zone "[{...}, 2]" initial)
              {| chunks := VList [VDict [("id", VStr "a")]; VInt 2];
                 current_chunk_index := 0;
                 drop_zone := "[{...}, 2]";
                 status_label := "Ready - Drop or paste a kernel deck";
                 chunks_layout :=
                   [{| chunk_num := 1; kernel_data := VDict [("id", VStr "a")];
                       is_copied := false |}];
                 copy_all_btn_enabled := false;
                 copy_all_btn_text := "COPY ALL (Sequentially)";
                 clipboard := None |}
              AttributeError)
    as [[Hload _] | [data [kernels [b [Hload [Hshape [_ [_ Hwhy]]]]]]]].
  - vm_compute. reflexivity.
  - discriminate Hload.
  - injection Hload as <-. cbn [extract_kernels] in Hshape. injection Hshape as <- _.
    destruct Hwhy as [Hno | [pre [bad [post [Hsplit [Hbad _]]]]]].
    + exfalso. eapply Hno. reflexivity.
    + exists pre, bad, post. split; [exact Hsplit | exact Hbad].
Defined.

(** ** The look of a card *)

(** The labels of a card: the title, the section name or the ID, and the
    heat preview if there is one. *)
Lemma info_layout_shape (chunk_num : nat) (kernel_data : value) (info : list QLabel) :
  info_layout chunk_num kernel_data = inr info ->
  exists title meta heat,
    info = TitleLabel chunk_num title :: meta :: heat
    /\ ((exists v, meta = SectionLabel v) \/ (exists v, meta = IdLabel v))
    /\ (heat = [] \/ exists tenderness trust erotic,
                       heat = [HeatLabel tenderness trust erotic]).
Proof.
  intros H. destruct kernel_data as [ | | | | | | d]; try discriminate H.
  unfold info_layout in H.
  destruct (title_label chunk_num d) as [e | title] eqn:Htitle; [discriminate H|].
  destruct (meta_label d) as [e | meta] eqn:Hmeta; [discriminate H|].
  destruct (heat_label d) as [e | heat] eqn:Hheat; [discriminate H|].
  injection H as <-.
  assert (Ht : exists v, title = TitleLabel chunk_num v).
  { unfold title_label in Htitle.
    destruct (py_len _) as [n|]; [|discriminate Htitle].
    destruct (50 <? n).
    - destruct (dict_get d "title" _); try discriminate Htitle.
      injection Htitle as <-. eexists. reflexivity.
    - injection Htitle as <-. eexists. reflexivity. }
  destruct Ht as [v ->].
  exists v, meta, (match heat with Some l => [l] | None => [] end).
  split; [reflexivity|]. split.
  - unfold meta_label in Hmeta.
    destruct (truthy (dict_get d "section" VNone)).
    + left. destruct (dict_get d "section" VNone); try discriminate Hmeta;
        injection Hmeta as <-; eexists; reflexivity.
    + right. destruct (py_len _) as [n|]; [|discriminate Hmeta].
      destruct (40 <? n).
      * destruct (dict_get d "id" _); try discriminate Hmeta.
        injection Hmeta as <-. eexists. reflexivity.
      * injection Hmeta as <-. eexists. reflexivity.
  - unfold heat_label in Hheat.
    destruct (truthy (dict_get d "heat_signature" (VDict []))).
    + destruct (dict_get d "heat_signature" (VDict [])); try discriminate Hheat.
      match type of Hheat with
      | context [?a >> ?b >> ?c] => destruct (a >> b >> c)
      end; [discriminate Hheat|].
      injection Hheat as <-. right. eexists _, _, _. reflexivity.
    + injection Hheat as <-. left. reflexivity.
Qed.

(** X29: [reset_style] gives the metadata label the style of an ID line,
    whatever the card.  So after a copy and a reset the frame and the
    title and heat labels have the style sheets [init_ui] gave them, and
    the metadata label has its own again exactly on a card with an ID
    line: the "Section: ..." line of a section card comes back in the grey
    of an ID, not in its bold purple. *)
Theorem reset_style_forgets_section_style
        (chunk_num : nat) (kernel_data : value) (info : list QLabel) :
  info_layout chunk_num kernel_data = inr info ->
  Look.styleSheet
    (Look.reset_style (Look.set_copied_style (Look.copy_kernel (Look.init_ui info))))
  = Look.styleSheet (Look.init_ui info)
  /\ Look.is_copied
       (Look.reset_style (Look.set_copied_style (Look.copy_kernel (Look.init_ui info))))
     = false
  /\ (Look.labels
        (Look.reset_style (Look.set_copied_style (Look.copy_kernel (Look.init_ui info))))
      = Look.labels (Look.init_ui info)
      <-> forall v, ~ In (SectionLabel v) info)
  /\ (forall v,
         In (SectionLabel v) info ->
         Look.labels (Look.init_ui info) !! 1 = Some Look.section_style
         /\ Look.labels
              (Look.reset_style
                 (Look.set_copied_style (Look.copy_kernel (Look.init_ui info)))) !! 1
            = Some Look.id_style).
Proof.
  intros H.
  destruct (info_layout_shape chunk_num kernel_data info H)
    as [title [meta [heat [-> [[[v ->] | [v ->]] [-> | [a [b [c ->]]]]]]]]].
  all: split; [reflexivity|]; split; [reflexivity|]; split.
  all: try (split; [intros E; vm_compute in E; discriminate E
                   | intros Hno; exfalso; apply (Hno v); right; left; reflexivity]).
  all: try (split; [intros _ v' Hin;
                    repeat (destruct Hin as [Hin | Hin]; [discriminate Hin|]); exact Hin
                   | intros _; vm_compute; reflexivity]).
  all: intros v' Hin; try (split; vm_compute; reflexivity).
  all: exfalso; repeat (destruct Hin as [Hin | Hin]; [discriminate Hin|]); exact Hin.
Qed.

Lemma reset_style_forgets_section_style_witness :
  Look.labels (Look.init_ui [TitleLabel 1 (VStr "Heat Signature");
                             SectionLabel (VStr "Heat Signature")]) !! 1
  = Some "color: #9B59B6; font-size: 9px; font-weight: bold;"
  /\ Look.labels
       (Look.reset_style
          (Look.set_copied_style
             (Look.copy_kernel
                (Look.init_ui [TitleLabel 1 (VStr "Heat Signature");
                               SectionLabel (VStr "Heat Signature")])))) !! 1
     = Some "color: #888; font-size: 9px;".
Proof.
  destruct (reset_style_forgets_section_style 1
              (VDict [("section", VStr "heat_signature"); ("title", VStr "Heat Signature")])
              [TitleLabel 1 (VStr "Heat Signature"); SectionLabel (VStr "Heat Signature")]
              eq_refl)
    as [_ [_ [_ Hmeta]]].
  apply (Hmeta (VStr "Heat Signature")). right. left. reflexivity.
Defined.

(** X30: the timer of [copy_kernel] greys the card out whatever has
    happened since the copy.  When the card is reset before the timer
    fires, the timer still gives it the frame of a copied card, though it
    is no longer marked as copied; when the timer fires first, the reset
    gives it back the frame [init_ui] gave it. *)
Theorem late_timer_greys_reset_card (card : Look.t) :
  Look.styleSheet (Look.timeout (Look.reset_style (Look.copy_kernel card)))
  = Look.frame_copied
  /\ Look.is_copied (Look.timeout (Look.reset_style (Look.copy_kernel card))) = false
  /\ Look.styleSheet (Look.reset_style (Look.timeout (Look.copy_kernel card)))
     = Look.frame_default
  /\ Look.frame_copied <> Look.frame_default.
Proof.
  repeat split. discriminate.
Qed.
